(** * Campaign planner / calendar / executor: a shallow embedding

    The Python classes [CampaignCalendar], [SocialMediaSimulator],
    [CampaignExecutor], [PerformanceAnalyzer] and [CampaignOrchestrator]
    are embedded as functions over an explicit program state, in a small
    state-and-exception monad.  The parts of the Python standard library
    the code calls ([datetime], string formatting, [float] arithmetic)
    are modelled first, in [Module Py]. *)

Set Warnings "-inexact-float,-register-all".
From Stdlib Require Import ZArith String Ascii List Floats Lia.
From Stdlib Require Import Sorting.Sorted Sorting.Permutation.
From stdpp Require Import base tactics option list gmap strings pretty.

Local Open Scope string_scope.
Local Open Scope list_scope.
Local Open Scope Z_scope.

(** ** The Python library, as far as the program uses it *)
Module Py.

(** Exceptions the modelled code can raise. *)
Inductive exn :=
| ValueError
| OverflowError
| TypeError
| BadReference.  (* model only: an address naming no object; no Python
                    reference is ever dangling *)

Inductive outcome (A : Type) : Type :=
| Ok (a : A)
| Raise (e : exn).
Arguments Ok {A} a.
Arguments Raise {A} e.

(** *** Values stored in [Dict]s and written by [json.dump] *)
Inductive pyval : Type :=
| VNone
| VInt (z : Z)
| VFloat (f : float)
| VStr (s : string)
| VList (l : list pyval)
| VDict (d : list (string * pyval)).

(** A [dict] keeps insertion order; string-keyed dictionaries whose order
    is observable (iteration, JSON export) are association lists without
    repeated keys. *)
Definition dict := list (string * pyval).

Fixpoint dict_lookup {V} (k : string) (d : list (string * V)) : option V :=
  match d with
  | [] => None
  | (k', v) :: d' => if String.eqb k k' then Some v else dict_lookup k d'
  end.

(** [d.get(k, dflt)] *)
Definition dict_get {V} (d : list (string * V)) (k : string) (dflt : V) : V :=
  default dflt (dict_lookup k d).

(** [d[k] = v]: replace in place when the key exists, append otherwise. *)
Fixpoint dict_set {V} (k : string) (v : V) (d : list (string * V)) : list (string * V) :=
  match d with
  | [] => [(k, v)]
  | (k', v') :: d' =>
      if String.eqb k k' then (k, v) :: d' else (k', v') :: dict_set k v d'
  end.

Definition nl : string := String (ascii_of_nat 10) "".

(** [range(n)] *)
Definition range (n : nat) : list Z := map Z.of_nat (seq 0 n).

(** *** Integers and their text *)

(** [str(n)] for an [int]. *)
Definition str_int (n : Z) : string := pretty n.

Definition digit_char (d : Z) : ascii :=
  ascii_of_nat (48 + Z.to_nat (d mod 10)).

(** The [w] low decimal digits of [n], most significant first. *)
Fixpoint fixed_digits (w : nat) (n : Z) : string :=
  match w with
  | O => ""
  | S w' => fixed_digits w' (n / 10) +:+ String (digit_char n) ""
  end.

(** ["%0wd" % n] for [n >= 0]: zero-padded to width [w], never truncated. *)
Definition fmt_0d (w : nat) (n : Z) : string :=
  if n <? 10 ^ Z.of_nat w then fixed_digits w n else str_int n.

(** Groups of three digits, separated by commas, for [format(n, ",")]. *)
Fixpoint group3 (fuel : nat) (n : Z) : string :=
  match fuel with
  | O => str_int n
  | S fuel' =>
      if n <? 1000 then str_int n
      else group3 fuel' (n / 1000) +:+ "," +:+ fixed_digits 3 (n mod 1000)
  end.

(** [f"{n:,}"] for an [int]. *)
Definition fmt_comma_int (n : Z) : string :=
  let a := Z.abs n in
  (if n <? 0 then "-" else "") +:+ group3 (Z.to_nat (Z.log2 a)) a.

(** [s[:n]] and [f"{s:n}"] (left-justified, padded with spaces).  Strings
    are byte sequences here; on ASCII text bytes and code points agree. *)
Definition str_take (n : nat) (s : string) : string := substring 0 n s.



Fixpoint str_repeat (n : nat) (s : string) : string :=
  match n with O => "" | S n' => s +:+ str_repeat n' s end.

(** *** Floats: IEEE binary64, as Python's [float] *)

(** [float(n)] for an [int], rounded to nearest-even: the primitive
    conversion below 2^63, the specification's rounding beyond.  (Python
    raises [OverflowError] beyond the binary64 range; the integers of this
    program come from [int(x)] of a float or from small constants.) *)
Definition float_of_int (n : Z) : float :=
  if Z.abs n <? 9223372036854775808 then
    let x := PrimFloat.of_uint63 (Uint63.of_Z (Z.abs n)) in
    if n <? 0 then PrimFloat.opp x else x
  else SF2Prim (binary_normalize prec emax n 0 false).

(** [int(x)]: truncation toward zero.  Python raises on [nan] and on the
    infinities, which never arise from [random.random()] in [0, 1) and the
    finite constants of the program; the model returns [0] there. *)
Definition py_int (x : float) : Z :=
  match Prim2SF x with
  | S754_finite s m e =>
      let a := match e with
               | Z0 => Zpos m
               | Zpos p => Z.shiftl (Zpos m) (Zpos p)
               | Zneg p => Z.shiftr (Zpos m) (Zpos p)
               end in
      if s then - a else a
  | _ => 0
  end.

(** Round-half-even division of a non-negative numerator by [2^k]. *)
Definition div_pow2_half_even (n : Z) (k : Z) : Z :=
  let q := Z.shiftr n k in
  let r := n - Z.shiftl q k in
  let half := Z.shiftl 1 (k - 1) in
  if r <? half then q
  else if half <? r then q + 1
  else if Z.even q then q else q + 1.

(** [round(x)]: the nearest integer, ties to even (same convention as
    [py_int] on [nan] and the infinities). *)
Definition py_round (x : float) : Z :=
  match Prim2SF x with
  | S754_finite s m e =>
      let a := match e with
               | Z0 => Zpos m
               | Zpos p => Z.shiftl (Zpos m) (Zpos p)
               | Zneg p => div_pow2_half_even (Zpos m) (Zpos p)
               end in
      if s then - a else a
  | _ => 0
  end.

(** [f"{x:.2f}"] for a float: the exact binary value, correctly rounded
    to two decimals. *)
Definition fmt_2f (x : float) : string :=
  match Prim2SF x with
  | S754_zero s => (if s then "-" else "") +:+ "0.00"
  | S754_infinity s => (if s then "-" else "") +:+ "inf"
  | S754_nan => "nan"
  | S754_finite s m e =>
      let hundredths :=
        match e with
        | Z0 => Zpos m * 100
        | Zpos p => Z.shiftl (Zpos m * 100) (Zpos p)
        | Zneg p => div_pow2_half_even (Zpos m * 100) (Zpos p)
        end in
      (if s then "-" else "") +:+ str_int (hundredths / 100) +:+ "."
        +:+ fixed_digits 2 (hundredths mod 100)
  end.

(** *** [datetime]: naive timestamps of the proleptic Gregorian calendar *)

Record datetime := mk_datetime {
  year : Z; month : Z; day : Z;
  hour : Z; minute : Z; second : Z; microsecond : Z
}.

Definition is_leap (y : Z) : bool :=
  (y mod 4 =? 0) && (negb (y mod 100 =? 0) || (y mod 400 =? 0)).

Definition days_before_year (y : Z) : Z :=
  let y' := y - 1 in y' * 365 + y' / 4 - y' / 100 + y' / 400.

Definition DAYS_IN_MONTH : list Z :=
  [-1; 31; 28; 31; 30; 31; 30; 31; 31; 30; 31; 30; 31].

Definition DAYS_BEFORE_MONTH : list Z :=
  [-1; 0; 31; 59; 90; 120; 151; 181; 212; 243; 273; 304; 334].

Definition table (t : list Z) (i : Z) : Z := nth (Z.to_nat i) t 0.

Definition days_in_month (y m : Z) : Z :=
  if (m =? 2) && is_leap y then 29 else table DAYS_IN_MONTH m.

Definition days_before_month (y m : Z) : Z :=
  table DAYS_BEFORE_MONTH m + (if (2 <? m) && is_leap y then 1 else 0).

Definition ymd2ord (y m d : Z) : Z :=
  days_before_year y + days_before_month y m + d.

Definition DI400Y : Z := 146097.
Definition DI100Y : Z := 36524.
Definition DI4Y : Z := 1461.
Definition MAXORDINAL : Z := 3652059.

Definition ord2ymd (n : Z) : Z * Z * Z :=
  let n := n - 1 in
  let n400 := n / DI400Y in let n := n mod DI400Y in
  let y := n400 * 400 + 1 in
  let n100 := n / DI100Y in let n := n mod DI100Y in
  let n4 := n / DI4Y in let n := n mod DI4Y in
  let n1 := n / 365 in let n := n mod 365 in
  let y := y + n100 * 100 + n4 * 4 + n1 in
  if (n1 =? 4) || (n100 =? 4) then (y - 1, 12, 31)
  else
    let leapyear := (n1 =? 3) && (negb (n4 =? 24) || (n100 =? 3)) in
    let m := Z.shiftr (n + 50) 5 in
    let preceding :=
      table DAYS_BEFORE_MONTH m + (if (2 <? m) && leapyear then 1 else 0) in
    if n <? preceding then
      let m := m - 1 in
      let preceding :=
        preceding
        - (table DAYS_IN_MONTH m + (if (m =? 2) && leapyear then 1 else 0)) in
      (y, m, n - preceding + 1)
    else (y, m, n - preceding + 1).

Definition toordinal (dt : datetime) : Z :=
  ymd2ord (year dt) (month dt) (day dt).

(** The date [n] days after [dt], at the same time of day. *)
Definition days_after (dt : datetime) (n : Z) : datetime :=
  let '(y, m, d) := ord2ymd (toordinal dt + n) in
  mk_datetime y m d (hour dt) (minute dt) (second dt) (microsecond dt).

(** [dt + timedelta(days=n)].  [timedelta] itself is limited to
    999999999 days, and the sum must stay within years 1..9999. *)
Definition add_days (dt : datetime) (n : Z) : outcome datetime :=
  if (n <? -999999999) || (999999999 <? n) then Raise OverflowError
  else
    let o := toordinal dt + n in
    if (0 <? o) && (o <=? MAXORDINAL) then Ok (days_after dt n)
    else Raise OverflowError.

(** Naive datetimes compare field by field. *)
Definition dt_fields (dt : datetime) : list Z :=
  [year dt; month dt; day dt; hour dt; minute dt; second dt; microsecond dt].

Fixpoint lex_compare (a b : list Z) : comparison :=
  match a, b with
  | [], [] => Eq
  | [], _ :: _ => Lt
  | _ :: _, [] => Gt
  | x :: a', y :: b' =>
      match x ?= y with Eq => lex_compare a' b' | c => c end
  end.

Definition dt_compare (a b : datetime) : comparison :=
  lex_compare (dt_fields a) (dt_fields b).

(** [a <= b] *)
Definition dt_leb (a b : datetime) : bool :=
  match dt_compare a b with Gt => false | _ => true end.

(** [dt.isoformat()] *)
Definition isoformat_date (dt : datetime) : string :=
  fmt_0d 4 (year dt) +:+ "-" +:+ fmt_0d 2 (month dt) +:+ "-" +:+ fmt_0d 2 (day dt).

Definition isoformat (dt : datetime) : string :=
  isoformat_date dt +:+ "T" +:+ fmt_0d 2 (hour dt) +:+ ":" +:+ fmt_0d 2 (minute dt)
    +:+ ":" +:+ fmt_0d 2 (second dt)
    +:+ (if microsecond dt =? 0 then "" else "." +:+ fmt_0d 6 (microsecond dt)).

(** [dt.strftime('%Y-%m-%d %H:%M')], the year padded to four digits as
    documented (a C library may leave years below 1000 unpadded). *)
Definition strftime_minutes (dt : datetime) : string :=
  isoformat_date dt +:+ " " +:+ fmt_0d 2 (hour dt) +:+ ":" +:+ fmt_0d 2 (minute dt).

(** *** [datetime.fromisoformat] *)

Definition digit_val (c : ascii) : option Z :=
  let n := Z.of_nat (nat_of_ascii c) in
  if (48 <=? n) && (n <=? 57) then Some (n - 48) else None.

(** Reads exactly [n] ASCII digits. *)
Fixpoint parse_digits (n : nat) (acc : Z) (s : string) : option (Z * string) :=
  match n with
  | O => Some (acc, s)
  | S n' =>
      match s with
      | String c s' => d ← digit_val c; parse_digits n' (acc * 10 + d) s'
      | EmptyString => None
      end
  end.

Definition expect (c : ascii) (s : string) : option string :=
  match s with
  | String c' s' => if Ascii.eqb c c' then Some s' else None
  | EmptyString => None
  end.

Definition valid_date (y m d : Z) : bool :=
  (1 <=? y) && (y <=? 9999) && (1 <=? m) && (m <=? 12)
  && (1 <=? d) && (d <=? days_in_month y m).

Definition valid_time (h mi s us : Z) : bool :=
  (0 <=? h) && (h <? 24) && (0 <=? mi) && (mi <? 60)
  && (0 <=? s) && (s <? 60) && (0 <=? us) && (us <? 1000000).

Definition valid_datetime (dt : datetime) : bool :=
  valid_date (year dt) (month dt) (day dt)
  && valid_time (hour dt) (minute dt) (second dt) (microsecond dt).

Definition checked (dt : datetime) : option datetime :=
  if valid_datetime dt then Some dt else None.

(** The layouts [YYYY-MM-DD], [YYYY-MM-DD#HH:MM:SS] and
    [YYYY-MM-DD#HH:MM:SS.ffffff], where [#] is any single character (the
    layouts every version of [fromisoformat] accepts for naive
    timestamps).  [None] stands for [ValueError]; recent Python versions
    accept further layouts, on which no statement below relies. *)
Definition fromisoformat (s : string) : option datetime :=
  '(y, s) ← parse_digits 4 0 s;
  s ← expect "-" s;
  '(m, s) ← parse_digits 2 0 s;
  s ← expect "-" s;
  '(d, s) ← parse_digits 2 0 s;
  match s with
  | EmptyString => checked (mk_datetime y m d 0 0 0 0)
  | String _ s =>
      '(h, s) ← parse_digits 2 0 s;
      s ← expect ":" s;
      '(mi, s) ← parse_digits 2 0 s;
      s ← expect ":" s;
      '(sec, s) ← parse_digits 2 0 s;
      match s with
      | EmptyString => checked (mk_datetime y m d h mi sec 0)
      | String c s =>
          if Ascii.eqb c "." then
            '(us, s) ← parse_digits 6 0 s;
            match s with
            | EmptyString => checked (mk_datetime y m d h mi sec us)
            | _ => None
            end
          else None
      end
  end.

(** [sorted(l, key=...)] on string keys: the stable ascending sort.  An
    element moves in front of exactly those with a strictly greater key. *)
Section Sorted.
Context {A : Type} (key : A -> string).

Fixpoint insert_by (x : A) (l : list A) : list A :=
  match l with
  | [] => [x]
  | y :: l' =>
      if String.ltb (key y) (key x) then y :: insert_by x l' else x :: y :: l'
  end.

Fixpoint sorted_by (l : list A) : list A :=
  match l with
  | [] => []
  | x :: l' => insert_by x (sorted_by l')
  end.
End Sorted.


End Py.

(** ** Program state and effects *)
Import Py.

Definition addr := nat.

(** [calendar_manager.CampaignEvent] (a mutable dataclass instance). *)
Record CampaignEvent := mk_event {
  campaign_id : string;
  platform : string;
  title : string;
  content : string;
  scheduled_time : string;
  status : string;
  performance_metrics : dict
}.

(** The [metrics] sub-dictionary of a post. *)
Record Metrics := mk_metrics {
  reach : Z;
  engagements : Z;
  likes : Z;
  comments : Z;
  shares : Z;
  clicks : Z;
  conversions : Z
}.

(** The [post_data] dictionary built by [post_to_platform]. *)
Record PostRecord := mk_post {
  post_id : string;
  post_platform : string;
  content_preview : string;
  posted_at : string;
  post_scheduled_time : string;
  post_status : string;
  metrics : Metrics
}.

(** An entry of [CampaignExecutor.execution_log]. *)
Record LogEntry := mk_log {
  log_campaign_id : string;
  log_platform : string;
  execution_time : string;
  log_status : string
}.

(** The campaign plan dictionary kept in [CampaignOrchestrator.campaigns]
    (the fields [schedule_campaigns] reads). *)
Record CampaignPlan := mk_plan {
  plan_name : string;
  plan_platforms : list string;
  plan_content : gmap string string;
  plan_start_date : string
}.

(** One process: the objects the orchestrator owns, the [CampaignEvent]
    instances by address (they are shared between the calendar's list and
    the lists handed to callers), and the environment. *)
Record World := mk_world {
  stdout : list string;                   (* lines printed so far *)
  clock_ticks : nat;                      (* calls of datetime.now() so far *)
  rng_ticks : nat;                        (* calls of random.random() so far *)
  files : gmap string pyval;              (* documents written by json.dump *)
  objects : list CampaignEvent;           (* CampaignEvent instances *)
  events : list addr;                     (* CampaignCalendar.events *)
  executed_campaigns : list PostRecord;   (* SocialMediaSimulator *)
  execution_log : list LogEntry;          (* CampaignExecutor *)
  campaigns : gmap string CampaignPlan    (* CampaignOrchestrator *)
}.

Definition empty_world : World :=
  mk_world [] 0 0 ∅ [] [] [] [] ∅.

Definition set_stdout (v : list string) (w : World) : World :=
  mk_world v (clock_ticks w) (rng_ticks w) (files w) (objects w) (events w)
    (executed_campaigns w) (execution_log w) (campaigns w).
Definition set_clock_ticks (v : nat) (w : World) : World :=
  mk_world (stdout w) v (rng_ticks w) (files w) (objects w) (events w)
    (executed_campaigns w) (execution_log w) (campaigns w).
Definition set_rng_ticks (v : nat) (w : World) : World :=
  mk_world (stdout w) (clock_ticks w) v (files w) (objects w) (events w)
    (executed_campaigns w) (execution_log w) (campaigns w).
Definition set_files (v : gmap string pyval) (w : World) : World :=
  mk_world (stdout w) (clock_ticks w) (rng_ticks w) v (objects w) (events w)
    (executed_campaigns w) (execution_log w) (campaigns w).
Definition set_objects (v : list CampaignEvent) (w : World) : World :=
  mk_world (stdout w) (clock_ticks w) (rng_ticks w) (files w) v (events w)
    (executed_campaigns w) (execution_log w) (campaigns w).
Definition set_events (v : list addr) (w : World) : World :=
  mk_world (stdout w) (clock_ticks w) (rng_ticks w) (files w) (objects w) v
    (executed_campaigns w) (execution_log w) (campaigns w).
Definition set_executed_campaigns (v : list PostRecord) (w : World) : World :=
  mk_world (stdout w) (clock_ticks w) (rng_ticks w) (files w) (objects w)
    (events w) v (execution_log w) (campaigns w).
Definition set_execution_log (v : list LogEntry) (w : World) : World :=
  mk_world (stdout w) (clock_ticks w) (rng_ticks w) (files w) (objects w)
    (events w) (executed_campaigns w) v (campaigns w).
Definition set_campaigns (v : gmap string CampaignPlan) (w : World) : World :=
  mk_world (stdout w) (clock_ticks w) (rng_ticks w) (files w) (objects w)
    (events w) (executed_campaigns w) (execution_log w) v.

(** Computations that read and change the world and may raise. *)
Definition M (A : Type) : Type := World -> outcome A * World.

Definition ret {A} (a : A) : M A := fun w => (Ok a, w).

Definition bind {A B} (m : M A) (k : A -> M B) : M B :=
  fun w =>
    match m w with
    | (Ok a, w') => k a w'
    | (Raise e, w') => (Raise e, w')
    end.

Definition raise {A} (e : exn) : M A := fun w => (Raise e, w).

Notation "'let*' x ':=' m 'in' k" := (bind m (fun x => k))
  (at level 10, x name, m at level 100, k at level 200).
Notation "'do' m 'then' k" := (bind m (fun _ => k))
  (at level 10, m at level 100, k at level 200).

Definition lift {A} (o : outcome A) : M A := fun w => (o, w).

Definition lift_option {A} (e : exn) (o : option A) : M A :=
  match o with Some a => ret a | None => raise e end.

(** [for x in l: acc = body(x, acc)], the loop variables being [acc]. *)
Fixpoint for_fold {A S} (l : list A) (acc : S) (body : A -> S -> M S) : M S :=
  match l with
  | [] => ret acc
  | x :: l' => let* acc' := body x acc in for_fold l' acc' body
  end.

(** [print(line)] *)
Definition print (line : string) : M unit :=
  fun w => (Ok tt, set_stdout (stdout w ++ [line]) w).

(** Reading and replacing an object's fields through its address. *)
Definition load (a : addr) : M CampaignEvent :=
  fun w => match objects w !! a with
           | Some e => (Ok e, w)
           | None => (Raise BadReference, w)
           end.

Definition store (a : addr) (e : CampaignEvent) : M unit :=
  fun w => (Ok tt, set_objects (<[a := e]> (objects w)) w).

(** [CampaignEvent(...)] with [__post_init__]: a new instance, whose
    [performance_metrics] is [{}] when [None] was given. *)
Definition new_CampaignEvent (cid platform title content scheduled_time : string)
    (status : string) (performance_metrics : option dict) : M addr :=
  fun w =>
    let e := mk_event cid platform title content scheduled_time status
               (default [] performance_metrics) in
    (Ok (length (objects w)), set_objects (objects w ++ [e]) w).

(** ** The program *)
Section Program.

(** The environment of one run: successive readings of the clock and
    of the random generator, the string hash of the process, and the
    text Python gives to a float. *)
Variable now_at : nat -> datetime.
Variable random_at : nat -> float.
Variable hash : string -> Z.
Variable py_str : pyval -> string.          (* str(v), v not an int or str *)
Variable float_comma : float -> string.     (* format(x, ",") of a float *)
Variable timestamp_repr : datetime -> string. (* str(dt.timestamp()) *)

(** [datetime.now()] *)
Definition datetime_now : M datetime :=
  fun w => (Ok (now_at (clock_ticks w)), set_clock_ticks (S (clock_ticks w)) w).

(** [random.random()] *)
Definition random_random : M float :=
  fun w => (Ok (random_at (rng_ticks w)), set_rng_ticks (S (rng_ticks w)) w).

(** *** calendar_manager.py: CampaignCalendar *)

Definition add_event (event : addr) : M unit :=
  let* e := load event in
  fun w =>
    print ("✓ Added " +:+ platform e +:+ " campaign: " +:+ title e +:+ " on "
             +:+ scheduled_time e)
      (set_events (events w ++ [event]) w).

Definition schedule_campaign_across_platforms
    (campaign_id campaign_title : string) (platforms : list string)
    (content_per_platform : gmap string string) (start_date : string)
    (frequency : string) : M (list addr) :=
  let* start := lift_option ValueError (fromisoformat start_date) in
  for_fold platforms [] (fun platform events =>
    let content := default "" (content_per_platform !! platform) in
    if String.eqb frequency "once" then
      let scheduled_time := isoformat start in
      let* event := new_CampaignEvent campaign_id platform campaign_title
                      content scheduled_time "Scheduled" None in
      do add_event event then
      ret (events ++ [event])
    else if String.eqb frequency "daily" then
      for_fold (range 7) events (fun i events =>
        let* t := lift (add_days start i) in
        let scheduled_time := isoformat t in
        let* event := new_CampaignEvent
                        (campaign_id +:+ "_day" +:+ str_int (i + 1))
                        platform
                        (campaign_title +:+ " - Day " +:+ str_int (i + 1))
                        content scheduled_time "Scheduled" None in
        do add_event event then
        ret (events ++ [event]))
    else if String.eqb frequency "weekly" then
      for_fold (range 4) events (fun i events =>
        let* t := lift (add_days start (7 * i)) in
        let scheduled_time := isoformat t in
        let* event := new_CampaignEvent
                        (campaign_id +:+ "_week" +:+ str_int (i + 1))
                        platform
                        (campaign_title +:+ " - Week " +:+ str_int (i + 1))
                        content scheduled_time "Scheduled" None in
        do add_event event then
        ret (events ++ [event]))
    else ret events).

(** [[event for event in self.events if lo <= fromisoformat(...) <= hi]] *)
Definition events_between (lo hi : datetime) : M (list addr) :=
  fun w =>
    for_fold (events w) [] (fun event acc =>
      let* e := load event in
      let* t := lift_option ValueError (fromisoformat (scheduled_time e)) in
      ret (if dt_leb lo t && dt_leb t hi then acc ++ [event] else acc)) w.

(** The sort key [lambda x: x.scheduled_time]. *)
Definition scheduled_time_of (w : World) (event : addr) : string :=
  match objects w !! event with
  | Some e => scheduled_time e
  | None => ""
  end.

Definition sorted_by_scheduled_time (l : list addr) : M (list addr) :=
  fun w => (Ok (sorted_by (scheduled_time_of w) l), w).

Definition get_upcoming_events (days : Z) : M (list addr) :=
  let* now := datetime_now in
  let* future := lift (add_days now days) in
  let* upcoming := events_between now future in
  sorted_by_scheduled_time upcoming.

Definition execute_event (event : addr) : M unit :=
  let* e := load event in
  let h := hash (campaign_id e) in
  do store event
       (mk_event (campaign_id e) (platform e) (title e) (content e)
          (scheduled_time e) "Executed"
          [("reach", VInt (5000 + h mod 10000));
           ("engagement", VInt (250 + h mod 1000));
           ("clicks", VInt (50 + h mod 500));
           ("conversions", VInt (5 + h mod 50))]) then
  print ("✓ Executed " +:+ platform e +:+ " campaign: " +:+ title e).




(** [with open(filename, 'w') as f: json.dump(data, f, indent=2)]; the
    file then holds [data]. *)
Definition json_dump_to (filename : string) (data : pyval) : M unit :=
  fun w => (Ok tt, set_files (<[filename := data]> (files w)) w).


(** *** campaign_executor.py: SocialMediaSimulator *)

Record PlatformConfig := mk_config {
  base_reach : Z;
  engagement_rate : float;
  avg_followers : Z
}.

(** [_initialize_platforms()] *)
Definition platform_configs : list (string * PlatformConfig) :=
  [("LinkedIn", mk_config 10000 0.025 5000);
   ("Twitter", mk_config 15000 0.035 8000);
   ("Instagram", mk_config 20000 0.045 12000);
   ("Facebook", mk_config 25000 0.020 15000);
   ("TikTok", mk_config 30000 0.055 20000)].

(** The metrics of one post, from the four random draws in the order
    the code makes them. *)
Definition simulate_metrics (base_reach : Z) (engagement_rate : float)
    (r1 r2 r3 r4 : float) : Metrics :=
  let reach := py_int (float_of_int base_reach * (0.8 + r1 * 0.4))%float in
  let engagements :=
    py_int (float_of_int reach * engagement_rate * (0.7 + r2 * 0.6))%float in
  let clicks := py_int (float_of_int engagements * 0.2 * (0.5 + r3))%float in
  let conversions := py_int (float_of_int clicks * 0.05 * (0.3 + r4))%float in
  mk_metrics reach engagements
    (py_int (float_of_int engagements * 0.7)%float)
    (py_int (float_of_int engagements * 0.2)%float)
    (py_int (float_of_int engagements * 0.1)%float)
    clicks conversions.

Definition post_to_platform (platform content scheduled_time : string)
    : M PostRecord :=
  let* t_id := datetime_now in
  let post_id := platform +:+ "_" +:+ timestamp_repr t_id in
  let config := dict_lookup platform platform_configs in
  let base_reach := from_option base_reach 5000 config in
  let engagement_rate := from_option engagement_rate 0.03%float config in
  let* r1 := random_random in
  let* r2 := random_random in
  let* r3 := random_random in
  let* r4 := random_random in
  let* t_posted := datetime_now in
  let post_data :=
    mk_post post_id platform (str_take 100 content) (isoformat t_posted)
      scheduled_time "live"
      (simulate_metrics base_reach engagement_rate r1 r2 r3 r4) in
  fun w =>
    (Ok post_data,
     set_executed_campaigns (executed_campaigns w ++ [post_data]) w).

Definition sum_of (f : Metrics -> Z) (posts : list PostRecord) : Z :=
  foldr (fun p acc => f (metrics p) + acc) 0 posts.

(** [a / b * 100] on ints (true division; exact operands below 2^53). *)
Definition percent (a b : Z) : float :=
  (float_of_int a / float_of_int b * float_of_int 100)%float.

(** [get_platform_analytics] as a function of the history. *)
Definition platform_analytics (history : list PostRecord) (platform : string)
    : dict :=
  let platform_posts :=
    List.filter (fun p => String.eqb (post_platform p) platform) history in
  match platform_posts with
  | [] => [("platform", VStr platform); ("posts", VInt 0); ("total_reach", VInt 0)]
  | _ :: _ =>
      let total_reach := sum_of reach platform_posts in
      let total_engagements := sum_of engagements platform_posts in
      let total_clicks := sum_of clicks platform_posts in
      let total_conversions := sum_of conversions platform_posts in
      [("platform", VStr platform);
       ("posts_count", VInt (Z.of_nat (length platform_posts)));
       ("total_reach", VInt total_reach);
       ("total_engagements", VInt total_engagements);
       ("avg_engagement_rate",
        if 0 <? total_reach then VFloat (percent total_engagements total_reach)
        else VInt 0);
       ("total_clicks", VInt total_clicks);
       ("total_conversions", VInt total_conversions);
       ("ctr",
        if 0 <? total_reach then VFloat (percent total_clicks total_reach)
        else VInt 0);
       ("conversion_rate",
        if 0 <? total_clicks then VFloat (percent total_conversions total_clicks)
        else VInt 0)]
  end.

Definition get_platform_analytics (platform : string) : M dict :=
  fun w => (Ok (platform_analytics (executed_campaigns w) platform), w).

Definition get_all_analytics : M (list (string * dict)) :=
  let platforms := map fst platform_configs in
  for_fold platforms [] (fun platform analytics =>
    let* a := get_platform_analytics platform in
    ret (dict_set platform a analytics)).

(** *** campaign_executor.py: CampaignExecutor *)

Record ExecutionResult := mk_result {
  result_campaign_id : string;
  started_at : string;
  platforms_targeted : list string;
  posts : list PostRecord
}.

Definition log_execution (entry : LogEntry) : M unit :=
  fun w => (Ok tt, set_execution_log (execution_log w ++ [entry]) w).

(** The body of the loop over the platforms; [continue] leaves the
    posts as they are. *)
Definition execute_campaign_body (campaign_id : string)
    (content_per_platform : gmap string string) (start_time : string)
    (platform : string) (posts : list PostRecord) : M (list PostRecord) :=
  let content := default "" (content_per_platform !! platform) in
  if String.eqb content "" then ret posts
  else
    let* result := post_to_platform platform content start_time in
    let* t := datetime_now in
    do log_execution (mk_log campaign_id platform (isoformat t) "executed") then
    ret (posts ++ [result]).

Definition execute_campaign (campaign_id : string) (platforms : list string)
    (content_per_platform : gmap string string) (start_time : option string)
    : M ExecutionResult :=
  let* start_time :=
    match start_time with
    | None => let* t := datetime_now in ret (isoformat t)
    | Some s => ret s
    end in
  let* t_started := datetime_now in
  let* posts :=
    for_fold platforms []
      (execute_campaign_body campaign_id content_per_platform start_time) in
  ret (mk_result campaign_id (isoformat t_started) platforms posts).

(** *** performance_tracker.py: PerformanceAnalyzer *)

(** [f"{v}"] *)
Definition fmt_plain (v : pyval) : string :=
  match v with
  | VInt z => str_int z
  | VStr s => s
  | _ => py_str v
  end.

(** [f"{v:,}"]: numbers only. *)
Definition fmt_comma (v : pyval) : outcome string :=
  match v with
  | VInt z => Ok (fmt_comma_int z)
  | VFloat x => Ok (float_comma x)
  | VStr _ => Raise ValueError
  | _ => Raise TypeError
  end.

(** [f"{v:.2f}"]: numbers only. *)
Definition fmt_fixed2 (v : pyval) : outcome string :=
  match v with
  | VInt z => Ok (fmt_2f (float_of_int z))
  | VFloat x => Ok (fmt_2f x)
  | VStr _ => Raise ValueError
  | _ => Raise TypeError
  end.

(** [v > 0] *)
Definition is_positive (v : pyval) : outcome bool :=
  match v with
  | VInt z => Ok (0 <? z)
  | VFloat x => Ok (PrimFloat.ltb 0 x)
  | _ => Raise TypeError
  end.

(** [dt.strftime('%Y-%m-%d %H:%M:%S')] *)
Definition strftime_seconds (dt : datetime) : string :=
  strftime_minutes dt +:+ ":" +:+ fmt_0d 2 (second dt).

(** The pieces one iteration of the platform loop appends to [report],
    one per [report += ...] statement. *)
Definition platform_section (platform : string) (data : dict) : M (list string) :=
  let s1 := nl +:+ "📱 " +:+ platform +:+ nl in
  let s2 := str_repeat 40 "-" +:+ nl in
  let s3 := "  Posts:             " +:+ fmt_plain (dict_get data "posts_count" (VInt 0)) +:+ nl in
  let* reach := lift (fmt_comma (dict_get data "total_reach" (VInt 0))) in
  let s4 := "  Total Reach:       " +:+ reach +:+ nl in
  let* engagements :=
    lift (fmt_comma (dict_get data "total_engagements" (VInt 0))) in
  let s5 := "  Engagements:       " +:+ engagements +:+ nl in
  let* rate :=
    lift (fmt_fixed2 (dict_get data "avg_engagement_rate" (VInt 0))) in
  let s6 := "  Engagement Rate:   " +:+ rate +:+ "%" +:+ nl in
  let* clicks := lift (fmt_comma (dict_get data "total_clicks" (VInt 0))) in
  let s7 := "  Clicks:            " +:+ clicks +:+ nl in
  let* ctr := lift (fmt_fixed2 (dict_get data "ctr" (VInt 0))) in
  let s8 := "  CTR:               " +:+ ctr +:+ "%" +:+ nl in
  let* conversions :=
    lift (fmt_comma (dict_get data "total_conversions" (VInt 0))) in
  let s9 := "  Conversions:       " +:+ conversions +:+ nl in
  let* has_clicks :=
    lift (is_positive (dict_get data "total_clicks" (VInt 0))) in
  if has_clicks then
    let* conv_rate :=
      lift (fmt_fixed2 (dict_get data "conversion_rate" (VInt 0))) in
    ret [s1; s2; s3; s4; s5; s6; s7; s8; s9;
         "  Conv. Rate:        " +:+ conv_rate +:+ "%" +:+ nl]
  else ret [s1; s2; s3; s4; s5; s6; s7; s8; s9].

(** [a + b] on numbers ([sum] of the values of one key). *)
Definition py_add (a b : pyval) : outcome pyval :=
  match a, b with
  | VInt x, VInt y => Ok (VInt (x + y))
  | VInt x, VFloat y => Ok (VFloat (float_of_int x + y))
  | VFloat x, VInt y => Ok (VFloat (x + float_of_int y))
  | VFloat x, VFloat y => Ok (VFloat (x + y))
  | _, _ => Raise TypeError
  end.

(** [sum(data.get(key, 0) for data in analytics.values())] *)
Definition sum_key (key : string) (analytics : list (string * dict)) : M pyval :=
  for_fold analytics (VInt 0) (fun entry acc =>
    lift (py_add acc (dict_get (snd entry) key (VInt 0)))).

(** [a / b * 100] on numbers, [b > 0]. *)
Definition py_percent (a b : pyval) : outcome float :=
  match a, b with
  | VInt x, VInt y => Ok (percent x y)
  | VInt x, VFloat y => Ok (float_of_int x / y * float_of_int 100)%float
  | VFloat x, VInt y => Ok (x / float_of_int y * float_of_int 100)%float
  | VFloat x, VFloat y => Ok (x / y * float_of_int 100)%float
  | _, _ => Raise TypeError
  end.

(** The body of the loop over the entries of the analytics. *)
Definition sections_body (entry : string * dict) (sections : list (list string))
    : M (list (list string)) :=
  let* section := platform_section (fst entry) (snd entry) in
  ret (sections ++ [section]).

(** The pieces of the whole report, in the order they are appended. *)
Definition report_segments (analytics : list (string * dict))
    : M (list string * list (list string) * list string) :=
  let* now := datetime_now in
  let header :=
    [nl +:+ str_repeat 80 "=" +:+ nl;
     "📊 CAMPAIGN PERFORMANCE REPORT" +:+ nl;
     str_repeat 80 "=" +:+ nl +:+ nl;
     "Generated: " +:+ strftime_seconds now +:+ nl +:+ nl] in
  let* sections := for_fold analytics [] sections_body in
  let* total_reach := sum_key "total_reach" analytics in
  let* total_engagements := sum_key "total_engagements" analytics in
  let* total_conversions := sum_key "total_conversions" analytics in
  let* reach := lift (fmt_comma total_reach) in
  let* engagements := lift (fmt_comma total_engagements) in
  let* conversions := lift (fmt_comma total_conversions) in
  let summary :=
    [nl +:+ nl +:+ "📈 OVERALL SUMMARY" +:+ nl;
     str_repeat 40 "-" +:+ nl;
     "  Total Reach:       " +:+ reach +:+ nl;
     "  Total Engagements: " +:+ engagements +:+ nl;
     "  Total Conversions: " +:+ conversions +:+ nl] in
  let* has_reach := lift (is_positive total_reach) in
  let* summary :=
    if has_reach then
      let* avg := lift (py_percent total_engagements total_reach) in
      ret (summary ++ ["  Avg Engagement %:  " +:+ fmt_2f avg +:+ "%" +:+ nl])
    else ret summary in
  ret (header, sections, summary ++ [nl +:+ str_repeat 80 "=" +:+ nl]).

(** The report is the concatenation of its pieces. *)
Definition generate_performance_report (analytics : list (string * dict))
    : M string :=
  let* segments := report_segments analytics in
  let '(header, sections, summary) := segments in
  ret (String.concat "" (header ++ concat sections ++ summary)).

(** *** orchestrator.py: CampaignOrchestrator *)

Definition schedule_campaigns (campaign_id frequency : string) : M (list addr) :=
  fun w =>
    match campaigns w !! campaign_id with
    | None =>
        (do print ("❌ Campaign " +:+ campaign_id +:+ " not found") then
         ret []) w
    | Some campaign =>
        (do print (nl +:+ "📅 Scheduling campaign: " +:+ plan_name campaign) then
         do print ("   Frequency: " +:+ frequency) then
         let* events :=
           schedule_campaign_across_platforms campaign_id (plan_name campaign)
             (plan_platforms campaign) (plan_content campaign)
             (plan_start_date campaign) frequency in
         do print ("✓ Scheduled " +:+ str_int (Z.of_nat (length events))
                     +:+ " posts across "
                     +:+ str_int (Z.of_nat (length (plan_platforms campaign)))
                     +:+ " platforms") then
         ret events) w
    end.

End Program.

(** ** The rest of the program *)
Section ProgramRest.

Variable now_at : nat -> datetime.
Variable random_at : nat -> float.
Variable hash : string -> Z.
Variable timestamp_repr : datetime -> string.

(** The optional agent capability of [PerformanceAnalyzer]: the code
    between [try:] and [except Exception], which ends with the text of
    [crew.kickoff()], finds an agent missing ([None]) or raises. *)
Variable agent_analysis : pyval -> M (option string).
Variable exception_text : exn -> string.       (* str(e) *)

(** *** calendar_manager.py: get_platform_summary *)

(** [summary[event.platform] = summary.get(event.platform, 0) + 1] *)
Definition count_platform (event : addr) (summary : list (string * Z))
    : M (list (string * Z)) :=
  let* e := load event in
  ret (dict_set (platform e) (dict_get summary (platform e) 0 + 1) summary).

Definition get_platform_summary : M (list (string * Z)) :=
  fun w => for_fold (events w) [] count_platform w.

(** *** campaign_executor.py: get_execution_status, export_execution_report *)

Record ExecutionStatus := mk_status {
  status_campaign_id : string;
  total_platforms : Z;
  executions : list LogEntry;
  execution_state : string                (* the key "status" *)
}.

Definition get_execution_status (campaign_id : string) : M ExecutionStatus :=
  fun w =>
    let campaign_logs :=
      List.filter (fun log => String.eqb (log_campaign_id log) campaign_id)
        (execution_log w) in
    (Ok (mk_status campaign_id (Z.of_nat (length campaign_logs)) campaign_logs
           (match campaign_logs with [] => "not_started" | _ :: _ => "completed" end)),
     w).

(** A log entry as [json.dump] sees it. *)
Definition log_dict (l : LogEntry) : pyval :=
  VDict [("campaign_id", VStr (log_campaign_id l));
         ("platform", VStr (log_platform l));
         ("execution_time", VStr (execution_time l));
         ("status", VStr (log_status l))].

Definition export_execution_report (filename : string) : M unit :=
  let* now := datetime_now now_at in
  let* campaigns_executed :=
    (fun w => (Ok (Z.of_nat (length (remove_dups (map log_campaign_id (execution_log w))))),
               w)) in
  let* total_posts := (fun w => (Ok (Z.of_nat (length (executed_campaigns w))), w)) in
  let* analytics := get_all_analytics in
  let* log := (fun w => (Ok (map log_dict (execution_log w)), w)) in
  json_dump_to filename
    (VDict [("export_time", VStr (isoformat now));
            ("total_campaigns_executed", VInt campaigns_executed);
            ("total_posts", VInt total_posts);
            ("analytics", VDict (map (fun entry => (fst entry, VDict (snd entry))) analytics));
            ("execution_log", VList log)]).

(** *** performance_tracker.py: tracking and analysis.  The attribute
    [performance_data] of the analyzer is passed explicitly. *)

Definition track_performance (campaign_id : string) (metrics : pyval)
    (performance_data : gmap string dict) : M (gmap string dict) :=
  let* now := datetime_now now_at in
  ret (<[campaign_id := [("tracked_at", VStr (isoformat now)); ("metrics", metrics)]]>
         performance_data).

Definition get_performance_summary (campaign_id : string)
    (performance_data : gmap string dict) : dict :=
  default [] (performance_data !! campaign_id).

Definition generate_basic_analysis (analytics_data : pyval) : M dict :=
  let* now := datetime_now now_at in
  ret [("analysis_timestamp", VStr (isoformat now));
       ("performance_data", analytics_data);
       ("analysis_type", VStr "basic");
       ("summary", VStr "Campaign performance analysis generated")].

(** [analyze_campaign_performance], [use_ai] being the attribute set by
    the constructor; [except Exception] catches whatever the agent code
    raises. *)
Definition analyze_campaign_performance (use_ai : bool) (analytics_data : pyval)
    : M dict :=
  if negb use_ai then generate_basic_analysis analytics_data
  else
    fun w =>
      match agent_analysis analytics_data w with
      | (Ok (Some result), w') =>
          (let* now := datetime_now now_at in
           ret [("analysis_timestamp", VStr (isoformat now));
                ("performance_data", analytics_data);
                ("analysis_result", VStr result)]) w'
      | (Ok None, w') => generate_basic_analysis analytics_data w'
      | (Raise e, w') =>
          (do print ("Warning: AI analysis failed (" +:+ exception_text e
                       +:+ "), using basic analysis") then
           generate_basic_analysis analytics_data) w'
      end.

(** *** orchestrator.py: planning *)

(** The table [platform_details]: frequency, content type, KPIs. *)
Definition platform_details : list (string * (string * string * list string)) :=
  [("LinkedIn", ("3-4 times per week",
                 "Articles, thought leadership, company updates",
                 ["Impressions"; "Engagement rate"; "Profile visits"]));
   ("Twitter", ("Daily (1-2 tweets)",
                "News, hot takes, conversations, threads",
                ["Retweets"; "Likes"; "Replies"]));
   ("Instagram", ("4-5 times per week",
                  "Reels, Stories, carousel posts, behind-the-scenes",
                  ["Reach"; "Saves"; "Shares"; "Follower growth"]));
   ("Facebook", ("3-4 times per week",
                 "Community posts, videos, events",
                 ["Reach"; "Video views"; "Engagement"]));
   ("TikTok", ("Daily (2-3 videos)",
               "Trends, challenges, educational content",
               ["Views"; "Watch time"; "Shares"]))].

(** The strategy written for one platform. *)
Definition platform_strategy (platform goal : string) : dict :=
  let details := dict_lookup platform platform_details in
  [("posting_frequency",
    VStr (from_option (fun d => fst (fst d)) "Regular" details));
   ("content_type",
    VStr (from_option (fun d => snd (fst d)) "General" details));
   ("primary_kpis",
    VList (map VStr (from_option (fun d => snd d) [] details)));
   ("goal_alignment", VStr ("Aligned with '" +:+ goal +:+ "'"))].

Definition generate_platform_strategies (platforms : list string) (goal : string)
    : list (string * dict) :=
  fold_left (fun strategies platform =>
               dict_set platform (platform_strategy platform goal) strategies)
    platforms [].

(** The sample content for one platform, [None] for a platform the
    [if]/[elif] chain does not name. *)
Definition platform_content (platform campaign_name audience : string)
    : option string :=
  if String.eqb platform "LinkedIn" then
    Some ("🎯 " +:+ campaign_name +:+ nl +:+ "Exciting announcement for our "
            +:+ audience
            +:+ "! Learn more about how we're driving innovation. #LinkedInPost")
  else if String.eqb platform "Twitter" then
    Some ("🚀 " +:+ campaign_name +:+ " is here! Perfect for " +:+ audience
            +:+ ". Check it out now! #SocialMedia #Campaign")
  else if String.eqb platform "Instagram" then
    Some ("✨ " +:+ campaign_name +:+ " is live! 🎉 Designed for " +:+ audience
            +:+ " who want to stay ahead. Tap the link in bio! 📸 #InstagramReels")
  else if String.eqb platform "Facebook" then
    Some ("📢 We're excited to introduce " +:+ campaign_name
            +:+ "! Created specifically for " +:+ audience
            +:+ ". Join our community and discover more!")
  else if String.eqb platform "TikTok" then
    Some ("POV: " +:+ campaign_name +:+ " just changed everything for " +:+ audience
            +:+ " 🔥 #FYP #Trending #NewAnnouncement")
  else None.

Definition generate_platform_content (platforms : list string)
    (campaign_name audience : string) : gmap string string :=
  fold_left (fun content platform =>
               match platform_content platform campaign_name audience with
               | Some text => <[platform := text]> content
               | None => content
               end)
    platforms ∅.

(** The [campaign_plan] dictionary that [plan_campaign] returns. *)
Record PlannedCampaign := mk_planned {
  planned_id : string;
  planned_name : string;
  planned_audience : string;
  planned_goal : string;
  planned_platforms : list string;
  planned_budget : string;
  planned_start_date : string;
  planned_duration_days : Z;
  planned_strategies : list (string * dict);
  planned_content : gmap string string
}.

(** The entry of the registry for a plan (the registry keeps the fields
    that [schedule_campaigns] reads). *)
Definition registered (plan : PlannedCampaign) : CampaignPlan :=
  mk_plan (planned_name plan) (planned_platforms plan) (planned_content plan)
    (planned_start_date plan).

Definition plan_campaign (campaign_name target_audience campaign_goal : string)
    (platforms : list string) (budget : string) (duration_days : Z)
    (start_date : option string) : M PlannedCampaign :=
  let* start_date :=
    match start_date with
    | None => let* now := datetime_now now_at in ret (isoformat now)
    | Some s => ret s
    end in
  do print (nl +:+ "🎯 Planning campaign: " +:+ campaign_name) then
  do print ("   Audience: " +:+ target_audience) then
  do print ("   Goal: " +:+ campaign_goal) then
  do print ("   Platforms: " +:+ String.concat ", " platforms) then
  do print ("   Duration: " +:+ str_int duration_days +:+ " days") then
  let* now := datetime_now now_at in
  let campaign_plan :=
    mk_planned ("camp_" +:+ timestamp_repr now) campaign_name target_audience
      campaign_goal platforms budget start_date duration_days
      (generate_platform_strategies platforms campaign_goal)
      (generate_platform_content platforms campaign_name target_audience) in
  do (fun w =>
        (Ok tt,
         set_campaigns (<[planned_id campaign_plan := registered campaign_plan]>
                          (campaigns w)) w)) then
  do print ("✓ Campaign plan created with ID: " +:+ planned_id campaign_plan) then
  ret campaign_plan.

(** *** orchestrator.py: execution *)

(** [CampaignExecutor.simulate_post_execution] of the orchestrator module. *)
Definition simulate_post_execution (event : addr) : M PostRecord :=
  let* e := load event in
  post_to_platform now_at random_at timestamp_repr (platform e) (content e)
    (scheduled_time e).

(** The result of [execute_scheduled_campaigns]; the order of
    [platforms_covered], made with [list(set(...))], is unspecified. *)
Inductive ExecutionSummary :=
| NoCampaigns                                   (* {"status": "no_campaigns"} *)
| Summary (timestamp : string) (total_posts_executed : Z)
    (platforms_covered : gset string) (executions : list PostRecord).

(** The loop variables: posts so far, their number, the platforms. *)
Definition execute_scheduled_body (event : addr)
    (acc : list PostRecord * Z * gset string)
    : M (list PostRecord * Z * gset string) :=
  let* result := simulate_post_execution event in
  let* e := load event in
  do execute_event hash event then
  ret (fst (fst acc) ++ [result], snd (fst acc) + 1, {[ platform e ]} ∪ snd acc).

Definition execute_scheduled_campaigns : M ExecutionSummary :=
  do print (nl +:+ "🚀 Executing scheduled campaigns...") then
  let* upcoming_events := get_upcoming_events now_at 7 in
  match upcoming_events with
  | [] =>
      do print "   No campaigns scheduled for the next 7 days" then
      ret NoCampaigns
  | _ :: _ =>
      let* now := datetime_now now_at in
      let* acc := for_fold upcoming_events ([], 0, ∅) execute_scheduled_body in
      do print ("✓ Executed " +:+ str_int (snd (fst acc)) +:+ " posts on "
                  +:+ str_int (Z.of_nat (size (snd acc))) +:+ " platforms") then
      ret (Summary (isoformat now) (snd (fst acc)) (snd acc) (fst (fst acc)))
  end.

(** [CampaignOrchestrator.track_performance] *)
Definition orchestrator_track_performance : M (list (string * dict)) :=
  do print (nl +:+ "📊 Tracking campaign performance...") then
  get_all_analytics.

End ProgramRest.


(** ** Vocabulary of the specifications *)

(** The platforms of the list that have content to post. *)
Definition with_content (content_per_platform : gmap string string)
    (platforms : list string) : list string :=
  List.filter
    (fun p => negb (String.eqb (default "" (content_per_platform !! p)) ""))
    platforms.

Definition added_line (e : CampaignEvent) : string :=
  "✓ Added " +:+ platform e +:+ " campaign: " +:+ title e +:+ " on "
    +:+ scheduled_time e.

(** The world after the event [e] has been constructed and added to the
    calendar. *)
Definition with_event (w : World) (e : CampaignEvent) : World :=
  mk_world (stdout w ++ [added_line e]) (clock_ticks w) (rng_ticks w) (files w)
    (objects w ++ [e]) (events w ++ [length (objects w)])
    (executed_campaigns w) (execution_log w) (campaigns w).

Definition with_events (w : World) (es : list CampaignEvent) : World :=
  fold_left with_event es w.

(** The events one call creates, platform by platform. *)
Definition occurrences (campaign_id campaign_title : string)
    (content_per_platform : gmap string string)
    (id_suffix title_suffix : string) (offset : Z -> Z) (count : nat)
    (start : datetime) (platforms : list string) : list CampaignEvent :=
  flat_map (fun p =>
    map (fun i =>
      mk_event (campaign_id +:+ id_suffix +:+ str_int (i + 1)) p
        (campaign_title +:+ title_suffix +:+ str_int (i + 1))
        (default "" (content_per_platform !! p))
        (isoformat (days_after start (offset i))) "Scheduled" [])
      (range count)) platforms.


(** An event is consistent when it has metrics exactly if it is executed. *)
Definition consistent (e : CampaignEvent) : Prop :=
  performance_metrics e <> [] <-> status e = "Executed".

Definition calendar_consistent (w : World) : Prop :=
  forall a, In a (events w) -> exists e, objects w !! a = Some e /\ consistent e.

(** The event as [execute_event] leaves it. *)
Definition executed (hash : string -> Z) (e : CampaignEvent) : CampaignEvent :=
  mk_event (campaign_id e) (platform e) (title e) (content e) (scheduled_time e)
    "Executed"
    [("reach", VInt (5000 + hash (campaign_id e) mod 10000));
     ("engagement", VInt (250 + hash (campaign_id e) mod 1000));
     ("clicks", VInt (50 + hash (campaign_id e) mod 500));
     ("conversions", VInt (5 + hash (campaign_id e) mod 50))].

(** Calendar states reached from the empty calendar by calls of the
    client: constructing an event, [add_event] of an existing event that
    is [admissible], [schedule_campaign_across_platforms] (whether it
    returns or raises) and [execute_event] of an existing event. *)
Inductive reachable (hash : string -> Z) (admissible : CampaignEvent -> Prop)
  : World -> Prop :=
| reach_empty : reachable hash admissible empty_world
| reach_construct w cid p t c st status metrics :
    reachable hash admissible w ->
    reachable hash admissible (snd (new_CampaignEvent cid p t c st status metrics w))
| reach_add_event w a e :
    reachable hash admissible w ->
    objects w !! a = Some e -> admissible e ->
    reachable hash admissible (snd (add_event a w))
| reach_schedule w cid t ps c sd f :
    reachable hash admissible w ->
    reachable hash admissible
      (snd (schedule_campaign_across_platforms cid t ps c sd f w))
| reach_execute_event w a e :
    reachable hash admissible w ->
    objects w !! a = Some e ->
    reachable hash admissible (snd (execute_event hash a w)).

(** [w'] extends [w] by freshly scheduled events, added to the calendar. *)
Definition grows (w w' : World) : Prop :=
  exists news,
    objects w' = objects w ++ news /\
    events w' = events w ++ seq (length (objects w)) (length news) /\
    Forall (fun e => status e = "Scheduled" /\ performance_metrics e = []) news.

(** The timestamp an event of the calendar denotes, when it parses. *)
Definition parsed_time (w : World) (a : addr) : option datetime :=
  match objects w !! a with
  | Some e => fromisoformat (scheduled_time e)
  | None => None
  end.

Definition in_window (w : World) (lo hi : datetime) (a : addr) : bool :=
  match parsed_time w a with
  | Some t => dt_leb lo t && dt_leb t hi
  | None => false
  end.

(** Every event of the calendar has a [scheduled_time] that parses. *)
Definition all_parse (w : World) : Prop :=
  forall a, In a (events w) -> is_Some (parsed_time w a).








(** The three parts of [e] engagements, as [post_to_platform] computes them. *)
Definition split_sum (e : Z) : Z :=
  py_int (float_of_int e * 0.7)%float + py_int (float_of_int e * 0.2)%float
  + py_int (float_of_int e * 0.1)%float.

Definition split_ok (e : Z) : bool :=
  (e - 2 <=? split_sum e) && (split_sum e <=? e).

Definition split_step (s : Z * bool) : Z * bool :=
  (fst s + 1, snd s && split_ok (fst s)).

Definition numeric (v : pyval) : Prop :=
  match v with VInt _ | VFloat _ => True | _ => False end.

(** The keys whose values the report formats as numbers. *)
Definition report_keys : list string :=
  ["total_reach"; "total_engagements"; "avg_engagement_rate"; "total_clicks";
   "ctr"; "total_conversions"; "conversion_rate"].

Definition numeric_data (data : dict) : Prop :=
  forall key, In key report_keys -> numeric (dict_get data key (VInt 0)).



(** ** Vocabulary of the further properties *)

(** The number of events of a platform. *)
Definition events_on (platform_name : string) (es : list CampaignEvent) : Z :=
  Z.of_nat (length (List.filter (fun e => String.eqb (platform e) platform_name) es)).

(** The sum of the counts of a summary. *)
Definition total_count (summary : list (string * Z)) : Z :=
  foldr (fun entry acc => snd entry + acc) 0 summary.

(** [for p in ps: summary[p] = summary.get(p, 0) + 1] *)
Definition tally (ps : list string) (summary : list (string * Z)) : list (string * Z) :=
  fold_left (fun s p => dict_set p (dict_get s p 0 + 1) s) ps summary.

(** The posts of the history made on a platform. *)
Definition posts_on (platform_name : string) (history : list PostRecord)
    : list PostRecord :=
  List.filter (fun p => String.eqb (post_platform p) platform_name) history.

(** The log entries of a campaign. *)
Definition logs_of (cid : string) (log : list LogEntry) : list LogEntry :=
  List.filter (fun l => String.eqb (log_campaign_id l) cid) log.

(** The platform has an entry in [platform_configs]. *)
Definition configured (platform_name : string) : bool :=
  match dict_lookup platform_name platform_configs with
  | Some _ => true
  | None => false
  end.

(** The platforms that [_generate_platform_content] writes content for. *)
Definition content_platforms : list string :=
  ["LinkedIn"; "Twitter"; "Instagram"; "Facebook"; "TikTok"].

Definition has_content_template (platform_name : string) : bool :=
  existsb (String.eqb platform_name) content_platforms.

(** An environment for the examples: a clock that advances by one
    microsecond at every reading, constant random draws, a hash. *)
Definition sample_clock (n : nat) : datetime :=
  mk_datetime 2024 1 1 0 0 0 (Z.of_nat n).
Definition sample_random (n : nat) : float := 0.5%float.
Definition sample_hash (s : string) : Z := Z.of_nat (String.length s) * 7919.
Definition sample_timestamp (dt : datetime) : string :=
  "1704067200." +:+ fmt_0d 6 (microsecond dt).

(** The events [get_upcoming_events] returns for the window [lo, hi]. *)
Definition upcoming (w : World) (lo hi : datetime) : list addr :=
  sorted_by (scheduled_time_of w) (List.filter (in_window w lo hi) (events w)).

(** The post that [simulate_post_execution] makes for an event. *)
Definition post_of_event (e : CampaignEvent) (post : PostRecord) : Prop :=
  post_platform post = platform e /\
  content_preview post = str_take 100 (content e) /\
  post_scheduled_time post = scheduled_time e /\
  post_status post = "live".

Definition executed_line (e : CampaignEvent) : string :=
  "✓ Executed " +:+ platform e +:+ " campaign: " +:+ title e.

(** The month and the day of day [n] (from 0) of a year, as [_ord2ymd]
    finds them from its estimate [(n + 50) >> 5]. *)
Definition month_day (leapyear : bool) (n : Z) : Z * Z :=
  let m := Z.shiftr (n + 50) 5 in
  let preceding :=
    table DAYS_BEFORE_MONTH m + (if (2 <? m) && leapyear then 1 else 0) in
  if n <? preceding then
    let m := m - 1 in
    let preceding :=
      preceding - (table DAYS_IN_MONTH m + (if (m =? 2) && leapyear then 1 else 0)) in
    (m, n - preceding + 1)
  else (m, n - preceding + 1).

(** [month_day] is right on day [n] of a leap or common year. *)
Definition month_day_ok (leapyear : bool) (n : Z) : bool :=
  let '(m, d) := month_day leapyear n in
  (1 <=? m) && (m <=? 12) && (1 <=? d)
  && (d <=? (if (m =? 2) && leapyear then 29 else table DAYS_IN_MONTH m))
  && (table DAYS_BEFORE_MONTH m + (if (2 <? m) && leapyear then 1 else 0) + d =? n + 1).

(** A timestamp as the day number and the time of day. *)
Definition instant (t : datetime) : list Z :=
  [toordinal t; hour t; minute t; second t; microsecond t].




(** The time of day of a timestamp. *)
Definition time_of_day (t : datetime) : list Z :=
  [hour t; minute t; second t; microsecond t].
(** ** Reasoning about computations *)

Lemma bind_Ok {A B} (m : M A) (k : A -> M B) w a w' :
  m w = (Ok a, w') -> bind m k w = k a w'.
Proof. intros H. unfold bind. rewrite H. reflexivity. Qed.

Lemma load_Some a e w : objects w !! a = Some e -> load a w = (Ok e, w).
Proof. intros H. unfold load. rewrite H. reflexivity. Qed.

(** ** execute_event (C3) *)
Section ExecuteEvent.
Variable hash : string -> Z.

(** C3: [execute_event] sets the status of the event to "Executed" and
    replaces its metrics by the four values derived from the hash of the
    campaign id; the metrics are then non-empty and the reach is at
    least 5000.  Nothing else in the calendar changes. *)
Theorem execute_event_sets_status_and_metrics (event : addr) (e : CampaignEvent) (w : World) :
  objects w !! event = Some e ->
  exists e' w',
    execute_event hash event w = (Ok tt, w') /\
    objects w' !! event = Some e' /\
    status e' = "Executed" /\
    performance_metrics e' =
      [("reach", VInt (5000 + hash (campaign_id e) mod 10000));
       ("engagement", VInt (250 + hash (campaign_id e) mod 1000));
       ("clicks", VInt (50 + hash (campaign_id e) mod 500));
       ("conversions", VInt (5 + hash (campaign_id e) mod 50))] /\
    performance_metrics e' <> [] /\
    (exists r, dict_lookup "reach" (performance_metrics e') = Some (VInt r)
               /\ 5000 <= r < 15000) /\
    (campaign_id e', platform e', title e', content e', scheduled_time e')
      = (campaign_id e, platform e, title e, content e, scheduled_time e) /\
    (forall other, other <> event -> objects w' !! other = objects w !! other) /\
    events w' = events w.
Proof.
  intros Hload.
  assert (Hlt : (event < length (objects w))%nat) by (eapply lookup_lt_Some; eauto).
  eexists _, _. split.
  { unfold execute_event. rewrite (bind_Ok _ _ _ _ _ (load_Some _ _ _ Hload)).
    reflexivity. }
  cbn [set_stdout set_objects objects events].
  split; [apply list_lookup_insert_eq; exact Hlt|].
  cbn [status performance_metrics campaign_id platform title content scheduled_time].
  repeat split; try discriminate.
  - eexists. split; [reflexivity|].
    pose proof (Z.mod_pos_bound (hash (campaign_id e)) 10000 ltac:(lia)). lia.
  - intros other Hne. apply list_lookup_insert_ne. congruence.
Qed.

End ExecuteEvent.

Lemma execute_event_sets_status_and_metrics_witness :
  let w := mk_world [] 0 0 ∅
             [mk_event "c1" "LinkedIn" "Launch" "Hello" "2024-01-01T09:00:00"
                "Scheduled" []] [0%nat] [] [] ∅ in
  exists e' w',
    execute_event (fun _ => 123456789) 0%nat w = (Ok tt, w') /\
    objects w' !! 0%nat = Some e' /\
    status e' = "Executed" /\
    performance_metrics e' <> [].
Proof.
  intros w.
  destruct (execute_event_sets_status_and_metrics (fun _ => 123456789) 0%nat
              (mk_event "c1" "LinkedIn" "Launch" "Hello" "2024-01-01T09:00:00"
                 "Scheduled" []) w eq_refl)
    as (e' & w' & H1 & H2 & H3 & _ & H5 & _).
  exists e', w'. repeat split; assumption.
Defined.

(** ** schedule_campaigns on an unknown campaign id (C8) *)

(** C8: for a campaign id that is not in the registry, [schedule_campaigns]
    returns the empty list without raising, prints the "not found" warning
    and leaves everything else, in particular the calendar's event list and
    the event objects, as it was. *)
Theorem schedule_campaigns_unknown_id (campaign_id frequency : string) (w : World) :
  campaigns w !! campaign_id = None ->
  exists w',
    schedule_campaigns campaign_id frequency w = (Ok [], w') /\
    stdout w' = stdout w ++ ["❌ Campaign " +:+ campaign_id +:+ " not found"] /\
    events w' = events w /\
    objects w' = objects w /\
    w' = set_stdout (stdout w') w.
Proof.
  intros Hnone. unfold schedule_campaigns. rewrite Hnone.
  eexists. split; [reflexivity|]. repeat split.
Qed.

Lemma schedule_campaigns_unknown_id_witness :
  let w := set_campaigns
             {[ "camp_1" := mk_plan "Launch" ["LinkedIn"] ∅ "2024-01-01T09:00:00" ]}
             empty_world in
  campaigns w !! "camp_2" = None /\
  exists w',
    schedule_campaigns "camp_2" "daily" w = (Ok [], w') /\
    events w' = events w.
Proof.
  intros w.
  assert (Hnone : campaigns w !! "camp_2" = None) by (vm_compute; reflexivity).
  split; [exact Hnone|].
  destruct (schedule_campaigns_unknown_id "camp_2" "daily" w Hnone)
    as (w' & H1 & _ & H3 & _).
  exists w'. split; assumption.
Defined.

(** ** Analytics without history (C5) *)

Lemma filter_none {A} (f : A -> bool) (l : list A) :
  (forall x, In x l -> f x = false) -> List.filter f l = [].
Proof.
  induction l as [|x l IH]; intros H; [reflexivity|]. simpl.
  rewrite (H x (or_introl eq_refl)). apply IH. intros y Hy. apply H. right. exact Hy.
Qed.

(** C5: when the history holds no post of a platform,
    [get_platform_analytics] returns exactly the record
    [{platform, posts: 0, total_reach: 0}], and on an empty history
    [get_all_analytics] returns one such record for each of the five
    configured platforms; neither raises nor changes the state. *)
Theorem analytics_without_history (w : World) :
  (forall platform,
     (forall p, In p (executed_campaigns w) -> post_platform p <> platform) ->
     get_platform_analytics platform w
     = (Ok [("platform", VStr platform); ("posts", VInt 0); ("total_reach", VInt 0)], w))
  /\
  (executed_campaigns w = [] ->
   exists analytics,
     get_all_analytics w = (Ok analytics, w) /\
     map fst analytics = map fst platform_configs /\
     length analytics = 5%nat /\
     forall platform,
       In platform (map fst platform_configs) ->
       dict_lookup platform analytics
       = Some [("platform", VStr platform); ("posts", VInt 0); ("total_reach", VInt 0)]).
Proof.
  split.
  - intros platform Hnone. unfold get_platform_analytics, platform_analytics.
    rewrite filter_none; [reflexivity|].
    intros p Hp. apply String.eqb_neq. apply Hnone. exact Hp.
  - intros Hempty. eexists. split.
    { unfold get_all_analytics, get_platform_analytics.
      cbn -[platform_analytics]. unfold bind, ret. cbn -[platform_analytics].
      rewrite Hempty. reflexivity. }
    split; [reflexivity|]. split; [reflexivity|].
    intros platform Hin. cbn in Hin.
    repeat (destruct Hin as [<- | Hin]; [reflexivity|]). destruct Hin.
Qed.

Lemma analytics_without_history_witness :
  (forall p, In p (executed_campaigns empty_world) -> post_platform p <> "LinkedIn") /\
  get_platform_analytics "LinkedIn" empty_world
  = (Ok [("platform", VStr "LinkedIn"); ("posts", VInt 0); ("total_reach", VInt 0)],
     empty_world) /\
  exists analytics,
    get_all_analytics empty_world = (Ok analytics, empty_world) /\
    length analytics = 5%nat.
Proof.
  assert (H0 : forall p, In p (executed_campaigns empty_world) ->
                         post_platform p <> "LinkedIn") by (intros p []).
  destruct (analytics_without_history empty_world) as [H1 H2].
  split; [exact H0|]. split; [exact (H1 "LinkedIn" H0)|].
  destruct (H2 eq_refl) as (a & Ha & _ & Hlen & _).
  exists a. split; assumption.
Defined.

(** ** execute_campaign (C7) *)
Section ExecuteCampaign.
Variable now_at : nat -> datetime.
Variable random_at : nat -> float.
Variable timestamp_repr : datetime -> string.

(** A posting always succeeds and appends its record to the history. *)
Lemma post_to_platform_appends (platform content scheduled_time : string) (w : World) :
  exists post w',
    post_to_platform now_at random_at timestamp_repr platform content scheduled_time w
    = (Ok post, w') /\
    post_platform post = platform /\
    content_preview post = str_take 100 content /\
    post_scheduled_time post = scheduled_time /\
    post_status post = "live" /\
    executed_campaigns w' = executed_campaigns w ++ [post] /\
    execution_log w' = execution_log w /\
    events w' = events w /\ objects w' = objects w /\
    campaigns w' = campaigns w /\ stdout w' = stdout w.
Proof.
  cbv beta iota zeta delta [post_to_platform bind datetime_now random_random].
  eexists _, _. split; [reflexivity|]. cbn. repeat split.
Qed.

Lemma execute_campaign_loop campaign_id content_per_platform start_time
    (platforms : list string) :
  forall (posts : list PostRecord) (w : World),
  exists new logs w',
    for_fold platforms posts
      (execute_campaign_body now_at random_at timestamp_repr campaign_id
         content_per_platform start_time) w
    = (Ok (posts ++ new), w') /\
    map post_platform new = with_content content_per_platform platforms /\
    Forall (fun p => post_scheduled_time p = start_time /\ post_status p = "live") new /\
    executed_campaigns w' = executed_campaigns w ++ new /\
    execution_log w' = execution_log w ++ logs /\
    map log_platform logs = with_content content_per_platform platforms /\
    Forall (fun l => log_campaign_id l = campaign_id /\ log_status l = "executed") logs /\
    events w' = events w /\ objects w' = objects w /\
    campaigns w' = campaigns w /\ stdout w' = stdout w.
Proof.
  induction platforms as [|p platforms IH]; intros posts w.
  - exists [], [], w. cbn. rewrite !app_nil_r. repeat split; constructor.
  - cbn [for_fold]. unfold with_content. cbn [List.filter].
    fold (with_content content_per_platform platforms).
    unfold execute_campaign_body at 1.
    destruct (String.eqb (default "" (content_per_platform !! p)) "") eqn:Hc.
    + cbn [negb]. unfold bind at 1, ret at 1. apply IH.
    + cbn [negb].
      destruct (post_to_platform_appends p (default "" (content_per_platform !! p))
                  start_time w)
        as (post & w1 & Hpost & Hp1 & _ & Hp3 & Hp4 & Hh1 & Hl1 & He1 & Ho1 & Hc1 & Hs1).
      rewrite (bind_Ok _ _ _ _ _
                 (bind_Ok _ _ _ _ _ Hpost)).
      cbn [datetime_now log_execution bind ret].
      match goal with
      | |- context [for_fold platforms ?acc _ ?w2] =>
          destruct (IH acc w2)
            as (new & logs & w' & Hrun & Hn & Hnf & Hh & Hl & Hlp & Hlf & He & Ho & Hcm & Hs)
      end.
      exists (post :: new), (mk_log campaign_id p
                               (isoformat (now_at (clock_ticks w1))) "executed" :: logs), w'.
      rewrite Hrun. cbn in Hh, Hl, He, Ho, Hcm, Hs.
      split; [rewrite <- app_assoc; reflexivity|].
      split; [cbn; rewrite Hp1, Hn; reflexivity|].
      split; [constructor; [split; assumption|assumption]|].
      split; [rewrite Hh, Hh1, <- app_assoc; reflexivity|].
      split; [rewrite Hl, Hl1, <- app_assoc; reflexivity|].
      split; [cbn; rewrite Hlp; reflexivity|].
      split; [constructor; [split; reflexivity|assumption]|].
      repeat split; congruence.
Qed.

(** C7: [execute_campaign] never raises; the posts of its result are one
    record for each listed platform whose mapped content is non-empty, in
    list order (platforms that are missing from the mapping or mapped to
    the empty string are skipped), the same records are appended to the
    simulator's history, and one log entry is appended for each of them. *)
Theorem execute_campaign_posts_per_platform (campaign_id : string)
    (platforms : list string) (content_per_platform : gmap string string)
    (start_time : option string) (w : World) :
  exists result logs w',
    execute_campaign now_at random_at timestamp_repr campaign_id platforms
      content_per_platform start_time w = (Ok result, w') /\
    result_campaign_id result = campaign_id /\
    platforms_targeted result = platforms /\
    map post_platform (posts result)
    = List.filter
        (fun p => negb (String.eqb (default "" (content_per_platform !! p)) ""))
        platforms /\
    executed_campaigns w' = executed_campaigns w ++ posts result /\
    execution_log w' = execution_log w ++ logs /\
    map log_platform logs = map post_platform (posts result) /\
    Forall (fun l => log_campaign_id l = campaign_id /\ log_status l = "executed") logs /\
    length logs = length (posts result).
Proof.
  unfold execute_campaign.
  set (w0 := snd (match start_time with
                  | None => (let* t := datetime_now now_at in ret (isoformat t)) w
                  | Some s => ret s w
                  end)).
  set (st := match start_time with
             | None => isoformat (now_at (clock_ticks w))
             | Some s => s
             end).
  assert (Hst : match start_time with
                | None => let* t := datetime_now now_at in ret (isoformat t)
                | Some s => ret s
                end w = (Ok st, w0)) by (destruct start_time; reflexivity).
  assert (Hw0 : executed_campaigns w0 = executed_campaigns w
                /\ execution_log w0 = execution_log w)
    by (destruct start_time; split; reflexivity).
  rewrite (bind_Ok _ _ _ _ _ Hst).
  cbn [datetime_now bind].
  destruct (execute_campaign_loop campaign_id content_per_platform st platforms []
              (set_clock_ticks (S (clock_ticks w0)) w0))
    as (new & logs & w' & Hrun & Hn & _ & Hh & Hl & Hlp & Hlf & _).
  erewrite bind_Ok; [|exact Hrun].
  cbn [app] in *. cbn in Hh, Hl.
  exists (mk_result campaign_id (isoformat (now_at (clock_ticks w0))) platforms new),
    logs, w'.
  destruct Hw0 as [Hw0h Hw0l].
  cbn [ret posts result_campaign_id platforms_targeted].
  repeat split; try assumption; try congruence.
  assert (E : map log_platform logs = map post_platform new) by congruence.
  apply (f_equal (@length string)) in E. rewrite !length_map in E. exact E.
Qed.
End ExecuteCampaign.

(** ** Calendar expansion (C1) *)

Lemma construct_and_add cid p t c st (evs : list addr) (w : World) :
  (let* event := new_CampaignEvent cid p t c st "Scheduled" None in
   do add_event event then
   ret (evs ++ [event])) w
  = (Ok (evs ++ [length (objects w)]),
     with_event w (mk_event cid p t c st "Scheduled" [])).
Proof.
  unfold bind at 1. unfold new_CampaignEvent.
  unfold bind at 1. unfold add_event. unfold bind at 1.
  unfold load. cbn [objects set_objects].
  rewrite (list_lookup_middle (objects w) [] _ (length (objects w)) eq_refl).
  reflexivity.
Qed.

Lemma with_events_objects es : forall w,
  objects (with_events w es) = objects w ++ es.
Proof.
  induction es as [|e es IH]; intros w; cbn.
  - rewrite app_nil_r. reflexivity.
  - unfold with_events in IH. rewrite IH. cbn. rewrite <- app_assoc. reflexivity.
Qed.

Lemma with_events_events es : forall w,
  events (with_events w es) = events w ++ seq (length (objects w)) (length es).
Proof.
  induction es as [|e es IH]; intros w; cbn.
  - rewrite app_nil_r. reflexivity.
  - unfold with_events in IH. rewrite IH. cbn.
    rewrite length_app, <- app_assoc. cbn. rewrite Nat.add_1_r. reflexivity.
Qed.

Lemma with_events_app w es1 es2 :
  with_events w (es1 ++ es2) = with_events (with_events w es1) es2.
Proof. apply fold_left_app. Qed.

(** A loop whose every iteration constructs and adds the events [mk x]. *)
Lemma for_fold_with_events {A} (mk : A -> list CampaignEvent)
    (body : A -> list addr -> M (list addr)) (l : list A) :
  (forall x, In x l -> forall evs w,
     body x evs w
     = (Ok (evs ++ seq (length (objects w)) (length (mk x))), with_events w (mk x))) ->
  forall evs w,
    for_fold l evs body w
    = (Ok (evs ++ seq (length (objects w)) (length (flat_map mk l))),
       with_events w (flat_map mk l)).
Proof.
  induction l as [|x l IH]; intros Hbody evs w.
  - cbn. rewrite app_nil_r. reflexivity.
  - cbn [for_fold flat_map].
    rewrite (bind_Ok _ _ _ _ _ (Hbody x (or_introl eq_refl) evs w)).
    rewrite IH by (intros y Hy; apply Hbody; right; exact Hy).
    rewrite with_events_objects, with_events_app, !length_app, seq_app, app_assoc.
    reflexivity.
Qed.

Lemma flat_map_singleton {A B} (f : A -> B) (l : list A) :
  flat_map (fun x => [f x]) l = map f l.
Proof. induction l as [|x l IH]; cbn; [|rewrite IH]; reflexivity. Qed.

Lemma length_flat_map_const {A B} (f : A -> list B) (n : nat) (l : list A) :
  (forall x, length (f x) = n) -> length (flat_map f l) = (n * length l)%nat.
Proof.
  intros H. induction l as [|x l IH]; cbn; [lia|].
  rewrite length_app, H, IH. lia.
Qed.

(** *** Dates that parse are valid, and valid dates have an ordinal *)

Lemma checked_valid dt dt' : checked dt = Some dt' -> valid_datetime dt' = true.
Proof.
  unfold checked. destruct (valid_datetime dt) eqn:E; [|discriminate].
  intros [= <-]. exact E.
Qed.

Lemma fromisoformat_valid s dt :
  fromisoformat s = Some dt -> valid_datetime dt = true.
Proof.
  unfold fromisoformat. intros H.
  repeat match type of H with
         | (mbind _ ?x) = Some _ => destruct x as [[? ?]|] eqn:?; cbn in H; [|discriminate]
         | (mbind _ ?x) = Some _ => destruct x as [?|] eqn:?; cbn in H; [|discriminate]
         | match ?x with EmptyString => _ | String _ _ => _ end = Some _ => destruct x
         | (if ?b then _ else _) = Some _ => destruct b; [|discriminate]
         | checked _ = Some _ => apply checked_valid in H
         | None = Some _ => discriminate
         end.
  all: try exact H; try discriminate.
Qed.

Lemma days_before_month_nonneg y m : 1 <= m <= 12 -> 0 <= days_before_month y m.
Proof.
  intros Hm. unfold days_before_month.
  assert (Hc : m = 1 \/ m = 2 \/ m = 3 \/ m = 4 \/ m = 5 \/ m = 6 \/ m = 7
               \/ m = 8 \/ m = 9 \/ m = 10 \/ m = 11 \/ m = 12) by lia.
  destruct (is_leap y);
    repeat (destruct Hc as [-> | Hc]; [vm_compute; discriminate|]);
    subst; vm_compute; discriminate.
Qed.

Lemma valid_datetime_ordinal dt : valid_datetime dt = true -> 1 <= toordinal dt.
Proof.
  unfold valid_datetime, valid_date, toordinal, ymd2ord, days_before_year.
  intros H. repeat (apply andb_prop in H as [H ?]).
  repeat match goal with
         | H : (_ <=? _) = true |- _ => apply Z.leb_le in H
         | H : (_ <? _) = true |- _ => apply Z.ltb_lt in H
         end.
  pose proof (days_before_month_nonneg (year dt) (month dt) ltac:(lia)).
  cbv zeta.
  pose proof (Z.div_le_upper_bound (year dt - 1) 100 (year dt - 1) ltac:(lia) ltac:(lia)).
  pose proof (Z.div_pos (year dt - 1) 4 ltac:(lia) ltac:(lia)).
  pose proof (Z.div_pos (year dt - 1) 400 ltac:(lia) ltac:(lia)).
  lia.
Qed.

Lemma add_days_in_range dt n :
  valid_datetime dt = true -> 0 <= n <= 999999999 ->
  toordinal dt + n <= MAXORDINAL ->
  add_days dt n = Ok (days_after dt n).
Proof.
  intros Hv Hn Hmax. pose proof (valid_datetime_ordinal dt Hv).
  unfold add_days.
  destruct (n <? -999999999) eqn:E1; [lia|].
  destruct (999999999 <? n) eqn:E2; [lia|]. cbn [orb].
  destruct (0 <? toordinal dt + n) eqn:E3; [|lia].
  destruct (toordinal dt + n <=? MAXORDINAL) eqn:E4; [|lia].
  reflexivity.
Qed.

Lemma range_bounds n i : In i (range n) -> 0 <= i < Z.of_nat n.
Proof.
  unfold range. intros H. apply in_map_iff in H as (k & <- & Hk).
  apply in_seq in Hk. lia.
Qed.

Lemma str_app_assoc (a b c : string) : (a +:+ b) +:+ c = a +:+ (b +:+ c).
Proof.
  induction a as [|x a IH]; [reflexivity|].
  change (String x ((a +:+ b) +:+ c) = String x (a +:+ (b +:+ c))).
  rewrite IH. reflexivity.
Qed.



Section Expansion.
Variables (campaign_id campaign_title : string) (platforms : list string).
Variable content_per_platform : gmap string string.
Variables (start_date : string) (start : datetime).
Hypothesis start_parses : fromisoformat start_date = Some start.

Lemma repeated_expansion (id_suffix title_suffix : string)
    (offset : Z -> Z) (count : nat)
    (body : string -> list addr -> M (list addr)) (w : World) :
  (forall i, 0 <= i < Z.of_nat count ->
     0 <= offset i <= 999999999 /\ toordinal start + offset i <= MAXORDINAL) ->
  (forall platform events,
     body platform events
     = for_fold (range count) events (fun i events =>
         let* t := lift (add_days start (offset i)) in
         let* event := new_CampaignEvent
                         (campaign_id +:+ id_suffix +:+ str_int (i + 1))
                         platform
                         (campaign_title +:+ title_suffix +:+ str_int (i + 1))
                         (default "" (content_per_platform !! platform))
                         (isoformat t) "Scheduled" None in
         do add_event event then
         ret (events ++ [event]))) ->
  for_fold platforms [] body w
  = (Ok ([] ++ seq (length (objects w))
                (length (occurrences campaign_id campaign_title content_per_platform
                           id_suffix title_suffix offset count start platforms))),
     with_events w (occurrences campaign_id campaign_title content_per_platform
                      id_suffix title_suffix offset count start platforms)).
Proof.
  intros Hoffset Hbody. unfold occurrences.
  apply for_fold_with_events. intros p _ evs w1. rewrite Hbody.
  rewrite <- flat_map_singleton.
  apply for_fold_with_events. intros i Hi evs2 w2.
  apply range_bounds in Hi. destruct (Hoffset i Hi) as [Ho Hm].
  unfold bind at 1, lift.
  rewrite add_days_in_range; [apply construct_and_add| | |]; try assumption.
  eapply fromisoformat_valid, start_parses.
Qed.

End Expansion.



(** ** The metrics/status invariant (C2) *)

Lemma grows_refl w : grows w w.
Proof. exists []. cbn. rewrite !app_nil_r. repeat split. constructor. Qed.

Lemma grows_trans w1 w2 w3 : grows w1 w2 -> grows w2 w3 -> grows w1 w3.
Proof.
  intros (n1 & Ho1 & He1 & Hf1) (n2 & Ho2 & He2 & Hf2). exists (n1 ++ n2).
  rewrite Ho2, He2, Ho1, He1, !length_app, seq_app, <- !app_assoc.
  repeat split. apply Forall_app. split; assumption.
Qed.

Lemma grows_with_event w cid p t c st :
  grows w (with_event w (mk_event cid p t c st "Scheduled" [])).
Proof. eexists [_]. cbn. repeat split. constructor; [split; reflexivity|constructor]. Qed.

Lemma for_fold_grows {A S} (body : A -> S -> M S) (l : list A) :
  (forall x acc w, grows w (snd (body x acc w))) ->
  forall acc w, grows w (snd (for_fold l acc body w)).
Proof.
  intros Hbody. induction l as [|x l IH]; intros acc w; [apply grows_refl|].
  cbn [for_fold]. unfold bind. specialize (Hbody x acc w).
  destruct (body x acc w) as [[acc'|e] w1]; cbn [snd] in *; [|exact Hbody].
  eapply grows_trans; [exact Hbody|apply IH].
Qed.

Lemma scheduled_occurrence_grows start offset cid p t c (evs : list addr) w :
  grows w (snd ((let* d := lift (add_days start offset) in
                 let* event := new_CampaignEvent cid p t c (isoformat d)
                                 "Scheduled" None in
                 do add_event event then
                 ret (evs ++ [event])) w)).
Proof.
  unfold bind at 1, lift.
  destruct (add_days start offset) as [d|e]; [|apply grows_refl].
  rewrite construct_and_add. apply grows_with_event.
Qed.

Lemma schedule_grows cid t ps c sd f w :
  grows w (snd (schedule_campaign_across_platforms cid t ps c sd f w)).
Proof.
  unfold schedule_campaign_across_platforms.
  destruct (fromisoformat sd) as [start|]; cbn [lift_option];
    [|apply grows_refl].
  unfold bind at 1, ret at 1.
  apply for_fold_grows. intros p acc w1.
  destruct (String.eqb f "once").
  { rewrite construct_and_add. apply grows_with_event. }
  destruct (String.eqb f "daily").
  { apply for_fold_grows. intros i acc2 w2. apply scheduled_occurrence_grows. }
  destruct (String.eqb f "weekly").
  { apply for_fold_grows. intros i acc2 w2. apply scheduled_occurrence_grows. }
  apply grows_refl.
Qed.

Lemma grows_consistent w w' :
  grows w w' -> calendar_consistent w -> calendar_consistent w'.
Proof.
  intros (news & Ho & He & Hf) Hc a Ha. rewrite He in Ha. rewrite Ho.
  apply in_app_or in Ha as [Ha | Ha].
  - destruct (Hc a Ha) as (e & Hl & Hce). exists e. split; [|exact Hce].
    apply lookup_app_l_Some. exact Hl.
  - apply in_seq in Ha.
    destruct (lookup_lt_is_Some_2 news (a - length (objects w))%nat ltac:(lia))
      as [e Hl].
    exists e. split.
    + rewrite lookup_app_r by lia. exact Hl.
    + apply list_elem_of_lookup_2 in Hl.
      rewrite Forall_forall in Hf. destruct (Hf e Hl) as [Hs Hm].
      unfold consistent. rewrite Hs, Hm. split; [congruence|discriminate].
Qed.

Lemma execute_event_world hash a e w :
  objects w !! a = Some e ->
  execute_event hash a w
  = (Ok tt,
     set_stdout (stdout w ++ ["✓ Executed " +:+ platform e +:+ " campaign: " +:+ title e])
       (set_objects (<[a := executed hash e]> (objects w)) w)).
Proof.
  intros Hl. unfold execute_event.
  rewrite (bind_Ok _ _ _ _ _ (load_Some _ _ _ Hl)). reflexivity.
Qed.

Lemma executed_consistent hash e : consistent (executed hash e).
Proof. unfold consistent. cbn. split; [reflexivity|discriminate]. Qed.

(** C2: in every calendar state reached from the empty calendar by
    [add_event] of events that are themselves consistent when added (for
    instance freshly constructed with the default status and metrics), by
    [schedule_campaign_across_platforms] and by [execute_event], every event
    of the list has metrics if and only if its status is "Executed". *)
Theorem reachable_calendar_consistent (hash : string -> Z) (w : World) :
  reachable hash consistent w -> calendar_consistent w.
Proof.
  induction 1 as [|w cid p t c st s m Hr IH|w a e Hr IH Hl Ha
                  |w cid t ps c sd f Hr IH|w a e Hr IH Hl].
  - intros a [].
  - intros a Ha. cbn in *. destruct (IH a Ha) as (e & Hl & Hc).
    exists e. split; [apply lookup_app_l_Some; exact Hl|exact Hc].
  - unfold add_event. rewrite (bind_Ok _ _ _ _ _ (load_Some _ _ _ Hl)). cbn.
    intros b Hb. cbn in Hb. apply in_app_or in Hb as [Hb | [<- | []]].
    + apply IH. exact Hb.
    + exists e. split; assumption.
  - eapply grows_consistent; [apply schedule_grows|exact IH].
  - rewrite (execute_event_world hash a e w Hl).
    intros b Hb. cbn [snd set_stdout set_objects objects events] in *. destruct (IH b Hb) as (eb & Hlb & Hcb).
    destruct (decide (b = a)) as [-> | Hne].
    + exists (executed hash e). split; [|apply executed_consistent].
      apply list_lookup_insert_eq. eapply lookup_lt_Some; eauto.
    + exists eb. split; [|exact Hcb].
      rewrite list_lookup_insert_ne by congruence. exact Hlb.
Qed.

Lemma reachable_calendar_consistent_witness :
  let hash := fun _ : string => 123456789 in
  let w1 := snd (schedule_campaign_across_platforms "c1" "Launch" ["LinkedIn"]
                   {[ "LinkedIn" := "Hello" ]} "2024-01-01T09:00:00" "once"
                   empty_world) in
  let w2 := snd (execute_event hash 0%nat w1) in
  reachable hash consistent w2 /\ calendar_consistent w2.
Proof.
  intros hash w1 w2.
  assert (Hr : reachable hash consistent w2).
  { apply (reach_execute_event hash consistent w1 0%nat
             (mk_event "c1" "LinkedIn" "Launch" "Hello" "2024-01-01T09:00:00"
                "Scheduled" [])).
    - apply reach_schedule, reach_empty.
    - vm_compute. reflexivity. }
  split; [exact Hr|]. exact (reachable_calendar_consistent hash w2 Hr).
Defined.

(** With [add_event] of an arbitrary event the invariant fails: an event
    constructed with status "Executed" has no metrics. *)
Lemma add_event_breaks_consistency :
  let hash := fun _ : string => 0 in
  let w1 := snd (new_CampaignEvent "c1" "LinkedIn" "Launch" "Hello"
                   "2024-01-01T09:00:00" "Executed" None empty_world) in
  let w2 := snd (add_event 0%nat w1) in
  reachable hash (fun _ => True) w2 /\ ~ calendar_consistent w2.
Proof.
  intros hash w1 w2. split.
  - apply (reach_add_event hash (fun _ => True) w1 0%nat
             (mk_event "c1" "LinkedIn" "Launch" "Hello" "2024-01-01T09:00:00"
                "Executed" [])); [|reflexivity|exact I].
    apply reach_construct, reach_empty.
  - intros Hc. destruct (Hc 0%nat) as (e & Hl & Hce).
    { left. reflexivity. }
    vm_compute in Hl. injection Hl as <-.
    destruct Hce as [_ Hce]. apply Hce; reflexivity.
Qed.

(** ** export_calendar (C10) *)




(** ** Range queries (C6) *)

(** *** The stable sort *)
Section SortedBy.
Context {A : Type} (key : A -> string).



Lemma insert_by_perm (x : A) (l : list A) : Permutation (insert_by key x l) (x :: l).
Proof.
  induction l as [|y l IH]; cbn; [reflexivity|].
  destruct (String.ltb (key y) (key x)); [|reflexivity].
  rewrite IH. apply perm_swap.
Qed.

Lemma sorted_by_perm (l : list A) : Permutation (sorted_by key l) l.
Proof.
  induction l as [|x l IH]; cbn; [reflexivity|].
  rewrite insert_by_perm, IH. reflexivity.
Qed.




End SortedBy.

(** *** Canonical ISO strings order like the timestamps they denote *)

Lemma compare_refl (s : string) : String.compare s s = Eq.
Proof.
  pose proof (String.compare_antisym s s) as Hc.
  destruct (String.compare s s); cbn in Hc; congruence.
Qed.




Lemma str_app_nil_r (s : string) : s +:+ "" = s.
Proof.
  induction s as [|c s IH]; [reflexivity|].
  change (String c (s +:+ "") = String c s). rewrite IH. reflexivity.
Qed.







Lemma valid_datetime_fields dt :
  valid_datetime dt = true ->
  0 <= year dt < 10 ^ Z.of_nat 4 /\ 0 <= month dt < 10 ^ Z.of_nat 2 /\
  0 <= day dt < 10 ^ Z.of_nat 2 /\ 0 <= hour dt < 10 ^ Z.of_nat 2 /\
  0 <= minute dt < 10 ^ Z.of_nat 2 /\ 0 <= second dt < 10 ^ Z.of_nat 2 /\
  0 <= microsecond dt < 10 ^ Z.of_nat 6.
Proof.
  unfold valid_datetime, valid_date, valid_time. intros H.
  repeat (apply andb_prop in H as [H ?]).
  repeat match goal with
         | H : (_ <=? _) = true |- _ => apply Z.leb_le in H
         | H : (_ <? _) = true |- _ => apply Z.ltb_lt in H
         end.
  assert (days_in_month (year dt) (month dt) <= 31).
  { unfold days_in_month.
    assert (Hc : month dt = 1 \/ month dt = 2 \/ month dt = 3 \/ month dt = 4
                 \/ month dt = 5 \/ month dt = 6 \/ month dt = 7 \/ month dt = 8
                 \/ month dt = 9 \/ month dt = 10 \/ month dt = 11 \/ month dt = 12)
      by lia.
    destruct (is_leap (year dt));
      repeat (destruct Hc as [-> | Hc]; [vm_compute; discriminate|]);
      rewrite Hc; vm_compute; discriminate. }
  change (10 ^ Z.of_nat 4) with 10000. change (10 ^ Z.of_nat 2) with 100.
  change (10 ^ Z.of_nat 6) with 1000000. lia.
Qed.


(** *** The queries *)

Lemma events_between_loop (w : World) (lo hi : datetime) (l : list addr) :
  (forall a, In a l -> is_Some (parsed_time w a)) ->
  forall acc,
    for_fold l acc (fun event acc =>
      let* e := load event in
      let* t := lift_option ValueError (fromisoformat (scheduled_time e)) in
      ret (if dt_leb lo t && dt_leb t hi then acc ++ [event] else acc)) w
    = (Ok (acc ++ List.filter (in_window w lo hi) l), w).
Proof.
  induction l as [|a l IH]; intros Hp acc.
  - cbn. rewrite app_nil_r. reflexivity.
  - cbn [for_fold List.filter].
    destruct (Hp a (or_introl eq_refl)) as [t Ht].
    unfold in_window at 1. rewrite Ht. unfold parsed_time in Ht.
    destruct (objects w !! a) as [e|] eqn:Hl; [|discriminate].
    erewrite bind_Ok;
      [|erewrite bind_Ok; [|apply load_Some; exact Hl]; rewrite Ht; reflexivity].
    rewrite IH by (intros b Hb; apply Hp; right; exact Hb).
    destruct (dt_leb lo t && dt_leb t hi); [rewrite <- app_assoc|]; reflexivity.
Qed.

Lemma events_between_filter (w : World) (lo hi : datetime) :
  all_parse w ->
  events_between lo hi w = (Ok (List.filter (in_window w lo hi) (events w)), w).
Proof.
  intros Hp. unfold events_between.
  rewrite (events_between_loop w lo hi (events w) Hp []). reflexivity.
Qed.








(** ** The likes/comments/shares split (C4) *)

Lemma split_ok_checked : snd (Pos.iter split_step (0, true) 10001) = true.
Proof. vm_compute. reflexivity. Qed.

Lemma split_step_iter (p : positive) :
  fst (Pos.iter split_step (0, true) p) = Z.pos p /\
  (snd (Pos.iter split_step (0, true) p) = true ->
   forall e, 0 <= e < Z.pos p -> split_ok e = true).
Proof.
  apply (Pos.iter_ind _ split_step (0, true)
           (fun p s => fst s = Z.pos p /\
                       (snd s = true ->
                        forall e, 0 <= e < Z.pos p -> split_ok e = true))).
  - split; [reflexivity|]. intros H e He.
    assert (e = 0) as -> by lia. exact H.
  - intros q [n ok] [Hn Hok]. cbn [fst snd] in *. unfold split_step. cbn [fst snd].
    split; [lia|]. intros H e He. apply andb_prop in H as [H1 H2].
    destruct (Z.eq_dec e n) as [-> | Hne]; [exact H2|]. apply Hok; [exact H1|lia].
Qed.

Lemma split_ok_below (p : positive) :
  snd (Pos.iter split_step (0, true) p) = true ->
  forall e, 0 <= e < Z.pos p -> split_ok e = true.
Proof. exact (proj2 (split_step_iter p)). Qed.

Lemma split_sum_bounds (e : Z) :
  0 <= e <= 10000 -> e - 2 <= split_sum e <= e.
Proof.
  intros He.
  assert (H : split_ok e = true).
  { apply (split_ok_below 10001 split_ok_checked). lia. }
  unfold split_ok in H. apply andb_prop in H as [H1 H2]. lia.
Qed.

Lemma simulate_metrics_split (base : Z) (rate r1 r2 r3 r4 : float) :
  let m := simulate_metrics base rate r1 r2 r3 r4 in
  likes m = py_int (float_of_int (engagements m) * 0.7)%float /\
  comments m = py_int (float_of_int (engagements m) * 0.2)%float /\
  shares m = py_int (float_of_int (engagements m) * 0.1)%float /\
  likes m + comments m + shares m = split_sum (engagements m).
Proof. repeat split. Qed.

Lemma post_to_platform_metrics (now_at : nat -> datetime) (random_at : nat -> float)
    (timestamp_repr : datetime -> string)
    (platform content scheduled_time : string) (w : World) :
  exists post w' base rate r1 r2 r3 r4,
    post_to_platform now_at random_at timestamp_repr platform content
      scheduled_time w = (Ok post, w') /\
    metrics post = simulate_metrics base rate r1 r2 r3 r4.
Proof.
  cbv beta iota zeta delta [post_to_platform bind datetime_now random_random].
  eexists _, _, _, _, _, _, _, _. split; reflexivity.
Qed.

(** C4: the likes, comments and shares of every post are the truncations
    [int(engagements * 0.7)], [int(engagements * 0.2)] and
    [int(engagements * 0.1)]; for up to 10000 engagements (the profiles of
    the table produce fewer than 2600) their sum is at most the
    engagements and falls short of them by at most 2. *)
Theorem post_metrics_split (now_at : nat -> datetime) (random_at : nat -> float)
    (timestamp_repr : datetime -> string)
    (platform content scheduled_time : string) (w : World) :
  exists post w',
    post_to_platform now_at random_at timestamp_repr platform content
      scheduled_time w = (Ok post, w') /\
    likes (metrics post)
    = py_int (float_of_int (engagements (metrics post)) * 0.7)%float /\
    comments (metrics post)
    = py_int (float_of_int (engagements (metrics post)) * 0.2)%float /\
    shares (metrics post)
    = py_int (float_of_int (engagements (metrics post)) * 0.1)%float /\
    (0 <= engagements (metrics post) <= 10000 ->
     engagements (metrics post) - 2
     <= likes (metrics post) + comments (metrics post) + shares (metrics post)
     <= engagements (metrics post)).
Proof.
  destruct (post_to_platform_metrics now_at random_at timestamp_repr platform content
              scheduled_time w)
    as (post & w' & base & rate & r1 & r2 & r3 & r4 & Hrun & Hm).
  exists post, w'. split; [exact Hrun|]. rewrite Hm.
  destruct (simulate_metrics_split base rate r1 r2 r3 r4) as (Hl & Hc & Hs & Hsum).
  split; [exact Hl|]. split; [exact Hc|]. split; [exact Hs|].
  intros He. rewrite Hsum. apply split_sum_bounds. exact He.
Qed.

Lemma post_metrics_split_witness :
  let now_at := fun _ : nat => mk_datetime 2024 1 1 0 0 0 0 in
  let random_at := fun n : nat =>
    match n with 1%nat => 0.078125%float | _ => 0%float end in
  exists post w',
    post_to_platform now_at random_at (fun _ => "1704067200.0") "LinkedIn" "Hello"
      "2024-01-01T09:00:00" empty_world = (Ok post, w') /\
    0 <= engagements (metrics post) <= 10000 /\
    engagements (metrics post) - 2
    <= likes (metrics post) + comments (metrics post) + shares (metrics post)
    <= engagements (metrics post).
Proof.
  intros now_at random_at.
  destruct (post_metrics_split now_at random_at (fun _ => "1704067200.0") "LinkedIn"
              "Hello" "2024-01-01T09:00:00" empty_world)
    as (post & w' & Hrun & _ & _ & _ & Hsum).
  assert (He : 0 <= engagements (metrics post) <= 10000).
  { assert (E : fst (post_to_platform now_at random_at (fun _ => "1704067200.0")
                       "LinkedIn" "Hello" "2024-01-01T09:00:00" empty_world)
                = Ok post) by (rewrite Hrun; reflexivity).
    vm_compute in E. injection E as <-. vm_compute. split; discriminate. }
  exists post, w'. split; [exact Hrun|]. split; [exact He|]. exact (Hsum He).
Defined.

(** With the draws 0 and 0.078125 a LinkedIn post gets a reach of 8000 and
    149 engagements, split into 104 likes, 29 comments and 14 shares: the
    comments are not [round(149 * 0.2) = 30], and the sum 147 is 2 short. *)
Lemma post_split_off_by_two :
  let now_at := fun _ : nat => mk_datetime 2024 1 1 0 0 0 0 in
  let random_at := fun n : nat =>
    match n with 1%nat => 0.078125%float | _ => 0%float end in
  exists post,
    fst (post_to_platform now_at random_at (fun _ => "1704067200.0") "LinkedIn"
           "Hello" "2024-01-01T09:00:00" empty_world) = Ok post /\
    engagements (metrics post) = 149 /\
    likes (metrics post) = 104 /\ comments (metrics post) = 29 /\
    shares (metrics post) = 14 /\
    comments (metrics post)
    <> py_round (float_of_int (engagements (metrics post)) * 0.2)%float /\
    ~ (engagements (metrics post) - 1
       <= likes (metrics post) + comments (metrics post) + shares (metrics post)
       <= engagements (metrics post) + 1).
Proof.
  cbv zeta. eexists. split; [vm_compute; reflexivity|].
  cbn [metrics engagements likes comments shares].
  repeat split; try (vm_compute; congruence).
  intros [H _]. vm_compute in H. apply H. reflexivity.
Qed.

(** ** The performance report (C9) *)

Section Report.
Variable now_at : nat -> datetime.
Variable py_str : pyval -> string.
Variable float_comma : float -> string.


Lemma numeric_fmt_comma v : numeric v -> exists s, fmt_comma float_comma v = Ok s.
Proof. destruct v; cbn; intros H; try destruct H; eauto. Qed.

Lemma numeric_fmt_fixed2 v : numeric v -> exists s, fmt_fixed2 v = Ok s.
Proof. destruct v; cbn; intros H; try destruct H; eauto. Qed.

Lemma numeric_is_positive v : numeric v -> exists b, is_positive v = Ok b.
Proof. destruct v; cbn; intros H; try destruct H; eauto. Qed.

Lemma numeric_py_add a b :
  numeric a -> numeric b -> exists c, py_add a b = Ok c /\ numeric c.
Proof.
  destruct a, b; cbn; intros Ha Hb; try destruct Ha; try destruct Hb;
    eexists; split; try reflexivity; exact I.
Qed.

Lemma numeric_py_percent a b :
  numeric a -> numeric b -> exists x, py_percent a b = Ok x.
Proof.
  destruct a, b; cbn; intros Ha Hb; try destruct Ha; try destruct Hb; eauto.
Qed.


Lemma platform_section_total platform data w :
  numeric_data data ->
  exists section, platform_section py_str float_comma platform data w = (Ok section, w).
Proof.
  intros Hn. unfold platform_section.
  destruct (numeric_fmt_comma _ (Hn "total_reach" ltac:(cbn; tauto))) as [? ->].
  destruct (numeric_fmt_comma _ (Hn "total_engagements" ltac:(cbn; tauto))) as [? ->].
  destruct (numeric_fmt_fixed2 _ (Hn "avg_engagement_rate" ltac:(cbn; tauto))) as [? ->].
  destruct (numeric_fmt_comma _ (Hn "total_clicks" ltac:(cbn; tauto))) as [? ->].
  destruct (numeric_fmt_fixed2 _ (Hn "ctr" ltac:(cbn; tauto))) as [? ->].
  destruct (numeric_fmt_comma _ (Hn "total_conversions" ltac:(cbn; tauto))) as [? ->].
  destruct (numeric_is_positive _ (Hn "total_clicks" ltac:(cbn; tauto))) as [b ->].
  destruct (numeric_fmt_fixed2 _ (Hn "conversion_rate" ltac:(cbn; tauto))) as [? Hr].
  unfold bind, lift. destruct b; [rewrite Hr|]; eexists; reflexivity.
Qed.


Lemma sections_loop_total (analytics : list (string * dict)) :
  (forall entry, In entry analytics -> numeric_data (snd entry)) ->
  forall acc w, exists sections,
    for_fold analytics acc (sections_body py_str float_comma) w = (Ok sections, w).
Proof.
  induction analytics as [|entry analytics IH]; intros Hn acc w.
  - eexists. reflexivity.
  - cbn [for_fold]. unfold bind at 1, sections_body at 1.
    destruct (platform_section_total (fst entry) (snd entry) w
                (Hn entry (or_introl eq_refl))) as [section Hs].
    unfold bind at 1. rewrite Hs. unfold ret at 1.
    apply IH. intros e He. apply Hn. right. exact He.
Qed.

Lemma sum_key_total (key : string) (analytics : list (string * dict)) :
  In key report_keys ->
  (forall entry, In entry analytics -> numeric_data (snd entry)) ->
  forall acc w, numeric acc ->
    exists total,
      for_fold analytics acc (fun entry acc =>
        lift (py_add acc (dict_get (snd entry) key (VInt 0)))) w = (Ok total, w)
      /\ numeric total.
Proof.
  intros Hk. induction analytics as [|entry analytics IH]; intros Hn acc w Hacc.
  - exists acc. split; [reflexivity|exact Hacc].
  - cbn [for_fold]. unfold bind at 1, lift at 1.
    destruct (numeric_py_add acc (dict_get (snd entry) key (VInt 0)) Hacc
                (Hn entry (or_introl eq_refl) key Hk)) as (c & -> & Hc).
    apply IH; [|exact Hc]. intros e He. apply Hn. right. exact He.
Qed.

End Report.


(** The report for two platforms without any post: each block has the
    line "CTR: 0.00%" and no conversion-rate line. *)
Example report_for_empty_history :
  let now_at := fun _ : nat => mk_datetime 2024 1 1 0 0 0 0 in
  platform_section (fun _ => "?") (fun _ => "?") "Twitter"
    [("platform", VStr "Twitter"); ("posts", VInt 0); ("total_reach", VInt 0)]
    empty_world
  = (Ok [nl +:+ "📱 Twitter" +:+ nl;
         "----------------------------------------" +:+ nl;
         "  Posts:             0" +:+ nl;
         "  Total Reach:       0" +:+ nl;
         "  Engagements:       0" +:+ nl;
         "  Engagement Rate:   0.00%" +:+ nl;
         "  Clicks:            0" +:+ nl;
         "  CTR:               0.00%" +:+ nl;
         "  Conversions:       0" +:+ nl], empty_world).
Proof. vm_compute. reflexivity. Qed.

(** ** Dictionaries *)

Lemma dict_lookup_set {V} (k k' : string) (v : V) (d : list (string * V)) :
  dict_lookup k' (dict_set k v d)
  = if String.eqb k' k then Some v else dict_lookup k' d.
Proof.
  induction d as [|[k0 v0] d IH]; cbn.
  - destruct (String.eqb k' k); reflexivity.
  - destruct (String.eqb k k0) eqn:E0; cbn.
    + apply String.eqb_eq in E0 as <-. destruct (String.eqb k' k); reflexivity.
    + destruct (String.eqb k' k0) eqn:E1.
      * apply String.eqb_eq in E1 as ->.
        rewrite String.eqb_sym, E0. reflexivity.
      * exact IH.
Qed.

Lemma dict_get_set {V} (k k' : string) (v dflt : V) (d : list (string * V)) :
  dict_get (dict_set k v d) k' dflt
  = if String.eqb k' k then v else dict_get d k' dflt.
Proof.
  unfold dict_get. rewrite dict_lookup_set. destruct (String.eqb k' k); reflexivity.
Qed.

Lemma dict_lookup_None {V} (k : string) (d : list (string * V)) :
  dict_lookup k d = None <-> ~ In k (map fst d).
Proof.
  induction d as [|[k0 v0] d IH]; cbn; [tauto|].
  destruct (String.eqb k k0) eqn:E.
  - apply String.eqb_eq in E as ->. split; [discriminate|tauto].
  - apply String.eqb_neq in E. rewrite IH. split; [intros H [?|?]; congruence|tauto].
Qed.

Lemma dict_set_keys {V} (k : string) (v : V) (d : list (string * V)) :
  map fst (dict_set k v d)
  = match dict_lookup k d with
    | Some _ => map fst d
    | None => map fst d ++ [k]
    end.
Proof.
  induction d as [|[k0 v0] d IH]; cbn; [reflexivity|].
  destruct (String.eqb k k0) eqn:E; cbn.
  - apply String.eqb_eq in E as ->. reflexivity.
  - rewrite IH. destruct (dict_lookup k d); reflexivity.
Qed.

Lemma dict_set_NoDup {V} (k : string) (v : V) (d : list (string * V)) :
  NoDup (map fst d) -> NoDup (map fst (dict_set k v d)).
Proof.
  intros Hn. rewrite dict_set_keys. destruct (dict_lookup k d) eqn:E; [exact Hn|].
  apply dict_lookup_None in E. apply NoDup_app. split; [exact Hn|].
  split; [|apply NoDup_singleton].
  intros x Hx Hk. apply list_elem_of_In in Hx. apply list_elem_of_In in Hk.
  destruct Hk as [<- | []]. contradiction.
Qed.

Lemma total_count_set (k : string) (v : Z) (d : list (string * Z)) :
  total_count (dict_set k v d) = total_count d - dict_get d k 0 + v.
Proof.
  unfold total_count, dict_get.
  induction d as [|[k0 v0] d IH]; cbn; [lia|].
  destruct (String.eqb k k0); cbn; [lia|]. rewrite IH. lia.
Qed.

(** ** get_platform_summary *)

Lemma count_platform_loop (w : World) (addrs : list addr) (es : list CampaignEvent) :
  Forall2 (fun a e => objects w !! a = Some e) addrs es ->
  forall summary,
    for_fold addrs summary count_platform w
    = (Ok (tally (map platform es) summary), w).
Proof.
  induction 1 as [|a e addrs es Hl _ IH]; intros summary; [reflexivity|].
  cbn [for_fold map tally fold_left]. unfold count_platform at 1.
  erewrite bind_Ok; [|erewrite bind_Ok; [reflexivity|apply load_Some; exact Hl]].
  apply IH.
Qed.

Lemma tally_get (ps : list string) : forall summary p,
  dict_get (tally ps summary) p 0
  = dict_get summary p 0
    + Z.of_nat (length (List.filter (fun q => String.eqb q p) ps)).
Proof.
  induction ps as [|q ps IH]; intros summary p; cbn [tally fold_left List.filter].
  - cbn. lia.
  - unfold tally in IH. rewrite IH, dict_get_set. rewrite (String.eqb_sym p q).
    destruct (String.eqb q p) eqn:E; cbn [length].
    + apply String.eqb_eq in E as ->. lia.
    + lia.
Qed.

Lemma tally_total (ps : list string) : forall summary,
  total_count (tally ps summary) = total_count summary + Z.of_nat (length ps).
Proof.
  induction ps as [|q ps IH]; intros summary; cbn [tally fold_left length].
  - lia.
  - unfold tally in IH. rewrite IH, total_count_set. lia.
Qed.

Lemma tally_NoDup (ps : list string) : forall summary,
  NoDup (map fst summary) -> NoDup (map fst (tally ps summary)).
Proof.
  induction ps as [|q ps IH]; intros summary Hn; [exact Hn|].
  cbn [tally fold_left]. apply IH, dict_set_NoDup, Hn.
Qed.

Lemma tally_keys (ps : list string) : forall summary p,
  In p (map fst (tally ps summary)) <-> In p (map fst summary) \/ In p ps.
Proof.
  induction ps as [|q ps IH]; intros summary p; cbn [tally fold_left].
  - cbn. tauto.
  - unfold tally in IH. rewrite IH, dict_set_keys.
    destruct (dict_lookup q summary) eqn:E.
    + assert (Hq : In q (map fst summary)).
      { destruct (in_dec string_dec q (map fst summary)) as [Hi|Hn]; [exact Hi|].
        apply dict_lookup_None in Hn. congruence. }
      cbn. split; [tauto|]. intros [H | [<- | H]]; tauto.
    + rewrite in_app_iff. cbn. tauto.
Qed.

Lemma filter_map_length {A B} (f : A -> B) (P : B -> bool) (l : list A) :
  length (List.filter P (map f l)) = length (List.filter (fun x => P (f x)) l).
Proof.
  induction l as [|x l IH]; [reflexivity|]. cbn.
  destruct (P (f x)); cbn; rewrite IH; reflexivity.
Qed.

(** X1: [get_platform_summary] maps every platform that has an event in the
    calendar to the number of its events and holds no other key, each key
    once; the counts add up to the number of events.  The calendar is left
    as it is.  [es] are the event objects of the calendar's list. *)
Theorem platform_summary_counts (w : World) (es : list CampaignEvent) :
  Forall2 (fun a e => objects w !! a = Some e) (events w) es ->
  exists summary,
    get_platform_summary w = (Ok summary, w) /\
    (forall p, dict_get summary p 0 = events_on p es) /\
    (forall p, In p (map fst summary) <-> In p (map platform es)) /\
    NoDup (map fst summary) /\
    total_count summary = Z.of_nat (length (events w)).
Proof.
  intros Hes. exists (tally (map platform es) []).
  split; [unfold get_platform_summary; apply count_platform_loop; exact Hes|].
  split.
  { intros p. rewrite tally_get. unfold events_on. rewrite filter_map_length.
    cbn. reflexivity. }
  split; [intros p; rewrite tally_keys; cbn; tauto|].
  split; [apply tally_NoDup; constructor|].
  rewrite tally_total, length_map. cbn.
  apply Forall2_length in Hes. rewrite Hes. reflexivity.
Qed.

Lemma platform_summary_counts_witness :
  let w := snd (schedule_campaign_across_platforms "c1" "Launch"
                  ["LinkedIn"; "Twitter"; "LinkedIn"] ∅
                  "2024-01-01T09:00:00" "weekly" empty_world) in
  Forall2 (fun a e => objects w !! a = Some e) (events w) (objects w) /\
  exists summary,
    get_platform_summary w = (Ok summary, w) /\
    dict_get summary "LinkedIn" 0 = 8 /\ dict_get summary "Twitter" 0 = 4 /\
    dict_get summary "TikTok" 0 = 0 /\ total_count summary = 12.
Proof.
  intros w.
  assert (Hes : Forall2 (fun a e => objects w !! a = Some e) (events w) (objects w))
    by (vm_compute; repeat constructor).
  split; [exact Hes|].
  destruct (platform_summary_counts w (objects w) Hes)
    as (summary & Hrun & Hget & _ & _ & Htotal).
  exists summary. split; [exact Hrun|].
  rewrite !Hget, Htotal. vm_compute. repeat split.
Defined.

(** ** Execution status *)

Section Executor.
Variable now_at : nat -> datetime.
Variable random_at : nat -> float.
Variable timestamp_repr : datetime -> string.

(** What one call of [execute_campaign] does to the history and to the log. *)
Lemma execute_campaign_effect (campaign_id : string) (platforms : list string)
    (content_per_platform : gmap string string) (start_time : option string)
    (w : World) :
  exists result logs w',
    execute_campaign now_at random_at timestamp_repr campaign_id platforms
      content_per_platform start_time w = (Ok result, w') /\
    map post_platform (posts result) = with_content content_per_platform platforms /\
    executed_campaigns w' = executed_campaigns w ++ posts result /\
    execution_log w' = execution_log w ++ logs /\
    map log_platform logs = with_content content_per_platform platforms /\
    Forall (fun l => log_campaign_id l = campaign_id /\ log_status l = "executed") logs /\
    events w' = events w /\ objects w' = objects w /\
    campaigns w' = campaigns w /\ stdout w' = stdout w.
Proof.
  unfold execute_campaign.
  set (w0 := snd (match start_time with
                  | None => (let* t := datetime_now now_at in ret (isoformat t)) w
                  | Some s => ret s w
                  end)).
  set (st := match start_time with
             | None => isoformat (now_at (clock_ticks w))
             | Some s => s
             end).
  assert (Hst : match start_time with
                | None => let* t := datetime_now now_at in ret (isoformat t)
                | Some s => ret s
                end w = (Ok st, w0)) by (destruct start_time; reflexivity).
  assert (Hw0 : executed_campaigns w0 = executed_campaigns w
                /\ execution_log w0 = execution_log w
                /\ events w0 = events w /\ objects w0 = objects w
                /\ campaigns w0 = campaigns w /\ stdout w0 = stdout w)
    by (destruct start_time; repeat split; reflexivity).
  rewrite (bind_Ok _ _ _ _ _ Hst).
  cbn [datetime_now bind].
  destruct (execute_campaign_loop now_at random_at timestamp_repr campaign_id
              content_per_platform st platforms []
              (set_clock_ticks (S (clock_ticks w0)) w0))
    as (new & logs & w' & Hrun & Hn & _ & Hh & Hl & Hlp & Hlf & He & Ho & Hc & Hs).
  erewrite bind_Ok; [|exact Hrun].
  cbn [app] in *. cbn in Hh, Hl, He, Ho, Hc, Hs.
  exists (mk_result campaign_id (isoformat (now_at (clock_ticks w0))) platforms new),
    logs, w'.
  destruct Hw0 as (? & ? & ? & ? & ? & ?).
  cbn [ret posts]. repeat split; try assumption; congruence.
Qed.

Lemma logs_of_app cid l1 l2 : logs_of cid (l1 ++ l2) = logs_of cid l1 ++ logs_of cid l2.
Proof. apply List.filter_app. Qed.

Lemma logs_of_all cid l :
  Forall (fun e => log_campaign_id e = cid) l -> logs_of cid l = l.
Proof.
  induction 1 as [|e l He _ IH]; [reflexivity|]. cbn.
  rewrite He, String.eqb_refl. unfold logs_of in IH. rewrite IH. reflexivity.
Qed.

Lemma logs_of_none cid l :
  Forall (fun e => log_campaign_id e <> cid) l -> logs_of cid l = [].
Proof.
  induction 1 as [|e l He _ IH]; [reflexivity|]. cbn.
  apply String.eqb_neq in He. rewrite He. exact IH.
Qed.

Lemma get_execution_status_logs cid w :
  exists st,
    get_execution_status cid w = (Ok st, w) /\
    status_campaign_id st = cid /\
    executions st = logs_of cid (execution_log w) /\
    total_platforms st = Z.of_nat (length (executions st)) /\
    (execution_state st = "not_started" <-> executions st = []) /\
    (execution_state st = "completed" <-> executions st <> []).
Proof.
  eexists. split; [reflexivity|]. cbn. fold (logs_of cid (execution_log w)).
  destruct (logs_of cid (execution_log w)); repeat split; try discriminate; congruence.
Qed.

(** X2: [get_execution_status] counts log entries, not platforms: after
    [execute_campaign] the campaign's [total_platforms] has grown by the
    number of listed platforms that have content, on top of what earlier
    executions of the same id logged; the status stays "not_started"
    exactly when nothing was logged before and no listed platform has
    content; the status of every other campaign id is as before. *)
Theorem execution_status_after_campaign (campaign_id : string)
    (platforms : list string) (content_per_platform : gmap string string)
    (start_time : option string) (w : World) :
  exists result w' before after,
    execute_campaign now_at random_at timestamp_repr campaign_id platforms
      content_per_platform start_time w = (Ok result, w') /\
    get_execution_status campaign_id w = (Ok before, w) /\
    get_execution_status campaign_id w' = (Ok after, w') /\
    total_platforms after
    = total_platforms before
      + Z.of_nat (length (with_content content_per_platform platforms)) /\
    map log_platform (executions after)
    = map log_platform (executions before)
      ++ with_content content_per_platform platforms /\
    (execution_state after = "not_started" <->
     execution_state before = "not_started"
     /\ with_content content_per_platform platforms = []) /\
    (forall other, other <> campaign_id ->
       fst (get_execution_status other w') = fst (get_execution_status other w)).
Proof.
  destruct (execute_campaign_effect campaign_id platforms content_per_platform
              start_time w)
    as (result & logs & w' & Hrun & _ & _ & Hl & Hlp & Hlf & _).
  destruct (get_execution_status_logs campaign_id w)
    as (before & Hb & _ & Hbe & Hbt & Hbn & _).
  destruct (get_execution_status_logs campaign_id w')
    as (after & Ha & _ & Hae & Hat & Han & _).
  exists result, w', before, after.
  assert (Hmine : logs_of campaign_id logs = logs).
  { apply logs_of_all. eapply Forall_impl; [exact Hlf|]. intros l [H _]. exact H. }
  assert (Hexec : executions after = executions before ++ logs).
  { rewrite Hae, Hbe, Hl, logs_of_app, Hmine. reflexivity. }
  assert (Hlen : length logs = length (with_content content_per_platform platforms)).
  { rewrite <- Hlp, length_map. reflexivity. }
  split; [exact Hrun|]. split; [exact Hb|]. split; [exact Ha|].
  split; [rewrite Hat, Hbt, Hexec, length_app, Hlen; lia|].
  split; [rewrite Hexec, map_app, Hlp; reflexivity|].
  split.
  { rewrite Han, Hbn, Hexec. split.
    - intros H. apply app_eq_nil in H as [H1 H2]. split; [exact H1|].
      rewrite H2 in Hlen. destruct (with_content _ _); [reflexivity|discriminate].
    - intros [H1 H2]. rewrite H1. rewrite H2 in Hlen.
      destruct logs; [reflexivity|discriminate]. }
  intros other Hother. cbn. rewrite Hl, List.filter_app.
  assert (Hnone : logs_of other logs = []).
  { apply logs_of_none. eapply Forall_impl; [exact Hlf|]. intros l [H _]. congruence. }
  unfold logs_of in Hnone. rewrite Hnone, app_nil_r. reflexivity.
Qed.

(** ** Analytics and the history *)

Lemma sum_of_app f l1 l2 : sum_of f (l1 ++ l2) = sum_of f l1 + sum_of f l2.
Proof.
  unfold sum_of. induction l1 as [|p l1 IH]; cbn; [reflexivity|]. rewrite IH. lia.
Qed.

Lemma posts_on_app p l1 l2 : posts_on p (l1 ++ l2) = posts_on p l1 ++ posts_on p l2.
Proof. apply List.filter_app. Qed.

(** X3: a post shows in the analytics of its platform and in no other:
    after [post_to_platform], [get_platform_analytics] of the platform
    reports one post more than the history held for it and the totals
    grown by the post's metrics, under the keys of the full record (the
    key "posts" of the record for an empty history is gone); the
    analytics of every other platform are as before. *)
Theorem analytics_after_post (platform content scheduled_time : string) (w : World) :
  exists post w' analytics,
    post_to_platform now_at random_at timestamp_repr platform content scheduled_time w
    = (Ok post, w') /\
    get_platform_analytics platform w' = (Ok analytics, w') /\
    let earlier := posts_on platform (executed_campaigns w) in
    dict_lookup "posts_count" analytics
    = Some (VInt (Z.of_nat (length earlier) + 1)) /\
    dict_lookup "total_reach" analytics
    = Some (VInt (sum_of reach earlier + reach (metrics post))) /\
    dict_lookup "total_engagements" analytics
    = Some (VInt (sum_of engagements earlier + engagements (metrics post))) /\
    dict_lookup "total_clicks" analytics
    = Some (VInt (sum_of clicks earlier + clicks (metrics post))) /\
    dict_lookup "total_conversions" analytics
    = Some (VInt (sum_of conversions earlier + conversions (metrics post))) /\
    dict_lookup "posts" analytics = None /\
    (forall other, other <> platform ->
       fst (get_platform_analytics other w') = fst (get_platform_analytics other w)).
Proof.
  destruct (post_to_platform_appends now_at random_at timestamp_repr platform content
              scheduled_time w)
    as (post & w' & Hrun & Hp & _ & _ & _ & Hh & _).
  exists post, w', (platform_analytics (executed_campaigns w') platform).
  split; [exact Hrun|]. split; [reflexivity|].
  assert (Hmine : posts_on platform (executed_campaigns w')
                  = posts_on platform (executed_campaigns w) ++ [post]).
  { rewrite Hh, posts_on_app. cbn. rewrite Hp, String.eqb_refl. reflexivity. }
  cbn zeta. unfold platform_analytics. fold (posts_on platform (executed_campaigns w')).
  rewrite Hmine.
  destruct (posts_on platform (executed_campaigns w) ++ [post]) as [|p0 l0] eqn:E.
  { destruct (posts_on platform (executed_campaigns w)); discriminate. }
  rewrite <- E. rewrite !sum_of_app, length_app. cbn [length sum_of foldr].
  cbn [dict_lookup String.eqb Ascii.eqb Bool.eqb].
  repeat split; try (do 2 f_equal; lia).
  intros other Hother. cbn. unfold platform_analytics.
  fold (posts_on other (executed_campaigns w')).
  fold (posts_on other (executed_campaigns w)).
  rewrite Hh, posts_on_app. cbn. rewrite Hp.
  apply not_eq_sym in Hother. apply String.eqb_neq in Hother. rewrite Hother, app_nil_r.
  reflexivity.
Qed.

Lemma get_all_analytics_entries (w : World) :
  get_all_analytics w
  = (Ok (map (fun p => (p, platform_analytics (executed_campaigns w) p))
           (map fst platform_configs)), w).
Proof.
  unfold get_all_analytics, get_platform_analytics.
  cbn -[platform_analytics]. unfold bind, ret. cbn -[platform_analytics]. reflexivity.
Qed.

(** X4: [get_all_analytics] reports the five configured platforms and
    nothing else, whatever the history holds: [post_to_platform] accepts
    a platform that has no configuration (it posts with the default
    profile) and the history grows by that post, but the analytics of all
    platforms are the same before and after it. *)
Theorem unconfigured_post_not_in_analytics (platform content scheduled_time : string)
    (w : World) :
  configured platform = false ->
  exists post w' analytics,
    post_to_platform now_at random_at timestamp_repr platform content scheduled_time w
    = (Ok post, w') /\
    executed_campaigns w' = executed_campaigns w ++ [post] /\
    get_all_analytics w = (Ok analytics, w) /\
    get_all_analytics w' = (Ok analytics, w') /\
    map fst analytics = ["LinkedIn"; "Twitter"; "Instagram"; "Facebook"; "TikTok"] /\
    dict_lookup platform analytics = None.
Proof.
  intros Hc.
  destruct (post_to_platform_appends now_at random_at timestamp_repr platform content
              scheduled_time w)
    as (post & w' & Hrun & Hp & _ & _ & _ & Hh & _).
  exists post, w', (map (fun p => (p, platform_analytics (executed_campaigns w) p))
                      (map fst platform_configs)).
  split; [exact Hrun|]. split; [exact Hh|].
  split; [apply get_all_analytics_entries|].
  assert (Hother : forall q, In q (map fst platform_configs) ->
            platform_analytics (executed_campaigns w') q
            = platform_analytics (executed_campaigns w) q).
  { intros q Hq. unfold platform_analytics.
    rewrite Hh, List.filter_app. cbn [List.filter]. rewrite Hp.
    assert (Hne : String.eqb platform q = false).
    { apply String.eqb_neq. intros ->. unfold configured in Hc.
      cbn in Hq. repeat (destruct Hq as [<- | Hq]; [discriminate Hc|]). destruct Hq. }
    rewrite Hne, app_nil_r. reflexivity. }
  split.
  { rewrite get_all_analytics_entries. f_equal. f_equal.
    apply map_ext_in. intros q Hq. rewrite Hother; [reflexivity|exact Hq]. }
  split; [reflexivity|].
  unfold configured in Hc. cbn -[platform_analytics]. cbn in Hc.
  repeat match goal with
         | |- context [String.eqb platform ?s] =>
             destruct (String.eqb platform s); [discriminate Hc|]
         end.
  reflexivity.
Qed.

End Executor.

Lemma unconfigured_post_not_in_analytics_witness :
  configured "Mastodon" = false /\
  exists post w' analytics,
    post_to_platform sample_clock sample_random sample_timestamp "Mastodon" "Hello"
      "2024-01-01T09:00:00" empty_world = (Ok post, w') /\
    executed_campaigns w' = executed_campaigns empty_world ++ [post] /\
    get_all_analytics empty_world = (Ok analytics, empty_world) /\
    get_all_analytics w' = (Ok analytics, w') /\
    map fst analytics = ["LinkedIn"; "Twitter"; "Instagram"; "Facebook"; "TikTok"] /\
    dict_lookup "Mastodon" analytics = None.
Proof.
  split; [reflexivity|].
  apply (unconfigured_post_not_in_analytics sample_clock sample_random sample_timestamp
           "Mastodon" "Hello" "2024-01-01T09:00:00" empty_world).
  reflexivity.
Defined.

(** ** Planning: strategies and content *)

Lemma strategies_fold (goal : string) (platforms : list string) :
  forall (acc : list (string * dict)),
    let s := fold_left (fun strategies platform =>
                          dict_set platform (platform_strategy platform goal) strategies)
               platforms acc in
    (NoDup (map fst acc) -> NoDup (map fst s)) /\
    (forall p, In p (map fst s) <-> In p (map fst acc) \/ In p platforms) /\
    (forall p, dict_lookup p s
               = if existsb (String.eqb p) platforms
                 then Some (platform_strategy p goal) else dict_lookup p acc) /\
    (length s <= length acc + length platforms)%nat.
Proof.
  induction platforms as [|q platforms IH]; intros acc; cbn zeta.
  - cbn. split; [auto|]. split; [intros p; tauto|]. split; [reflexivity|lia].
  - cbn [fold_left].
    destruct (IH (dict_set q (platform_strategy q goal) acc)) as (Hn & Hk & Hl & Hlen).
    cbn zeta in Hn, Hk, Hl, Hlen.
    split; [intros H; apply Hn, dict_set_NoDup, H|].
    split.
    { intros p. rewrite Hk, dict_set_keys.
      destruct (dict_lookup q acc) eqn:E.
      - assert (Hq : In q (map fst acc)).
        { destruct (in_dec string_dec q (map fst acc)) as [Hi|Hni]; [exact Hi|].
          apply dict_lookup_None in Hni. congruence. }
        cbn. split; [tauto|]. intros [H | [<- | H]]; tauto.
      - rewrite in_app_iff. cbn. tauto. }
    split.
    { intros p. rewrite Hl, dict_lookup_set. cbn [existsb].
      destruct (String.eqb p q) eqn:E; cbn [orb].
      - apply String.eqb_eq in E as ->.
        destruct (existsb (String.eqb q) platforms); reflexivity.
      - reflexivity. }
    assert (Hs : (length (dict_set q (platform_strategy q goal) acc) <= S (length acc))%nat).
    { rewrite <- (length_map fst), dict_set_keys.
      destruct (dict_lookup q acc); rewrite ?length_app, length_map; cbn; lia. }
    cbn [length]. lia.
Qed.

Lemma existsb_eqb_In (p : string) (l : list string) :
  existsb (String.eqb p) l = true <-> In p l.
Proof.
  rewrite existsb_exists. split.
  - intros (x & Hx & E). apply String.eqb_eq in E as ->. exact Hx.
  - intros H. exists p. split; [exact H|apply String.eqb_refl].
Qed.

(** X5: [_generate_platform_strategies] writes one strategy for every
    listed platform, whether the platform is one of the five with details
    or not, and for no other; a platform listed several times has one
    entry. *)
Theorem strategies_for_listed_platforms (platforms : list string) (goal : string) :
  let strategies := generate_platform_strategies platforms goal in
  NoDup (map fst strategies) /\
  (forall p, In p (map fst strategies) <-> In p platforms) /\
  (forall p, In p platforms ->
     dict_lookup p strategies = Some (platform_strategy p goal)) /\
  (forall p, ~ In p platforms -> dict_lookup p strategies = None) /\
  (length strategies <= length platforms)%nat.
Proof.
  cbn zeta. unfold generate_platform_strategies.
  destruct (strategies_fold goal platforms []) as (Hn & Hk & Hl & Hlen).
  cbn zeta in Hn, Hk, Hl, Hlen.
  split; [apply Hn; constructor|].
  split; [intros p; rewrite Hk; cbn; tauto|].
  split.
  { intros p Hp. rewrite Hl. apply existsb_eqb_In in Hp. rewrite Hp. reflexivity. }
  split; [|exact Hlen].
  intros p Hp. rewrite Hl.
  destruct (existsb (String.eqb p) platforms) eqn:E; [|reflexivity].
  apply existsb_eqb_In in E. contradiction.
Qed.

Lemma content_fold (campaign_name audience : string) (platforms : list string) :
  forall (acc : gmap string string) (p : string),
    fold_left (fun content platform =>
                 match platform_content platform campaign_name audience with
                 | Some text => <[platform := text]> content
                 | None => content
                 end) platforms acc !! p
    = if existsb (String.eqb p) platforms
      then match platform_content p campaign_name audience with
           | Some text => Some text
           | None => acc !! p
           end
      else acc !! p.
Proof.
  induction platforms as [|q platforms IH]; intros acc p; [reflexivity|].
  cbn [fold_left existsb]. rewrite IH.
  destruct (String.eqb p q) eqn:E; cbn [orb].
  - apply String.eqb_eq in E as ->.
    destruct (platform_content q campaign_name audience) as [text|] eqn:Hc.
    + rewrite lookup_insert_eq. destruct (existsb (String.eqb q) platforms); reflexivity.
    + destruct (existsb (String.eqb q) platforms); reflexivity.
  - apply String.eqb_neq in E.
    destruct (platform_content q campaign_name audience) as [text|] eqn:Hc;
      [rewrite lookup_insert_ne by congruence|]; reflexivity.
Qed.

Lemma platform_content_template (p campaign_name audience : string) :
  match platform_content p campaign_name audience with
  | Some text => has_content_template p = true /\ text <> ""
  | None => has_content_template p = false
  end.
Proof.
  unfold platform_content, has_content_template, content_platforms. cbn [existsb].
  repeat match goal with
         | |- context [String.eqb p ?s] => destruct (String.eqb p s); cbn [orb]
         end;
    try (split; [reflexivity|discriminate]); reflexivity.
Qed.

Lemma generate_platform_content_lookup (platforms : list string)
    (campaign_name audience p : string) :
  generate_platform_content platforms campaign_name audience !! p
  = if existsb (String.eqb p) platforms
    then platform_content p campaign_name audience else None.
Proof.
  unfold generate_platform_content. rewrite content_fold, lookup_empty.
  destruct (existsb (String.eqb p) platforms); [|reflexivity].
  destruct (platform_content p campaign_name audience); reflexivity.
Qed.

Lemma with_generated_content (platforms : list string) (campaign_name audience : string) :
  with_content (generate_platform_content platforms campaign_name audience) platforms
  = List.filter has_content_template platforms.
Proof.
  unfold with_content.
  assert (H : forall l, (forall p, In p l -> In p platforms) ->
            List.filter
              (fun p => negb (String.eqb
                 (default "" (generate_platform_content platforms campaign_name audience !! p))
                 "")) l
            = List.filter has_content_template l).
  { induction l as [|p l IH]; intros Hl; [reflexivity|].
    cbn [List.filter]. rewrite IH by (intros q Hq; apply Hl; right; exact Hq).
    rewrite generate_platform_content_lookup.
    assert (Hp : existsb (String.eqb p) platforms = true)
      by (apply existsb_eqb_In, Hl; left; reflexivity).
    rewrite Hp.
    pose proof (platform_content_template p campaign_name audience) as Ht.
    destruct (platform_content p campaign_name audience) as [text|].
    - destruct Ht as [-> Hne]. change (default "" (Some text)) with text.
      apply String.eqb_neq in Hne. rewrite Hne. reflexivity.
    - rewrite Ht. reflexivity. }
  apply H. auto.
Qed.

(** X6: [_generate_platform_content] has content exactly for the listed
    platforms among LinkedIn, Twitter, Instagram, Facebook and TikTok, and
    that content is never the empty string; a listed platform outside the
    five has no entry. *)
Theorem content_for_known_platforms (platforms : list string)
    (campaign_name audience : string) :
  let content := generate_platform_content platforms campaign_name audience in
  (forall p, is_Some (content !! p) <->
             In p platforms /\ In p content_platforms) /\
  (forall p text, content !! p = Some text ->
     text <> "" /\ platform_content p campaign_name audience = Some text).
Proof.
  cbn zeta. split.
  - intros p. rewrite generate_platform_content_lookup.
    pose proof (platform_content_template p campaign_name audience) as Ht.
    rewrite <- (existsb_eqb_In p platforms), <- (existsb_eqb_In p content_platforms).
    fold (has_content_template p).
    destruct (existsb (String.eqb p) platforms);
      destruct (platform_content p campaign_name audience) as [text|].
    + destruct Ht as [-> _]. split; [auto|intros _; eexists; reflexivity].
    + rewrite Ht. split; [intros [? ?]; discriminate|intros [_ ?]; discriminate].
    + split; [intros [? ?]; discriminate|intros [? _]; discriminate].
    + split; [intros [? ?]; discriminate|intros [? _]; discriminate].
  - intros p text. rewrite generate_platform_content_lookup.
    pose proof (platform_content_template p campaign_name audience) as Ht.
    destruct (existsb (String.eqb p) platforms); [|discriminate].
    destruct (platform_content p campaign_name audience) as [t|]; [|discriminate].
    intros [= <-]. split; [apply Ht|reflexivity].
Qed.

(** X7: executing a campaign with the content that planning generated
    posts once for every listed platform that is one of the five, in list
    order, and skips the others without an error. *)
Theorem generated_content_executes_known_platforms
    (now_at : nat -> datetime) (random_at : nat -> float)
    (timestamp_repr : datetime -> string)
    (campaign_id campaign_name audience : string) (platforms : list string)
    (start_time : option string) (w : World) :
  exists result w',
    execute_campaign now_at random_at timestamp_repr campaign_id platforms
      (generate_platform_content platforms campaign_name audience) start_time w
    = (Ok result, w') /\
    map post_platform (posts result) = List.filter has_content_template platforms /\
    executed_campaigns w' = executed_campaigns w ++ posts result.
Proof.
  destruct (execute_campaign_effect now_at random_at timestamp_repr campaign_id platforms
              (generate_platform_content platforms campaign_name audience) start_time w)
    as (result & logs & w' & Hrun & Hp & Hh & _).
  exists result, w'. split; [exact Hrun|].
  split; [rewrite Hp; apply with_generated_content|exact Hh].
Qed.

(** ** Performance tracking and analysis *)

(** X8: what [track_performance] stores for a campaign is what
    [get_performance_summary] returns for it afterwards: the metrics as
    given and the time of the call; an earlier record of the same id is
    replaced and the records of other ids are kept. *)
Theorem tracked_performance_is_returned (now_at : nat -> datetime)
    (campaign_id : string) (metrics : pyval) (performance_data : gmap string dict)
    (w : World) :
  exists tracked,
    track_performance now_at campaign_id metrics performance_data w
    = (Ok tracked, set_clock_ticks (S (clock_ticks w)) w) /\
    get_performance_summary campaign_id tracked
    = [("tracked_at", VStr (isoformat (now_at (clock_ticks w)))); ("metrics", metrics)] /\
    (forall other, other <> campaign_id ->
       get_performance_summary other tracked
       = get_performance_summary other performance_data).
Proof.
  eexists. split; [reflexivity|]. unfold get_performance_summary.
  split; [rewrite lookup_insert_eq; reflexivity|].
  intros other Hother. rewrite lookup_insert_ne by congruence. reflexivity.
Qed.

Lemma tracked_performance_is_returned_witness :
  exists tracked,
    track_performance sample_clock "camp_1" (VDict [("reach", VInt 10)])
      (<["camp_0" := [("metrics", VInt 1)]]> ∅) empty_world
    = (Ok tracked, set_clock_ticks 1 empty_world) /\
    get_performance_summary "camp_1" tracked
    = [("tracked_at", VStr "2024-01-01T00:00:00"); ("metrics", VDict [("reach", VInt 10)])] /\
    get_performance_summary "camp_0" tracked = [("metrics", VInt 1)] /\
    get_performance_summary "camp_2" tracked = [].
Proof.
  destruct (tracked_performance_is_returned sample_clock "camp_1"
              (VDict [("reach", VInt 10)]) (<["camp_0" := [("metrics", VInt 1)]]> ∅)
              empty_world)
    as (tracked & Hrun & Hmine & Hother).
  exists tracked. split; [exact Hrun|]. split; [exact Hmine|].
  split.
  - rewrite (Hother "camp_0") by discriminate. reflexivity.
  - rewrite (Hother "camp_2") by discriminate. reflexivity.
Defined.

(** X9: [analyze_campaign_performance] returns an analysis whatever the
    agent code does: it never raises, an exception of the agent code is
    caught and reported in one printed line, and the result always carries
    the analytics it was given under "performance_data" and a timestamp;
    it is the basic analysis unless the agent code returned a text. *)
Theorem analysis_never_raises (now_at : nat -> datetime)
    (agent_analysis : pyval -> M (option string)) (exception_text : exn -> string)
    (use_ai : bool) (analytics_data : pyval) (w : World) :
  exists analysis w',
    analyze_campaign_performance now_at agent_analysis exception_text use_ai
      analytics_data w = (Ok analysis, w') /\
    dict_lookup "performance_data" analysis = Some analytics_data /\
    (exists t, dict_lookup "analysis_timestamp" analysis = Some (VStr (isoformat t))) /\
    (dict_lookup "analysis_type" analysis = Some (VStr "basic")
     /\ dict_lookup "analysis_result" analysis = None
     \/ (exists text, use_ai = true
           /\ fst (agent_analysis analytics_data w) = Ok (Some text)
           /\ dict_lookup "analysis_result" analysis = Some (VStr text)
           /\ dict_lookup "analysis_type" analysis = None)) /\
    (use_ai = false ->
       w' = set_clock_ticks (S (clock_ticks w)) w) /\
    (forall e, use_ai = true -> fst (agent_analysis analytics_data w) = Raise e ->
       exists line, stdout w' = stdout (snd (agent_analysis analytics_data w)) ++ [line]).
Proof.
  unfold analyze_campaign_performance. destruct use_ai; cbn [negb].
  - destruct (agent_analysis analytics_data w) as [[[text|]|e] w1] eqn:Hagent.
    + eexists _, _. split; [reflexivity|]. cbn.
      split; [reflexivity|]. split; [eexists; reflexivity|].
      split; [right; exists text; repeat split|].
      split; [discriminate|]. intros e _ [=].
    + eexists _, _. split; [reflexivity|]. cbn.
      split; [reflexivity|]. split; [eexists; reflexivity|].
      split; [left; split; reflexivity|].
      split; [discriminate|]. intros e _ [=].
    + eexists _, _. split; [reflexivity|]. cbn.
      split; [reflexivity|]. split; [eexists; reflexivity|].
      split; [left; split; reflexivity|].
      split; [discriminate|]. intros e' _ _. eexists. reflexivity.
  - eexists _, _. split; [reflexivity|]. cbn.
    split; [reflexivity|]. split; [eexists; reflexivity|].
    split; [left; split; reflexivity|].
    split; [reflexivity|]. intros e [=].
Qed.

(** ** The execution report *)

Lemma remove_dups_length_le {A} `{EqDecision A} (l : list A) :
  (length (remove_dups l) <= length l)%nat.
Proof.
  induction l as [|x l IH]; cbn; [lia|].
  destruct (decide_rel elem_of x l); cbn; lia.
Qed.

Lemma logs_of_nonempty cid log :
  logs_of cid log <> [] <-> In cid (map log_campaign_id log).
Proof.
  induction log as [|l log IH]; cbn; [tauto|].
  destruct (String.eqb (log_campaign_id l) cid) eqn:E.
  - apply String.eqb_eq in E. split; [auto|discriminate].
  - apply String.eqb_neq in E. unfold logs_of in IH. rewrite IH. tauto.
Qed.

(** X10: [export_execution_report] writes one document to the file and
    prints nothing: "total_posts" is the length of the simulator's
    history, and "total_campaigns_executed" is the number of campaign ids
    whose execution status is "completed", which is at most the number of
    log entries; the other files, the history and the log are as before. *)
Theorem execution_report_document (now_at : nat -> datetime) (filename : string)
    (w : World) :
  exists doc analytics ids w',
    export_execution_report now_at filename w = (Ok tt, w') /\
    files w' !! filename = Some (VDict doc) /\
    map fst doc = ["export_time"; "total_campaigns_executed"; "total_posts";
                   "analytics"; "execution_log"] /\
    dict_lookup "export_time" doc = Some (VStr (isoformat (now_at (clock_ticks w)))) /\
    dict_lookup "total_posts" doc
    = Some (VInt (Z.of_nat (length (executed_campaigns w)))) /\
    dict_lookup "total_campaigns_executed" doc = Some (VInt (Z.of_nat (length ids))) /\
    NoDup ids /\
    (forall cid, In cid ids <->
       exists st, fst (get_execution_status cid w) = Ok st
                  /\ execution_state st = "completed") /\
    (length ids <= length (execution_log w))%nat /\
    get_all_analytics w = (Ok analytics, w) /\
    dict_lookup "analytics" doc
    = Some (VDict (map (fun entry => (fst entry, VDict (snd entry))) analytics)) /\
    dict_lookup "execution_log" doc = Some (VList (map log_dict (execution_log w))) /\
    (forall other, other <> filename -> files w' !! other = files w !! other) /\
    stdout w' = stdout w /\
    executed_campaigns w' = executed_campaigns w /\
    execution_log w' = execution_log w.
Proof.
  unfold export_execution_report.
  cbv beta iota zeta delta [bind datetime_now].
  rewrite get_all_analytics_entries.
  eexists _, _, (remove_dups (map log_campaign_id (execution_log w))), _.
  split; [reflexivity|]. cbn -[platform_analytics remove_dups get_execution_status].
  split; [apply lookup_insert_eq|].
  split; [reflexivity|]. split; [reflexivity|]. split; [reflexivity|].
  split; [reflexivity|].
  split; [apply NoDup_remove_dups|].
  split.
  { intros cid. rewrite <- list_elem_of_In, elem_of_remove_dups, list_elem_of_In.
    rewrite <- logs_of_nonempty.
    destruct (get_execution_status_logs cid w) as (st & Hst & _ & He & _ & _ & Hc).
    rewrite Hst. cbn [fst]. rewrite <- He. split.
    - intros H. exists st. split; [reflexivity|apply Hc, H].
    - intros (st' & [= <-] & H). apply Hc, H. }
  split.
  { etransitivity; [apply remove_dups_length_le|]. rewrite length_map. reflexivity. }
  split; [reflexivity|]. split; [reflexivity|]. split; [reflexivity|].
  split; [intros other Hother; apply lookup_insert_ne; congruence|].
  repeat split.
Qed.

(** ** Frequencies other than once, daily and weekly *)




(** ** Executing the scheduled campaigns *)

Section ExecuteScheduled.
Variable now_at : nat -> datetime.
Variable random_at : nat -> float.
Variable hash : string -> Z.
Variable timestamp_repr : datetime -> string.

Lemma get_upcoming_events_run (days : Z) (future : datetime) (w : World) :
  all_parse w ->
  add_days (now_at (clock_ticks w)) days = Ok future ->
  get_upcoming_events now_at days w
  = (Ok (upcoming w (now_at (clock_ticks w)) future),
     set_clock_ticks (S (clock_ticks w)) w).
Proof.
  intros Hp Hfuture. unfold get_upcoming_events.
  unfold bind at 1, datetime_now.
  unfold bind at 1, lift. rewrite Hfuture.
  set (w1 := set_clock_ticks (S (clock_ticks w)) w).
  assert (Hp1 : all_parse w1) by exact Hp.
  rewrite (bind_Ok _ _ _ _ _ (events_between_filter w1 _ future Hp1)).
  reflexivity.
Qed.

Lemma upcoming_in_calendar (w : World) (lo hi : datetime) (a : addr) :
  In a (upcoming w lo hi) -> In a (events w) /\ in_window w lo hi a = true.
Proof.
  intros Ha. eapply Permutation_in in Ha; [|apply sorted_by_perm].
  apply filter_In in Ha. exact Ha.
Qed.

Lemma in_window_object (w : World) (lo hi : datetime) (a : addr) :
  in_window w lo hi a = true -> is_Some (objects w !! a).
Proof.
  unfold in_window, parsed_time.
  destruct (objects w !! a); [eauto|discriminate].
Qed.

Lemma execute_scheduled_step (a : addr) (e : CampaignEvent)
    (acc : list PostRecord * Z * gset string) (w : World) :
  objects w !! a = Some e ->
  exists post w1,
    execute_scheduled_body now_at random_at hash timestamp_repr a acc w
    = (Ok (fst (fst acc) ++ [post], snd (fst acc) + 1, {[ platform e ]} ∪ snd acc), w1) /\
    post_of_event e post /\
    executed_campaigns w1 = executed_campaigns w ++ [post] /\
    objects w1 = <[a := executed hash e]> (objects w) /\
    events w1 = events w /\ execution_log w1 = execution_log w /\
    campaigns w1 = campaigns w /\ files w1 = files w /\
    stdout w1 = stdout w ++ [executed_line e].
Proof.
  intros Hl. unfold execute_scheduled_body, simulate_post_execution.
  destruct (post_to_platform_appends now_at random_at timestamp_repr (platform e)
              (content e) (scheduled_time e) w)
    as (post & w0 & Hpost & Hp1 & Hp2 & Hp3 & Hp4 & Hh & Hlog & Hev & Hobj & Hc & Hs).
  assert (Hfiles : files w0 = files w).
  { assert (E : snd (post_to_platform now_at random_at timestamp_repr (platform e)
                       (content e) (scheduled_time e) w) = w0)
      by (rewrite Hpost; reflexivity).
    rewrite <- E. reflexivity. }
  assert (Hl0 : objects w0 !! a = Some e) by (rewrite Hobj; exact Hl).
  erewrite bind_Ok;
    [|erewrite bind_Ok; [exact Hpost|apply load_Some; exact Hl]].
  erewrite bind_Ok; [|apply load_Some; exact Hl0].
  erewrite bind_Ok; [|apply execute_event_world; exact Hl0].
  exists post, (set_stdout (stdout w0 ++ [executed_line e])
                  (set_objects (<[a := executed hash e]> (objects w0)) w0)).
  split; [reflexivity|]. split; [repeat split; assumption|].
  cbn. rewrite Hobj, Hs. repeat split; assumption.
Qed.

Lemma execute_scheduled_loop (l : list addr) :
  forall (acc : list PostRecord * Z * gset string) (w : World),
  (forall a, In a l -> is_Some (objects w !! a)) ->
  exists posts covered w',
    for_fold l acc (execute_scheduled_body now_at random_at hash timestamp_repr) w
    = (Ok (fst (fst acc) ++ posts, snd (fst acc) + Z.of_nat (length l),
           covered ∪ snd acc), w') /\
    Forall2 (fun (a : addr) post => exists e, objects w !! a = Some e /\ post_of_event e post)
      l posts /\
    (forall p, p ∈ covered <->
       exists (a : addr) e, In a l /\ objects w !! a = Some e /\ platform e = p) /\
    executed_campaigns w' = executed_campaigns w ++ posts /\
    (forall (a : addr) e, objects w !! a = Some e ->
       objects w' !! a = Some (if in_dec Nat.eq_dec a l then executed hash e else e)) /\
    length (objects w') = length (objects w) /\
    events w' = events w /\ execution_log w' = execution_log w /\
    campaigns w' = campaigns w /\ files w' = files w /\
    stdout w' = stdout w ++ flat_map (fun a : addr => match objects w !! a with
                                               | Some e => [executed_line e]
                                               | None => []
                                               end) l.
Proof.
  induction l as [|a l IH]; intros acc w Hobj.
  - exists [], ∅, w. cbn [for_fold ret length app Z.of_nat flat_map].
    rewrite !app_nil_r, Z.add_0_r, (left_id_L ∅ (∪)).
    split; [destruct acc as [[? ?] ?]; reflexivity|].
    split; [constructor|].
    split; [intros p; split; [intros H; apply elem_of_empty in H as []|
                              intros (? & ? & [] & _)]|].
    split; [reflexivity|]. split; [intros b e He; exact He|]. repeat split.
  - destruct (Hobj a (or_introl eq_refl)) as [e He].
    destruct (execute_scheduled_step a e acc w He)
      as (post & w1 & Hstep & Hpost & Hh1 & Ho1 & He1 & Hl1 & Hc1 & Hf1 & Hs1).
    assert (Ha : (a < length (objects w))%nat) by (eapply lookup_lt_Some, He).
    assert (Hlook : forall (b : addr) eb, objects w !! b = Some eb ->
              objects w1 !! b = Some (if Nat.eq_dec b a then executed hash eb else eb)).
    { intros b eb Hb. rewrite Ho1. destruct (Nat.eq_dec b a) as [E|Hne].
      - rewrite E in Hb |- *. rewrite list_lookup_insert_eq by exact Ha.
        pose proof (eq_trans (eq_sym Hb) He) as Heq. injection Heq as ->.
        reflexivity.
      - rewrite list_lookup_insert_ne by (intros E; apply Hne; symmetry; exact E).
        exact Hb. }
    assert (Hobj1 : forall b, In b l -> is_Some (objects w1 !! b)).
    { intros b Hb. destruct (Hobj b (or_intror Hb)) as [eb Heb].
      rewrite (Hlook b eb Heb). eauto. }
    cbn [for_fold]. rewrite (bind_Ok _ _ _ _ _ Hstep).
    destruct (IH (fst (fst acc) ++ [post], snd (fst acc) + 1, {[platform e]} ∪ snd acc)
                w1 Hobj1)
      as (posts & covered & w' & Hrun & Hposts & Hcov & Hh & Ho & Hlen & Hev & Hlog
          & Hc & Hf & Hs).
    cbn [fst snd] in Hrun.
    assert (Hback : forall (b : addr) e1, objects w1 !! b = Some e1 ->
              exists e0, objects w !! b = Some e0 /\
                         (e1 = e0 \/ e1 = executed hash e0)).
    { intros b e1 H1. rewrite Ho1 in H1. destruct (Nat.eq_dec b a) as [E|Hne].
      - rewrite E in H1 |- *.
        rewrite list_lookup_insert_eq in H1 by exact Ha. injection H1 as <-.
        exists e. split; [exact He|right; reflexivity].
      - rewrite list_lookup_insert_ne in H1
          by (intros E; apply Hne; symmetry; exact E).
        exists e1. split; [exact H1|left; reflexivity]. }
    exists (post :: posts), (covered ∪ {[platform e]}), w'.
    split.
    { rewrite Hrun, <- app_assoc. cbn [app length].
      replace (snd (fst acc) + 1 + Z.of_nat (length l))
        with (snd (fst acc) + Z.of_nat (S (length l))) by lia.
      rewrite (assoc_L (∪)). reflexivity. }
    split.
    { constructor; [exists e; split; assumption|].
      eapply Forall2_impl; [exact Hposts|].
      intros b pb (e1 & H1 & Hp). destruct (Hback b e1 H1) as (e0 & H0 & [->| ->]);
        exists e0; split; assumption. }
    split.
    { intros p. rewrite elem_of_union, Hcov, elem_of_singleton. split.
      - intros [(b & e1 & Hb & H1 & Hp) | ->].
        + destruct (Hback b e1 H1) as (e0 & H0 & [->| ->]);
            exists b, e0; (split; [right; exact Hb|split; [exact H0|exact Hp]]).
        + exists a, e. split; [left; reflexivity|split; [exact He|reflexivity]].
      - intros (b & e0 & [<- | Hb] & H0 & Hp).
        + right. congruence.
        + left. exists b. eexists. split; [exact Hb|].
          split; [apply Hlook; exact H0|].
          destruct (Nat.eq_dec b a); exact Hp. }
    split; [rewrite Hh, Hh1, <- app_assoc; reflexivity|].
    split.
    { intros b eb Hb. rewrite (Ho b _ (Hlook b eb Hb)). f_equal.
      destruct (in_dec Nat.eq_dec b (a :: l)) as [Hin|Hnin];
        destruct (in_dec Nat.eq_dec b l) as [Hin'|Hnin'];
        destruct (Nat.eq_dec b a) as [E|Hne]; try reflexivity;
        exfalso; cbn [In] in *; intuition congruence. }
    split; [rewrite Hlen, Ho1, length_insert; reflexivity|].
    split; [congruence|]. split; [congruence|]. split; [congruence|].
    split; [congruence|].
    rewrite Hs, Hs1. cbn [flat_map]. rewrite He, <- app_assoc. f_equal. f_equal.
    clear -Hlook Hobj.
    assert (Hsame : forall b : addr, In b l ->
              match objects w1 !! b with Some e => [executed_line e] | None => [] end
              = match objects w !! b with Some e => [executed_line e] | None => [] end).
    { intros b Hb. destruct (Hobj b (or_intror Hb)) as [eb Heb].
      rewrite (Hlook b eb Heb), Heb. destruct (Nat.eq_dec b a); reflexivity. }
    induction l as [|b l IHl]; [reflexivity|]. cbn [flat_map].
    rewrite Hsame by (left; reflexivity).
    rewrite IHl; [reflexivity| |].
    + intros c [<-|Hc]; apply Hobj; [left|right; right]; auto.
    + intros c Hc. apply Hsame. right. exact Hc.
Qed.

(** What [execute_scheduled_campaigns] does, given the window. *)
Lemma execute_scheduled_run (w : World) (future : datetime) :
  all_parse w ->
  add_days (now_at (clock_ticks w)) 7 = Ok future ->
  let due := upcoming w (now_at (clock_ticks w)) future in
  exists result w',
    execute_scheduled_campaigns now_at random_at hash timestamp_repr w
    = (Ok result, w') /\
    events w' = events w /\ execution_log w' = execution_log w /\
    (forall (a : addr) e, objects w !! a = Some e ->
       objects w' !! a
       = Some (if in_dec Nat.eq_dec a due then executed hash e else e)) /\
    match result with
    | NoCampaigns => due = [] /\ executed_campaigns w' = executed_campaigns w
    | Summary ts n covered posts =>
        due <> [] /\
        ts = isoformat (now_at (S (clock_ticks w))) /\
        n = Z.of_nat (length due) /\
        Forall2 (fun (a : addr) post =>
                   exists e, objects w !! a = Some e /\ post_of_event e post)
          due posts /\
        (forall p, p ∈ covered <->
           exists (a : addr) e, In a due /\ objects w !! a = Some e /\ platform e = p) /\
        executed_campaigns w' = executed_campaigns w ++ posts
    end.
Proof.
  intros Hp Hfuture due. unfold execute_scheduled_campaigns.
  unfold bind at 1, print at 1.
  set (w0 := set_stdout (stdout w ++ [nl +:+ "🚀 Executing scheduled campaigns..."]) w).
  assert (Hp0 : all_parse w0) by exact Hp.
  rewrite (bind_Ok _ _ _ _ _
             (get_upcoming_events_run 7 future w0 Hp0 Hfuture)).
  change (upcoming w0 (now_at (clock_ticks w0)) future) with due.
  set (w1 := set_clock_ticks (S (clock_ticks w0)) w0).
  destruct due as [|a0 due0] eqn:Hdue.
  - eexists _, _. split; [reflexivity|]. cbn.
    split; [reflexivity|]. split; [reflexivity|].
    split; [intros a e He; exact He|]. split; reflexivity.
  - rewrite <- Hdue. unfold bind at 1, datetime_now.
    set (w2 := set_clock_ticks (S (clock_ticks w1)) w1).
    assert (Hobj : forall a : addr, In a due -> is_Some (objects w2 !! a)).
    { intros a Ha. apply upcoming_in_calendar in Ha as [_ Ha].
      apply in_window_object in Ha. exact Ha. }
    destruct (execute_scheduled_loop due ([], 0, ∅) w2 Hobj)
      as (posts & covered & w' & Hrun & Hposts & Hcov & Hh & Ho & _ & Hev & Hlog & _).
    cbn [fst snd app] in Hrun. rewrite (bind_Ok _ _ _ _ _ Hrun).
    eexists _, _. split; [reflexivity|]. cbn [bind print ret snd fst].
    cbn [events execution_log objects executed_campaigns set_stdout].
    split; [exact Hev|]. split; [exact Hlog|]. split; [exact Ho|].
    split; [rewrite Hdue; discriminate|]. split; [reflexivity|].
    split; [lia|]. split; [exact Hposts|].
    split; [|exact Hh].
    intros p. rewrite (right_id_L ∅ (∪)). exact (Hcov p).
Qed.





End ExecuteScheduled.

(** ** Dates: printing and parsing *)

Lemma digit_val_digit_char (n : Z) : digit_val (digit_char n) = Some (n mod 10).
Proof.
  unfold digit_val, digit_char.
  pose proof (Z.mod_pos_bound n 10 ltac:(lia)) as Hb.
  rewrite nat_ascii_embedding by lia.
  replace (Z.of_nat (48 + Z.to_nat (n mod 10))) with (48 + n mod 10) by lia.
  destruct (48 <=? 48 + n mod 10) eqn:E1; [|lia].
  destruct (48 + n mod 10 <=? 57) eqn:E2; [|lia].
  cbn [andb]. f_equal. lia.
Qed.

Lemma parse_digits_snoc (w : nat) : forall acc s,
  parse_digits (S w) acc s
  = match parse_digits w acc s with
    | Some (v, r) => parse_digits 1 v r
    | None => None
    end.
Proof.
  induction w as [|w IH]; intros acc s; [reflexivity|].
  change (parse_digits (S (S w)) acc s)
    with (match s with
          | String c s' => d ← digit_val c; parse_digits (S w) (acc * 10 + d) s'
          | EmptyString => None
          end).
  change (parse_digits (S w) acc s)
    with (match s with
          | String c s' => d ← digit_val c; parse_digits w (acc * 10 + d) s'
          | EmptyString => None
          end).
  destruct s as [|c s']; [reflexivity|].
  destruct (digit_val c) as [d|]; [|reflexivity].
  cbn [mbind option_bind]. apply IH.
Qed.

Lemma str_cons_app (c : ascii) (a b : string) :
  String c a +:+ b = String c (a +:+ b).
Proof. reflexivity. Qed.

Lemma parse_fixed_digits (w : nat) : forall n acc rest,
  parse_digits w acc (fixed_digits w n +:+ rest)
  = Some (acc * 10 ^ Z.of_nat w + n mod 10 ^ Z.of_nat w, rest).
Proof.
  induction w as [|w IH]; intros n acc rest.
  - cbn [fixed_digits parse_digits]. change ("" +:+ rest) with rest.
    change (10 ^ Z.of_nat 0) with 1. rewrite Z.mod_1_r. f_equal. f_equal. lia.
  - rewrite parse_digits_snoc. cbn [fixed_digits].
    rewrite str_app_assoc, str_cons_app. change ("" +:+ rest) with rest.
    rewrite IH. cbn [parse_digits]. rewrite digit_val_digit_char.
    cbn [mbind option_bind]. f_equal. f_equal.
    rewrite Nat2Z.inj_succ, Z.pow_succ_r by lia.
    assert (Hp : 0 < 10 ^ Z.of_nat w) by (apply Z.pow_pos_nonneg; lia).
    rewrite (Z.rem_mul_r n 10 (10 ^ Z.of_nat w)) by lia. lia.
Qed.

Lemma parse_fmt_0d (w : nat) (n : Z) (rest : string) :
  0 <= n < 10 ^ Z.of_nat w ->
  parse_digits w 0 (fmt_0d w n +:+ rest) = Some (n, rest).
Proof.
  intros Hn. unfold fmt_0d. destruct (n <? 10 ^ Z.of_nat w) eqn:E; [|lia].
  rewrite parse_fixed_digits, Z.mod_small by lia. reflexivity.
Qed.

Lemma str_lit_app (c : ascii) (s : string) : String c "" +:+ s = String c s.
Proof. reflexivity. Qed.

Lemma expect_cons (c : ascii) (s : string) : expect c (String c s) = Some s.
Proof. cbn. rewrite Ascii.eqb_refl. reflexivity. Qed.

(** A valid timestamp is read back from its ISO text. *)
Lemma fromisoformat_isoformat (t : datetime) :
  valid_datetime t = true -> fromisoformat (isoformat t) = Some t.
Proof.
  intros Hv.
  destruct (valid_datetime_fields t Hv) as (Hy & Hm & Hd & Hh & Hmi & Hs & Hus).
  unfold fromisoformat, isoformat, isoformat_date.
  rewrite !str_app_assoc, !str_lit_app.
  rewrite parse_fmt_0d by exact Hy. cbn [mbind option_bind].
  rewrite expect_cons. cbn [mbind option_bind].
  rewrite parse_fmt_0d by exact Hm. cbn [mbind option_bind].
  rewrite expect_cons. cbn [mbind option_bind].
  rewrite parse_fmt_0d by exact Hd. cbn [mbind option_bind].
  rewrite parse_fmt_0d by exact Hh. cbn [mbind option_bind].
  rewrite expect_cons. cbn [mbind option_bind].
  rewrite parse_fmt_0d by exact Hmi. cbn [mbind option_bind].
  rewrite expect_cons. cbn [mbind option_bind].
  rewrite parse_fmt_0d by exact Hs. cbn [mbind option_bind].
  destruct t as [y m d h mi s us]. cbn [year month day hour minute second microsecond] in *.
  destruct (us =? 0) eqn:E.
  - apply Z.eqb_eq in E. subst us. unfold checked. rewrite Hv. reflexivity.
  - rewrite Ascii.eqb_refl.
    rewrite <- (str_app_nil_r (fmt_0d 6 us)).
    rewrite parse_fmt_0d by exact Hus. cbn [mbind option_bind].
    unfold checked. rewrite Hv. reflexivity.
Qed.

(** ** Dates: ordinals *)

Lemma days_before_year_succ (y : Z) :
  days_before_year (y + 1)
  = days_before_year y + 365 + (if is_leap y then 1 else 0).
Proof.
  unfold days_before_year, is_leap. cbv zeta.
  replace (y + 1 - 1) with y by lia.
  destruct (y mod 4 =? 0) eqn:E4; destruct (y mod 100 =? 0) eqn:E100;
    destruct (y mod 400 =? 0) eqn:E400; cbn [andb orb negb];
    rewrite ?Z.eqb_eq, ?Z.eqb_neq in *;
    Z.div_mod_to_equations; lia.
Qed.

Lemma days_before_year_mono (y1 y2 : Z) :
  y1 <= y2 -> days_before_year y1 + 365 * (y2 - y1) <= days_before_year y2.
Proof.
  intros H. replace y2 with (y1 + Z.of_nat (Z.to_nat (y2 - y1))) by lia.
  generalize (Z.to_nat (y2 - y1)). intros k. induction k as [|k IH].
  - replace (y1 + Z.of_nat 0) with y1 by lia. lia.
  - replace (y1 + Z.of_nat (S k)) with (y1 + Z.of_nat k + 1) by lia.
    rewrite days_before_year_succ. destruct (is_leap _); lia.
Qed.

Lemma month_cases (m : Z) :
  1 <= m <= 12 ->
  m = 1 \/ m = 2 \/ m = 3 \/ m = 4 \/ m = 5 \/ m = 6 \/ m = 7
  \/ m = 8 \/ m = 9 \/ m = 10 \/ m = 11 \/ m = 12.
Proof. lia. Qed.

Lemma valid_date_bounds (y m d : Z) :
  valid_date y m d = true ->
  1 <= y <= 9999 /\ 1 <= m <= 12 /\ 1 <= d <= days_in_month y m.
Proof.
  unfold valid_date. intros H. repeat (apply andb_prop in H as [H ?]).
  repeat match goal with
         | H : (_ <=? _) = true |- _ => apply Z.leb_le in H
         end.
  lia.
Qed.

(** The days of a year up to the end of month [m]. *)
Lemma month_end (y m : Z) :
  1 <= m <= 12 ->
  0 <= days_before_month y m /\
  days_before_month y m + days_in_month y m
  = (if m =? 12 then 365 + (if is_leap y then 1 else 0)
     else days_before_month y (m + 1)).
Proof.
  intros Hm. apply month_cases in Hm.
  unfold days_before_month, days_in_month.
  destruct (is_leap y);
    repeat (destruct Hm as [-> | Hm]; [vm_compute; split; [discriminate|reflexivity]|]);
    subst; vm_compute; (split; [discriminate|reflexivity]).
Qed.

Lemma days_in_month_pos (y m : Z) : 1 <= m <= 12 -> 1 <= days_in_month y m.
Proof.
  intros Hc. apply month_cases in Hc. unfold days_in_month.
  destruct (is_leap y);
    repeat (destruct Hc as [-> | Hc]; [vm_compute; discriminate|]);
    rewrite Hc; vm_compute; discriminate.
Qed.

Lemma days_before_month_mono (y m1 m2 : Z) :
  1 <= m1 -> m1 <= m2 -> m2 <= 12 ->
  days_before_month y m1 <= days_before_month y m2.
Proof.
  intros H1 H12 H2.
  assert (Hk : forall k : nat, m1 + Z.of_nat k <= 12 ->
            days_before_month y m1 <= days_before_month y (m1 + Z.of_nat k)).
  { induction k as [|k IH]; intros Hle.
    - replace (m1 + Z.of_nat 0) with m1 by lia. lia.
    - replace (m1 + Z.of_nat (S k)) with (m1 + Z.of_nat k + 1) by lia.
      destruct (month_end y (m1 + Z.of_nat k) ltac:(lia)) as [_ He].
      destruct (m1 + Z.of_nat k =? 12) eqn:E; [lia|].
      pose proof (days_in_month_pos y (m1 + Z.of_nat k) ltac:(lia)).
      specialize (IH ltac:(lia)). lia. }
  specialize (Hk (Z.to_nat (m2 - m1)) ltac:(lia)).
  replace (m1 + Z.of_nat (Z.to_nat (m2 - m1))) with m2 in Hk by lia. exact Hk.
Qed.

Lemma day_of_year_bound (y m d : Z) :
  valid_date y m d = true ->
  1 <= days_before_month y m + d <= 365 + (if is_leap y then 1 else 0).
Proof.
  intros Hv. apply valid_date_bounds in Hv as (Hy & Hm & Hd).
  destruct (month_end y m Hm) as [H0 He].
  destruct (m =? 12) eqn:E.
  - lia.
  - apply Z.eqb_neq in E.
    pose proof (days_before_month_mono y (m + 1) 12 ltac:(lia) ltac:(lia) ltac:(lia)).
    destruct (month_end y 12 ltac:(lia)) as [_ He12]. cbn [Z.eqb Pos.eqb] in He12.
    pose proof (days_in_month_pos y 12 ltac:(lia)).
    lia.
Qed.

(** The ordinal grows with the date. *)
Lemma ymd2ord_lt (y1 m1 d1 y2 m2 d2 : Z) :
  valid_date y1 m1 d1 = true -> valid_date y2 m2 d2 = true ->
  y1 < y2 \/ y1 = y2 /\ (m1 < m2 \/ m1 = m2 /\ d1 < d2) ->
  ymd2ord y1 m1 d1 < ymd2ord y2 m2 d2.
Proof.
  intros Hv1 Hv2 Hlt. unfold ymd2ord.
  pose proof (day_of_year_bound _ _ _ Hv1) as Hb1.
  pose proof (day_of_year_bound _ _ _ Hv2) as Hb2.
  apply valid_date_bounds in Hv1 as (Hy1 & Hm1 & Hd1).
  apply valid_date_bounds in Hv2 as (Hy2 & Hm2 & Hd2).
  destruct Hlt as [Hy | [-> [Hm | [-> Hd]]]].
  - pose proof (days_before_year_mono (y1 + 1) y2 ltac:(lia)).
    rewrite days_before_year_succ in *. lia.
  - destruct (month_end y2 m1 Hm1) as [_ He].
    destruct (m1 =? 12) eqn:E; [lia|].
    pose proof (days_before_month_mono y2 (m1 + 1) m2 ltac:(lia) ltac:(lia) ltac:(lia)).
    lia.
  - lia.
Qed.

Lemma ymd2ord_compare (y1 m1 d1 y2 m2 d2 : Z) :
  valid_date y1 m1 d1 = true -> valid_date y2 m2 d2 = true ->
  lex_compare [y1; m1; d1] [y2; m2; d2] = (ymd2ord y1 m1 d1 ?= ymd2ord y2 m2 d2).
Proof.
  intros Hv1 Hv2. cbn [lex_compare]. symmetry.
  destruct (Z.compare_spec y1 y2) as [-> | Hy | Hy].
  - destruct (Z.compare_spec m1 m2) as [-> | Hm | Hm].
    + destruct (Z.compare_spec d1 d2) as [-> | Hd | Hd].
      * apply Z.compare_refl.
      * apply Z.compare_lt_iff, ymd2ord_lt; auto.
      * apply Z.compare_gt_iff, ymd2ord_lt; auto.
    + apply Z.compare_lt_iff, ymd2ord_lt; auto.
    + apply Z.compare_gt_iff, ymd2ord_lt; auto.
  - apply Z.compare_lt_iff, ymd2ord_lt; auto.
  - apply Z.compare_gt_iff, ymd2ord_lt; auto.
Qed.

Lemma ymd2ord_inj (y1 m1 d1 y2 m2 d2 : Z) :
  valid_date y1 m1 d1 = true -> valid_date y2 m2 d2 = true ->
  ymd2ord y1 m1 d1 = ymd2ord y2 m2 d2 -> (y1, m1, d1) = (y2, m2, d2).
Proof.
  intros Hv1 Hv2 He.
  pose proof (ymd2ord_compare _ _ _ _ _ _ Hv1 Hv2) as Hc.
  rewrite He, Z.compare_refl in Hc. cbn [lex_compare] in Hc.
  destruct (Z.compare_spec y1 y2) as [-> | ? | ?]; try discriminate.
  destruct (Z.compare_spec m1 m2) as [-> | ? | ?]; try discriminate.
  destruct (Z.compare_spec d1 d2) as [-> | ? | ?]; try discriminate.
  reflexivity.
Qed.

Lemma ymd2ord_range (y m d : Z) :
  valid_date y m d = true -> 1 <= ymd2ord y m d <= MAXORDINAL.
Proof.
  intros Hv. pose proof (day_of_year_bound _ _ _ Hv) as Hb.
  apply valid_date_bounds in Hv as (Hy & Hm & Hd). unfold ymd2ord.
  pose proof (days_before_year_mono 1 y ltac:(lia)) as H1.
  pose proof (days_before_year_mono (y + 1) 10000 ltac:(lia)) as H2.
  rewrite days_before_year_succ in H2.
  change (days_before_year 1) with 0 in H1.
  change (days_before_year 10000) with 3652059 in H2.
  unfold MAXORDINAL. lia.
Qed.

Lemma month_day_checked :
  forallb (fun n => month_day_ok true n && month_day_ok false n) (range 365) = true.
Proof. vm_compute. reflexivity. Qed.

Lemma month_day_spec (leapyear : bool) (n : Z) :
  0 <= n < 365 -> month_day_ok leapyear n = true.
Proof.
  intros Hn. pose proof month_day_checked as H. rewrite forallb_forall in H.
  assert (Hin : In n (range 365)).
  { unfold range. apply in_map_iff. exists (Z.to_nat n).
    split; [lia|]. apply in_seq. lia. }
  apply H in Hin. apply andb_prop in Hin as [Ht Hf].
  destruct leapyear; assumption.
Qed.

Lemma days_before_year_split (a b c e : Z) :
  0 <= a -> 0 <= b <= 3 -> 0 <= c <= 24 -> 0 <= e <= 3 ->
  days_before_year (400 * a + 100 * b + 4 * c + e + 1)
  = 146097 * a + 36524 * b + 1461 * c + 365 * e.
Proof.
  intros Ha Hb Hc He. unfold days_before_year. cbv zeta.
  replace (400 * a + 100 * b + 4 * c + e + 1 - 1)
    with (400 * a + 100 * b + 4 * c + e) by lia.
  assert (H400 : (400 * a + 100 * b + 4 * c + e) / 400 = a).
  { symmetry. apply (Z.div_unique _ 400 a (100 * b + 4 * c + e)); lia. }
  assert (H100 : (400 * a + 100 * b + 4 * c + e) / 100 = 4 * a + b).
  { symmetry. apply (Z.div_unique _ 100 (4 * a + b) (4 * c + e)); lia. }
  assert (H4 : (400 * a + 100 * b + 4 * c + e) / 4 = 100 * a + 25 * b + c).
  { symmetry. apply (Z.div_unique _ 4 (100 * a + 25 * b + c) e); lia. }
  rewrite H400, H100, H4. lia.
Qed.

Lemma is_leap_split (a b c e : Z) :
  0 <= a -> 0 <= b <= 3 -> 0 <= c <= 24 -> 0 <= e <= 3 ->
  is_leap (400 * a + 100 * b + 4 * c + e + 1)
  = (e =? 3) && (negb (c =? 24) || (b =? 3)).
Proof.
  intros Ha Hb Hc He. unfold is_leap.
  set (y := 400 * a + 100 * b + 4 * c + e + 1).
  assert (H4 : y mod 4 = (e + 1) mod 4).
  { unfold y. replace (400 * a + 100 * b + 4 * c + e + 1)
      with (e + 1 + (100 * a + 25 * b + c) * 4) by lia.
    apply Z.mod_add. lia. }
  assert (H100 : y mod 100 = (4 * c + e + 1) mod 100).
  { unfold y. replace (400 * a + 100 * b + 4 * c + e + 1)
      with (4 * c + e + 1 + (4 * a + b) * 100) by lia.
    apply Z.mod_add. lia. }
  assert (H400 : y mod 400 = (100 * b + 4 * c + e + 1) mod 400).
  { unfold y. replace (400 * a + 100 * b + 4 * c + e + 1)
      with (100 * b + 4 * c + e + 1 + a * 400) by lia.
    apply Z.mod_add. lia. }
  rewrite H4, H100, H400. clear H4 H100 H400 y.
  destruct (e =? 3) eqn:Ee.
  - apply Z.eqb_eq in Ee. subst e.
    change ((3 + 1) mod 4) with 0. cbn [Z.eqb andb].
    destruct (c =? 24) eqn:Ec.
    + apply Z.eqb_eq in Ec. subst c.
      change ((4 * 24 + 3 + 1) mod 100) with 0. cbn [Z.eqb negb orb].
      destruct (b =? 3) eqn:Eb.
      * apply Z.eqb_eq in Eb. subst b. reflexivity.
      * apply Z.eqb_neq in Eb.
        rewrite Z.mod_small by lia.
        destruct (100 * b + 4 * 24 + 3 + 1 =? 0) eqn:E; [lia|reflexivity].
    + apply Z.eqb_neq in Ec. rewrite (Z.mod_small (4 * c + 3 + 1)) by lia.
      destruct (4 * c + 3 + 1 =? 0) eqn:E; [lia|reflexivity].
  - apply Z.eqb_neq in Ee. rewrite (Z.mod_small (e + 1)) by lia.
    destruct (e + 1 =? 0) eqn:E; [lia|reflexivity].
Qed.

Lemma ord2ymd_unfold (n : Z) :
  ord2ymd n
  = let n0 := n - 1 in
    let n400 := n0 / DI400Y in let r400 := n0 mod DI400Y in
    let n100 := r400 / DI100Y in let r100 := r400 mod DI100Y in
    let n4 := r100 / DI4Y in let r4 := r100 mod DI4Y in
    let n1 := r4 / 365 in let r1 := r4 mod 365 in
    let y := n400 * 400 + 1 + n100 * 100 + n4 * 4 + n1 in
    if (n1 =? 4) || (n100 =? 4) then (y - 1, 12, 31)
    else
      let leapyear := (n1 =? 3) && (negb (n4 =? 24) || (n100 =? 3)) in
      (y, fst (month_day leapyear r1), snd (month_day leapyear r1)).
Proof.
  unfold ord2ymd, month_day. cbv zeta.
  destruct (_ || _); [reflexivity|].
  destruct (_ <? _); reflexivity.
Qed.

(** [_ord2ymd] inverts [_ymd2ord] on the ordinals of the years 1..9999. *)
Lemma ord2ymd_correct (n : Z) :
  1 <= n <= MAXORDINAL ->
  let '(y, m, d) := ord2ymd n in
  valid_date y m d = true /\ ymd2ord y m d = n.
Proof.
  intros Hn. unfold MAXORDINAL in Hn. rewrite ord2ymd_unfold. cbv zeta.
  unfold DI400Y, DI100Y, DI4Y.
  pose proof (Z.div_mod (n - 1) 146097 ltac:(lia)) as E400.
  pose proof (Z.mod_pos_bound (n - 1) 146097 ltac:(lia)) as B400.
  set (n400 := (n - 1) / 146097) in *. set (r400 := (n - 1) mod 146097) in *.
  pose proof (Z.div_mod r400 36524 ltac:(lia)) as E100.
  pose proof (Z.mod_pos_bound r400 36524 ltac:(lia)) as B100.
  set (n100 := r400 / 36524) in *. set (r100 := r400 mod 36524) in *.
  pose proof (Z.div_mod r100 1461 ltac:(lia)) as E4.
  pose proof (Z.mod_pos_bound r100 1461 ltac:(lia)) as B4.
  set (n4 := r100 / 1461) in *. set (r4 := r100 mod 1461) in *.
  pose proof (Z.div_mod r4 365 ltac:(lia)) as E1.
  pose proof (Z.mod_pos_bound r4 365 ltac:(lia)) as B1.
  set (n1 := r4 / 365) in *. set (r1 := r4 mod 365) in *.
  clearbody n400 r400 n100 r100 n4 r4 n1 r1.
  assert (H400 : 0 <= n400 <= 24) by lia.
  assert (H100 : 0 <= n100 <= 4) by lia.
  assert (H4 : 0 <= n4 <= 24) by lia.
  assert (H1 : 0 <= n1 <= 4) by lia.
  destruct (n1 =? 4) eqn:En1; [|destruct (n100 =? 4) eqn:En100]; cbn [orb].
  - apply Z.eqb_eq in En1. subst n1.
    assert (Hr1 : r1 = 0) by lia. assert (Hn4 : n4 <= 23) by lia.
    assert (Hn100 : n100 <= 3) by lia.
    replace (n400 * 400 + 1 + n100 * 100 + n4 * 4 + 4 - 1)
      with (400 * n400 + 100 * n100 + 4 * n4 + 3 + 1) by lia.
    pose proof (days_before_year_split n400 n100 n4 3
                  ltac:(lia) ltac:(lia) ltac:(lia) ltac:(lia)) as Hd.
    pose proof (is_leap_split n400 n100 n4 3
                  ltac:(lia) ltac:(lia) ltac:(lia) ltac:(lia)) as Hl.
    assert (Hn4' : (n4 =? 24) = false) by (apply Z.eqb_neq; lia).
    rewrite Hn4' in Hl. cbn in Hl.
    set (y := 400 * n400 + 100 * n100 + 4 * n4 + 3 + 1) in *.
    unfold valid_date, ymd2ord, days_in_month, days_before_month.
    rewrite Hl, Hd. cbn [Z.eqb Z.ltb Z.compare Pos.compare Pos.compare_cont Pos.eqb andb].
    change (table DAYS_IN_MONTH 12) with 31.
    change (table DAYS_BEFORE_MONTH 12) with 334.
    split; [|lia].
    repeat (apply andb_true_intro; split); apply Z.leb_le; unfold y; lia.
  - apply Z.eqb_eq in En100. subst n100.
    assert (r100 = 0 /\ n4 = 0 /\ r4 = 0 /\ n1 = 0 /\ r1 = 0) as (-> & -> & -> & -> & ->)
      by lia.
    assert (Hn400 : n400 <= 23) by lia.
    replace (n400 * 400 + 1 + 4 * 100 + 0 * 4 + 0 - 1)
      with (400 * n400 + 100 * 3 + 4 * 24 + 3 + 1) by lia.
    pose proof (days_before_year_split n400 3 24 3
                  ltac:(lia) ltac:(lia) ltac:(lia) ltac:(lia)) as Hd.
    pose proof (is_leap_split n400 3 24 3
                  ltac:(lia) ltac:(lia) ltac:(lia) ltac:(lia)) as Hl.
    cbn in Hl.
    set (y := 400 * n400 + 100 * 3 + 4 * 24 + 3 + 1) in *.
    unfold valid_date, ymd2ord, days_in_month, days_before_month.
    rewrite Hl, Hd. cbn [Z.eqb Z.ltb Z.compare Pos.compare Pos.compare_cont Pos.eqb andb].
    change (table DAYS_IN_MONTH 12) with 31.
    change (table DAYS_BEFORE_MONTH 12) with 334.
    split; [|lia].
    repeat (apply andb_true_intro; split); apply Z.leb_le; unfold y; lia.
  - apply Z.eqb_neq in En1, En100.
    replace (n400 * 400 + 1 + n100 * 100 + n4 * 4 + n1)
      with (400 * n400 + 100 * n100 + 4 * n4 + n1 + 1) by lia.
    pose proof (days_before_year_split n400 n100 n4 n1
                  ltac:(lia) ltac:(lia) ltac:(lia) ltac:(lia)) as Hd.
    pose proof (is_leap_split n400 n100 n4 n1
                  ltac:(lia) ltac:(lia) ltac:(lia) ltac:(lia)) as Hl.
    set (y := 400 * n400 + 100 * n100 + 4 * n4 + n1 + 1) in *.
    set (leapyear := (n1 =? 3) && (negb (n4 =? 24) || (n100 =? 3))) in *.
    pose proof (month_day_spec leapyear r1 ltac:(lia)) as Hok.
    unfold month_day_ok in Hok.
    destruct (month_day leapyear r1) as [m d]. cbn [fst snd].
    repeat (apply andb_prop in Hok as [Hok ?]).
    repeat match goal with
           | H : (_ <=? _) = true |- _ => apply Z.leb_le in H
           | H : (_ =? _) = true |- _ => apply Z.eqb_eq in H
           end.
    unfold valid_date, ymd2ord, days_in_month, days_before_month.
    rewrite Hl, Hd. split; [|lia].
    repeat (apply andb_true_intro; split); apply Z.leb_le; try assumption; unfold y; lia.
Qed.

Lemma ord2ymd_ymd2ord (y m d : Z) :
  valid_date y m d = true -> ord2ymd (ymd2ord y m d) = (y, m, d).
Proof.
  intros Hv. pose proof (ord2ymd_correct _ (ymd2ord_range _ _ _ Hv)) as Hc.
  destruct (ord2ymd (ymd2ord y m d)) as [[y' m'] d']. destruct Hc as [Hv' He].
  apply ymd2ord_inj; assumption.
Qed.

(** *** Adding days *)

Lemma valid_datetime_date (t : datetime) :
  valid_datetime t = true ->
  valid_date (year t) (month t) (day t) = true /\
  valid_time (hour t) (minute t) (second t) (microsecond t) = true.
Proof. unfold valid_datetime. intros H. apply andb_prop in H. exact H. Qed.

Lemma days_after_spec (t : datetime) (n : Z) :
  valid_datetime t = true -> 1 <= toordinal t + n <= MAXORDINAL ->
  valid_datetime (days_after t n) = true /\
  toordinal (days_after t n) = toordinal t + n /\
  hour (days_after t n) = hour t /\ minute (days_after t n) = minute t /\
  second (days_after t n) = second t /\
  microsecond (days_after t n) = microsecond t.
Proof.
  intros Hv Hn. apply valid_datetime_date in Hv as [_ Ht].
  pose proof (ord2ymd_correct _ Hn) as Hc. unfold days_after.
  destruct (ord2ymd (toordinal t + n)) as [[y m] d]. destruct Hc as [Hv' He].
  unfold valid_datetime, toordinal. cbn. rewrite Hv', Ht. repeat split. exact He.
Qed.

Lemma days_after_0 (t : datetime) : valid_datetime t = true -> days_after t 0 = t.
Proof.
  intros Hv. apply valid_datetime_date in Hv as [Hd _].
  unfold days_after, toordinal. rewrite Z.add_0_r, ord2ymd_ymd2ord by exact Hd.
  destruct t; reflexivity.
Qed.

(** *** Comparing timestamps *)

Lemma dt_compare_instant (a b : datetime) :
  valid_datetime a = true -> valid_datetime b = true ->
  dt_compare a b = lex_compare (instant a) (instant b).
Proof.
  intros Ha Hb. apply valid_datetime_date in Ha as [Ha _].
  apply valid_datetime_date in Hb as [Hb _].
  pose proof (ymd2ord_compare _ _ _ _ _ _ Ha Hb) as Hc.
  unfold dt_compare, dt_fields, instant, toordinal.
  cbn [lex_compare] in *. rewrite <- Hc.
  destruct (year a ?= year b); try reflexivity.
  destruct (month a ?= month b); try reflexivity.
  destruct (day a ?= day b); reflexivity.
Qed.

(** ** Scheduled times *)

Lemma scheduled_time_parses (start : datetime) (i : Z) :
  valid_datetime start = true -> 1 <= toordinal start + i <= MAXORDINAL ->
  valid_datetime (days_after start i) = true /\
  fromisoformat (isoformat (days_after start i)) = Some (days_after start i) /\
  toordinal (days_after start i) = toordinal start + i /\
  time_of_day (days_after start i) = time_of_day start.
Proof.
  intros Hv Hi.
  destruct (days_after_spec start i Hv Hi) as (Hv' & Ho & Hh & Hm & Hs & Hu).
  split; [exact Hv'|]. split; [apply fromisoformat_isoformat; exact Hv'|].
  split; [exact Ho|]. unfold time_of_day. rewrite Hh, Hm, Hs, Hu. reflexivity.
Qed.

Lemma schedule_daily_run (campaign_id campaign_title : string) (platforms : list string)
    (content_per_platform : gmap string string) (start_date : string)
    (start : datetime) (w : World) :
  fromisoformat start_date = Some start ->
  toordinal start + 6 <= MAXORDINAL ->
  let news := occurrences campaign_id campaign_title content_per_platform
                "_day" " - Day " (fun i => i) 7%nat start platforms in
  schedule_campaign_across_platforms campaign_id campaign_title platforms
    content_per_platform start_date "daily" w
  = (Ok (seq (length (objects w)) (length news)), with_events w news)
  /\ length news = (7 * length platforms)%nat.
Proof.
  intros Hstart Hmax news. split.
  - unfold schedule_campaign_across_platforms.
    rewrite Hstart. cbn [lift_option]. unfold bind at 1, ret at 1.
    apply (repeated_expansion campaign_id campaign_title platforms content_per_platform
             start_date start Hstart "_day" " - Day " (fun i => i) 7%nat);
      [intros i Hi; lia|reflexivity].
  - unfold news, occurrences. apply length_flat_map_const. intros p.
    rewrite length_map. unfold range. rewrite length_map, length_seq. reflexivity.
Qed.



(** ** Calendars made by scheduling *)













(** ** Planning, scheduling and executing in sequence *)

Lemma lex_compare_antisym (a : list Z) : forall b,
  lex_compare b a = CompOpp (lex_compare a b).
Proof.
  induction a as [|x a IH]; intros [|y b]; cbn; try reflexivity.
  rewrite (Z.compare_antisym x y). destruct (x ?= y); cbn; [apply IH| |]; reflexivity.
Qed.

Lemma instant_days_after (t : datetime) (i : Z) :
  valid_datetime t = true -> 1 <= toordinal t + i <= MAXORDINAL ->
  instant (days_after t i) = (toordinal t + i) :: time_of_day t.
Proof.
  intros Hv Hi.
  destruct (days_after_spec t i Hv Hi) as (_ & Ho & Hh & Hm & Hs & Hu).
  unfold instant, time_of_day. rewrite Ho, Hh, Hm, Hs, Hu. reflexivity.
Qed.

(** With the clock past the start, but by less than a day, the window of
    the next 7 days holds the days 2..7 of a daily schedule and not the
    first. *)
Lemma window_after_start (now0 now : datetime) (i : Z) :
  valid_datetime now0 = true -> valid_datetime now = true ->
  toordinal now0 + 6 <= MAXORDINAL -> toordinal now + 7 <= MAXORDINAL ->
  dt_compare now0 now = Lt -> dt_compare now (days_after now0 1) = Lt ->
  0 <= i < 7 ->
  dt_leb now (days_after now0 i) && dt_leb (days_after now0 i) (days_after now 7)
  = (1 <=? i).
Proof.
  intros Hv0 Hv Hmax0 Hmax Hlt Hday Hi.
  pose proof (valid_datetime_ordinal now0 Hv0) as Ho0.
  pose proof (valid_datetime_ordinal now Hv) as Ho.
  destruct (days_after_spec now0 i Hv0 ltac:(lia)) as (Hvi & _).
  destruct (days_after_spec now0 1 Hv0 ltac:(lia)) as (Hv1 & _).
  destruct (days_after_spec now 7 Hv ltac:(lia)) as (Hv7 & _).
  unfold dt_leb.
  rewrite (dt_compare_instant now (days_after now0 i)) by assumption.
  rewrite (dt_compare_instant (days_after now0 i) (days_after now 7)) by assumption.
  rewrite dt_compare_instant in Hlt, Hday by assumption.
  rewrite (instant_days_after now0 1) in Hday by (assumption || lia).
  rewrite (instant_days_after now0 i), (instant_days_after now 7)
    by (assumption || lia).
  change (instant now0) with (toordinal now0 :: time_of_day now0) in *.
  change (instant now) with (toordinal now :: time_of_day now) in *.
  set (o0 := toordinal now0) in *. set (o := toordinal now) in *.
  set (T0 := time_of_day now0) in *. set (T := time_of_day now) in *.
  clearbody o0 o T0 T. cbn [lex_compare] in *.
  assert (Hsecond : (o0 + i ?= o + 7) = Lt).
  { apply Z.compare_lt_iff.
    destruct (Z.compare_spec o0 o); [lia|lia|discriminate]. }
  rewrite Hsecond, andb_true_r.
  destruct (Z.compare_spec o0 o) as [<- | Hlo | Hgt]; [| |discriminate].
  - destruct (Z.compare_spec o0 (o0 + i)) as [He | Hl | Hg]; [| |lia].
    + assert (i = 0) as -> by lia. rewrite (lex_compare_antisym T0 T), Hlt. reflexivity.
    + destruct (1 <=? i) eqn:E; [reflexivity|lia].
  - destruct (Z.compare_spec o (o0 + 1)) as [-> | Hl | Hg]; [|lia|discriminate].
    destruct (Z.compare_spec (o0 + 1) (o0 + i)) as [He | Hl | Hg].
    + assert (i = 1) as -> by lia. rewrite Hday. reflexivity.
    + destruct (1 <=? i) eqn:E; [reflexivity|lia].
    + assert (i = 0) as -> by lia. reflexivity.
Qed.

Lemma filter_seq_length {A} (pred : nat -> bool) (f : A -> bool) (l : list A) :
  forall base,
    (forall j x, l !! j = Some x -> pred (base + j)%nat = f x) ->
    length (List.filter pred (seq base (length l))) = length (List.filter f l).
Proof.
  induction l as [|x l IH]; intros base H; [reflexivity|].
  cbn [length seq List.filter].
  rewrite <- (H 0%nat x eq_refl), Nat.add_0_r.
  assert (Hrec : length (List.filter pred (seq (S base) (length l)))
                 = length (List.filter f l)).
  { apply IH. intros j y Hj. rewrite <- (H (S j) y Hj). f_equal. lia. }
  destruct (pred base); cbn [length]; rewrite Hrec; reflexivity.
Qed.

Lemma filter_week_length {A B} (f : B -> bool) (mk : A -> Z -> B) (l : list A) :
  (forall p i, In p l -> 0 <= i < 7 -> f (mk p i) = (1 <=? i)) ->
  length (List.filter f (flat_map (fun p => map (mk p) (range 7)) l))
  = (6 * length l)%nat.
Proof.
  intros H. induction l as [|p l IH]; [reflexivity|].
  cbn [flat_map length]. rewrite List.filter_app, length_app.
  rewrite IH by (intros q i Hq Hi; apply H; [right; exact Hq|exact Hi]).
  change (range 7) with [0; 1; 2; 3; 4; 5; 6]. cbn [map List.filter].
  rewrite !H by (first [left; reflexivity | lia]). cbn. lia.
Qed.

Lemma with_events_frame (es : list CampaignEvent) : forall w,
  campaigns (with_events w es) = campaigns w /\
  clock_ticks (with_events w es) = clock_ticks w /\
  executed_campaigns (with_events w es) = executed_campaigns w /\
  execution_log (with_events w es) = execution_log w /\
  files (with_events w es) = files w.
Proof.
  induction es as [|e es IH]; intros w; [repeat split|].
  cbn [with_events fold_left]. destruct (IH (with_event w e)) as (H1 & H2 & H3 & H4 & H5).
  unfold with_events in *. rewrite H1, H2, H3, H4, H5. repeat split.
Qed.

Section Workflow.
Variable now_at : nat -> datetime.
Variable random_at : nat -> float.
Variable hash : string -> Z.
Variable timestamp_repr : datetime -> string.

Lemma plan_campaign_run (campaign_name target_audience campaign_goal : string)
    (platforms : list string) (budget : string) (duration_days : Z)
    (start_date : option string) (w : World) :
  let tick := match start_date with None => 1%nat | Some _ => 0%nat end in
  let plan :=
    mk_planned ("camp_" +:+ timestamp_repr (now_at (tick + clock_ticks w)))
      campaign_name target_audience campaign_goal platforms budget
      (match start_date with
       | None => isoformat (now_at (clock_ticks w))
       | Some s => s
       end)
      duration_days
      (generate_platform_strategies platforms campaign_goal)
      (generate_platform_content platforms campaign_name target_audience) in
  exists w1,
    plan_campaign now_at timestamp_repr campaign_name target_audience campaign_goal
      platforms budget duration_days start_date w = (Ok plan, w1) /\
    campaigns w1 = <[planned_id plan := registered plan]> (campaigns w) /\
    objects w1 = objects w /\ events w1 = events w /\
    executed_campaigns w1 = executed_campaigns w /\
    execution_log w1 = execution_log w /\
    clock_ticks w1 = S (tick + clock_ticks w) /\
    length (stdout w1) = (length (stdout w) + 6)%nat.
Proof.
  cbv zeta.
  destruct start_date as [s|];
    cbv beta iota zeta delta [plan_campaign bind ret print datetime_now];
    (eexists; split; [reflexivity|]); cbn; rewrite !length_app; cbn;
    repeat split; lia.
Qed.

Lemma schedule_campaigns_daily_run (cid : string) (plan : CampaignPlan)
    (start : datetime) (w : World) :
  campaigns w !! cid = Some plan ->
  fromisoformat (plan_start_date plan) = Some start ->
  toordinal start + 6 <= MAXORDINAL ->
  let news := occurrences cid (plan_name plan) (plan_content plan)
                "_day" " - Day " (fun i => i) 7%nat start (plan_platforms plan) in
  exists w2,
    schedule_campaigns cid "daily" w
    = (Ok (seq (length (objects w)) (length news)), w2) /\
    length news = (7 * length (plan_platforms plan))%nat /\
    objects w2 = objects w ++ news /\
    events w2 = events w ++ seq (length (objects w)) (length news) /\
    campaigns w2 = campaigns w /\ clock_ticks w2 = clock_ticks w /\
    executed_campaigns w2 = executed_campaigns w /\
    execution_log w2 = execution_log w.
Proof.
  intros Hplan Hstart Hmax news. unfold schedule_campaigns. rewrite Hplan.
  unfold bind at 1, print at 1. unfold bind at 1, print at 1.
  pose proof (fun w0 => schedule_daily_run cid (plan_name plan) (plan_platforms plan)
                          (plan_content plan) (plan_start_date plan) start w0
                          Hstart Hmax) as Hrun.
  cbv zeta in Hrun. fold news in Hrun.
  erewrite bind_Ok; [|exact (proj1 (Hrun _))].
  pose proof (proj2 (Hrun w)) as Hlen.
  eexists. split; [reflexivity|]. split; [exact Hlen|].
  cbn [bind print ret snd objects events campaigns clock_ticks executed_campaigns
       execution_log set_stdout].
  rewrite with_events_objects, with_events_events.
  match goal with
  | |- context [with_events ?w0 news] =>
      destruct (with_events_frame news w0) as (-> & -> & -> & -> & _)
  end.
  repeat split.
Qed.

Lemma new_objects_lookup {A} (old news : list A) (j : nat) :
  (old ++ news) !! (length old + j)%nat = news !! j.
Proof. rewrite lookup_app_r by lia. f_equal. lia. Qed.



Lemma dt_compare_antisym (a b : datetime) :
  dt_compare b a = CompOpp (dt_compare a b).
Proof. apply lex_compare_antisym. Qed.

(** X17: planning without a start date, scheduling daily and then
    executing the scheduled campaigns never posts the first day: when the
    clock at the time of execution is later than at the time of planning
    (by less than a day), [get_upcoming_events] leaves out the events
    scheduled at the planning time itself, so of the 7 events of each
    platform 6 are posted and marked, and those of the first day stay as
    they are. *)
Theorem first_day_is_not_executed (campaign_name target_audience campaign_goal : string)
    (platforms : list string) (budget : string) (duration_days : Z) (w : World) :
  events w = [] ->
  valid_datetime (now_at (clock_ticks w)) = true ->
  toordinal (now_at (clock_ticks w)) + 6 <= MAXORDINAL ->
  exists plan w1 addrs w2,
    plan_campaign now_at timestamp_repr campaign_name target_audience campaign_goal
      platforms budget duration_days None w = (Ok plan, w1) /\
    schedule_campaigns (planned_id plan) "daily" w1 = (Ok addrs, w2) /\
    length addrs = (7 * length platforms)%nat /\
    clock_ticks w2 = S (S (clock_ticks w)) /\
    executed_campaigns w2 = executed_campaigns w /\
    forall w3,
      objects w3 = objects w2 -> events w3 = events w2 ->
      valid_datetime (now_at (clock_ticks w3)) = true ->
      toordinal (now_at (clock_ticks w3)) + 7 <= MAXORDINAL ->
      dt_compare (now_at (clock_ticks w)) (now_at (clock_ticks w3)) = Lt ->
      dt_compare (now_at (clock_ticks w3)) (days_after (now_at (clock_ticks w)) 1) = Lt ->
      exists result w4,
        execute_scheduled_campaigns now_at random_at hash timestamp_repr w3
        = (Ok result, w4) /\
        length (executed_campaigns w4)
        = (length (executed_campaigns w3) + 6 * length platforms)%nat /\
        match result with
        | NoCampaigns => platforms = []
        | Summary _ n _ posts =>
            n = Z.of_nat (6 * length platforms)
            /\ length posts = (6 * length platforms)%nat
        end /\
        (forall (a : addr) e,
           objects w3 !! a = Some e ->
           scheduled_time e = planned_start_date plan ->
           objects w4 !! a = Some e).
Proof.
  intros Hempty Hv0 Hmax0. set (now0 := now_at (clock_ticks w)) in *.
  destruct (plan_campaign_run campaign_name target_audience campaign_goal platforms
              budget duration_days None w)
    as (w1 & Hplan & Hc1 & Ho1 & He1 & Hh1 & _ & Hck1 & _).
  cbv zeta in Hplan, Hc1.
  match type of Hplan with _ = (Ok ?p, _) => set (plan := p) in * end.
  assert (Hreg : campaigns w1 !! planned_id plan = Some (registered plan))
    by (rewrite Hc1; apply lookup_insert_eq).
  assert (Hstart : fromisoformat (plan_start_date (registered plan)) = Some now0)
    by (apply fromisoformat_isoformat; exact Hv0).
  destruct (schedule_campaigns_daily_run (planned_id plan) (registered plan) now0 w1
              Hreg Hstart Hmax0)
    as (w2 & Hrun & Hlen & Ho2 & He2 & _ & Hck2 & Hh2 & _).
  cbv zeta in Hrun, Hlen, Ho2, He2.
  match type of Hlen with length ?n = _ => set (news := n) in * end.
  exists plan, w1, (seq (length (objects w1)) (length news)), w2.
  split; [exact Hplan|]. split; [exact Hrun|].
  split; [rewrite length_seq; exact Hlen|].
  split; [rewrite Hck2, Hck1; reflexivity|].
  split; [rewrite Hh2, Hh1; reflexivity|].
  intros w3 Ho3 He3 Hv Hmax Hlt Hday. set (now := now_at (clock_ticks w3)) in *.
  pose proof (valid_datetime_ordinal now0 Hv0) as Hord0.
  pose proof (valid_datetime_ordinal now Hv) as Hord.
  assert (Hfuture : add_days now 7 = Ok (days_after now 7))
    by (apply add_days_in_range; [exact Hv|lia|exact Hmax]).
  set (future := days_after now 7) in *.
  set (in_week := fun e : CampaignEvent =>
         match fromisoformat (scheduled_time e) with
         | Some t => dt_leb now t && dt_leb t future
         | None => false
         end).
  assert (Hevents : events w3 = seq (length (objects w1)) (length news)).
  { rewrite He3, He2, He1, Hempty. reflexivity. }
  assert (Hobjects : objects w3 = objects w1 ++ news) by (rewrite Ho3; exact Ho2).
  assert (Hwin : forall (j : nat) x, news !! j = Some x ->
            in_window w3 now future (length (objects w1) + j)%nat = in_week x).
  { intros j x Hj. unfold in_window, parsed_time, in_week.
    rewrite Hobjects, new_objects_lookup, Hj. reflexivity. }
  assert (Hweek : forall p i, In p platforms -> 0 <= i < 7 ->
            in_week (mk_event (planned_id plan +:+ "_day" +:+ str_int (i + 1)) p
                       (campaign_name +:+ " - Day " +:+ str_int (i + 1))
                       (default "" (planned_content plan !! p))
                       (isoformat (days_after now0 i)) "Scheduled" [])
            = (1 <=? i)).
  { intros p i _ Hi. unfold in_week. cbn [scheduled_time].
    destruct (scheduled_time_parses now0 i Hv0 ltac:(lia)) as (_ & -> & _).
    apply window_after_start; assumption. }
  assert (Hparse : all_parse w3).
  { intros a Ha. rewrite Hevents in Ha. apply in_seq in Ha.
    destruct (lookup_lt_is_Some_2 news (a - length (objects w1))%nat ltac:(lia))
      as [e Hl].
    unfold parsed_time. rewrite Hobjects, lookup_app_r by lia. rewrite Hl.
    apply list_elem_of_lookup_2, list_elem_of_In in Hl.
    unfold news, occurrences in Hl.
    apply in_flat_map in Hl as (p & Hp & Hl).
    apply in_map_iff in Hl as (i & <- & Hi). apply range_bounds in Hi.
    cbn [scheduled_time].
    destruct (scheduled_time_parses now0 i Hv0 ltac:(lia)) as (_ & -> & _). eauto. }
  assert (Hcount : length (upcoming w3 now future) = (6 * length platforms)%nat).
  { unfold upcoming. rewrite (Permutation_length (sorted_by_perm _ _)).
    rewrite Hevents.
    transitivity (length (List.filter in_week news));
      [exact (filter_seq_length _ in_week news _ Hwin)|].
    unfold news, occurrences.
    apply (filter_week_length in_week
             (fun p i => mk_event (planned_id plan +:+ "_day" +:+ str_int (i + 1)) p
                           (campaign_name +:+ " - Day " +:+ str_int (i + 1))
                           (default "" (planned_content plan !! p))
                           (isoformat (days_after now0 i)) "Scheduled" [])).
    exact Hweek. }
  destruct (execute_scheduled_run now_at random_at hash timestamp_repr w3 future
              Hparse Hfuture)
    as (result & w4 & Hexec & _ & _ & Hobj4 & Hres).
  cbv zeta in Hobj4, Hres. fold now in Hobj4, Hres.
  exists result, w4. split; [exact Hexec|].
  assert (Hposts : length (executed_campaigns w4)
                   = (length (executed_campaigns w3) + 6 * length platforms)%nat
                   /\ match result with
                      | NoCampaigns => platforms = []
                      | Summary _ n _ posts =>
                          n = Z.of_nat (6 * length platforms)
                          /\ length posts = (6 * length platforms)%nat
                      end).
  { destruct result as [|ts n covered posts].
    - destruct Hres as [Hdue ->]. rewrite Hdue in Hcount. cbn in Hcount.
      split; [lia|]. destruct platforms; [reflexivity|discriminate].
    - destruct Hres as (_ & _ & -> & Hf2 & _ & ->).
      apply Forall2_length in Hf2. rewrite length_app, <- Hf2, Hcount.
      repeat split. }
  split; [apply Hposts|]. split; [apply Hposts|].
  intros a e Ha Htime. rewrite (Hobj4 a e Ha).
  destruct (in_dec Nat.eq_dec a (upcoming w3 now future)) as [Hin|]; [|reflexivity].
  exfalso. apply (upcoming_in_calendar w3 now future a) in Hin as [_ Hin].
  unfold in_window, parsed_time in Hin. rewrite Ha, Htime in Hin.
  cbn [planned_start_date plan] in Hin. fold now0 in Hin.
  rewrite fromisoformat_isoformat in Hin by exact Hv0.
  unfold dt_leb in Hin at 1. rewrite (dt_compare_antisym now0 now), Hlt in Hin.
  discriminate Hin.
Qed.

End Workflow.

(** ** Examples *)




Lemma first_day_is_not_executed_witness :
  events empty_world = [] /\
  valid_datetime (sample_clock (clock_ticks empty_world)) = true /\
  toordinal (sample_clock (clock_ticks empty_world)) + 6 <= MAXORDINAL /\
  exists plan w1 addrs w2,
    plan_campaign sample_clock sample_timestamp "Launch" "developers" "signups"
      ["LinkedIn"; "Mastodon"] "$500" 28 None empty_world = (Ok plan, w1) /\
    schedule_campaigns (planned_id plan) "daily" w1 = (Ok addrs, w2) /\
    length addrs = 14%nat /\
    exists result w4,
      execute_scheduled_campaigns sample_clock sample_random sample_hash
        sample_timestamp w2 = (Ok result, w4) /\
      length (executed_campaigns w4) = 12%nat.
Proof.
  assert (H1 : events empty_world = []) by reflexivity.
  assert (H2 : valid_datetime (sample_clock (clock_ticks empty_world)) = true)
    by reflexivity.
  assert (H3 : toordinal (sample_clock (clock_ticks empty_world)) + 6 <= MAXORDINAL)
    by (vm_compute; discriminate).
  split; [exact H1|]. split; [exact H2|]. split; [exact H3|].
  destruct (first_day_is_not_executed sample_clock sample_random sample_hash
              sample_timestamp "Launch" "developers" "signups"
              ["LinkedIn"; "Mastodon"] "$500" 28 empty_world H1 H2 H3)
    as (plan & w1 & addrs & w2 & Hplan & Hrun & Hlen & Hticks & Hhist & Hexec).
  exists plan, w1, addrs, w2. split; [exact Hplan|]. split; [exact Hrun|].
  split; [exact Hlen|].
  destruct (Hexec w2 eq_refl eq_refl) as (result & w4 & Hrun4 & Hlen4 & _).
  - rewrite Hticks. reflexivity.
  - rewrite Hticks. vm_compute. discriminate.
  - rewrite Hticks. reflexivity.
  - rewrite Hticks. reflexivity.
  - exists result, w4. split; [exact Hrun4|]. rewrite Hlen4, Hhist. reflexivity.
Defined.

(** ** The report of the simulator's analytics *)

Section ReportOfAnalytics.
Variable now_at : nat -> datetime.
Variable py_str : pyval -> string.
Variable float_comma : float -> string.

Lemma generate_performance_report_total (analytics : list (string * dict)) (w : World) :
  (forall entry, In entry analytics -> numeric_data (snd entry)) ->
  exists text,
    generate_performance_report now_at py_str float_comma analytics w
    = (Ok text, set_clock_ticks (S (clock_ticks w)) w).
Proof.
  intros Hn. unfold generate_performance_report, report_segments.
  unfold bind at 1. unfold bind at 1. unfold datetime_now at 1.
  set (w1 := set_clock_ticks (S (clock_ticks w)) w).
  destruct (sections_loop_total py_str float_comma analytics Hn [] w1) as [sections Hs].
  unfold bind at 1. rewrite Hs.
  destruct (sum_key_total "total_reach" analytics ltac:(cbn; tauto) Hn (VInt 0) w1 I)
    as (tr & Htr & Hntr).
  destruct (sum_key_total "total_engagements" analytics ltac:(cbn; tauto) Hn
              (VInt 0) w1 I) as (te & Hte & Hnte).
  destruct (sum_key_total "total_conversions" analytics ltac:(cbn; tauto) Hn
              (VInt 0) w1 I) as (tc & Htc & Hntc).
  unfold sum_key. unfold bind at 1. rewrite Htr.
  unfold bind at 1. rewrite Hte. unfold bind at 1. rewrite Htc.
  destruct (numeric_fmt_comma float_comma _ Hntr) as [? ->].
  destruct (numeric_fmt_comma float_comma _ Hnte) as [? ->].
  destruct (numeric_fmt_comma float_comma _ Hntc) as [? ->].
  destruct (numeric_is_positive _ Hntr) as [b ->].
  destruct (numeric_py_percent _ _ Hnte Hntr) as [? Hpc].
  unfold bind, lift, ret. destruct b; [rewrite Hpc|]; eexists; reflexivity.
Qed.

Lemma platform_analytics_numeric (history : list PostRecord) (platform : string) :
  numeric_data (platform_analytics history platform).
Proof.
  intros key Hkey. unfold platform_analytics.
  destruct (List.filter _ history) as [|p l].
  - cbn in Hkey.
    repeat (destruct Hkey as [<- | Hkey]; [exact I|]). destruct Hkey.
  - cbn in Hkey.
    repeat (destruct Hkey as [<- | Hkey];
            [cbn; repeat match goal with
                         | |- context [if ?b then _ else _] => destruct b
                         end; exact I|]).
    destruct Hkey.
Qed.

(** X18: the report of the simulator's own analytics is always produced:
    whatever posts the history holds, the orchestrator's
    [track_performance] returns the analytics of the five configured
    platforms after printing one line, the values under the reported keys
    are numbers (in the record without posts as in the full one), and
    [generate_performance_report] of these analytics returns a text and
    raises nothing; it reads the clock once and changes nothing else. *)
Theorem report_of_analytics_is_produced (w : World) :
  exists analytics text w1,
    orchestrator_track_performance w = (Ok analytics, w1) /\
    w1 = set_stdout (stdout w ++ [nl +:+ "📊 Tracking campaign performance..."]) w /\
    get_all_analytics w = (Ok analytics, w) /\
    map fst analytics = ["LinkedIn"; "Twitter"; "Instagram"; "Facebook"; "TikTok"] /\
    (forall entry, In entry analytics -> numeric_data (snd entry)) /\
    generate_performance_report now_at py_str float_comma analytics w1
    = (Ok text, set_clock_ticks (S (clock_ticks w1)) w1).
Proof.
  set (analytics := map (fun p => (p, platform_analytics (executed_campaigns w) p))
                      (map fst platform_configs)).
  assert (Hn : forall entry, In entry analytics -> numeric_data (snd entry)).
  { intros entry He. unfold analytics in He.
    apply in_map_iff in He as (p & <- & _). apply platform_analytics_numeric. }
  set (w1 := set_stdout (stdout w ++ [nl +:+ "📊 Tracking campaign performance..."]) w).
  destruct (generate_performance_report_total analytics w1 Hn) as [text Ht].
  exists analytics, text, w1.
  split.
  { unfold orchestrator_track_performance. unfold bind at 1, print at 1.
    fold w1. apply (get_all_analytics_entries w1). }
  split; [reflexivity|]. split; [apply get_all_analytics_entries|].
  split; [reflexivity|]. split; [exact Hn|exact Ht].
Qed.

End ReportOfAnalytics.
